(** * JavaSpringGenerator: a shallow embedding of the diagram-to-backend generator

    Source: frontend/src/uml/codegen/JavaSpringGenerator.ts, and, for the
    caller, the helpers of the editor's side bar that prepare the classes and
    relations and unpack the file map (module [Sidebar]).

    Conventions of the embedding.

    - A JavaScript string is the list of its Unicode code points ([jsstring]);
      a supplementary character is one element.  Literals are written with
      [lit] (a Rocq string literal, decoded from UTF-8) and templates with
      [tpl], in which an apostrophe stands for the double quote of the
      TypeScript template (no template of the generator holds an apostrophe).
    - What the JavaScript engine decides outside ASCII (the general categories
      L and N of a code point, its case mappings) and the text an engine prints
      for a built-in function is not part of the repository: it is the
      [Host] record, a variable of the development.  On ASCII everything is
      computed here.  Case mapping is taken one code point at a time (the
      context rule for the final sigma is not modelled).
    - [Date.now()] is an explicit argument ([now]) of the functions that read
      the clock. *)

From Stdlib Require Import List NArith ZArith String Ascii Bool Lia.
Import ListNotations.

Local Open Scope N_scope.
Set Warnings "-register-all".

(* ------------------------------------------------------------------ *)
(** ** Strings *)

Definition jsstring := list N.

Fixpoint bytesOf (s : string) : list N :=
  match s with
  | EmptyString => []
  | String a r => N_of_ascii a :: bytesOf r
  end.

(** UTF-8 decoding of a well-formed byte sequence (one to four bytes each). *)
Fixpoint utf8 (bs : list N) : jsstring :=
  match bs with
  | [] => []
  | b :: r =>
      if b <? 128 then b :: utf8 r
      else if b <? 224 then
        match r with
        | b1 :: r1 => ((b - 192) * 64 + (b1 - 128)) :: utf8 r1
        | _ => []
        end
      else if b <? 240 then
        match r with
        | b1 :: b2 :: r2 =>
            ((b - 224) * 4096 + (b1 - 128) * 64 + (b2 - 128)) :: utf8 r2
        | _ => []
        end
      else
        match r with
        | b1 :: b2 :: b3 :: r3 =>
            ((b - 240) * 262144 + (b1 - 128) * 4096 + (b2 - 128) * 64
             + (b3 - 128)) :: utf8 r3
        | _ => []
        end
  end.

Definition lit (s : string) : jsstring := utf8 (bytesOf s).

Definition quoteChar : N := 34.
Definition apostrophe : N := 39.

(** A template: the apostrophe of the Rocq literal is the double quote of the
    TypeScript one. *)
Definition tpl (s : string) : jsstring :=
  map (fun c => if c =? apostrophe then quoteChar else c) (lit s).

Fixpoint eqs (a b : jsstring) : bool :=
  match a, b with
  | [], [] => true
  | x :: a', y :: b' => (x =? y) && eqs a' b'
  | _, _ => false
  end.

(** [Array.prototype.includes] and [Set.prototype.has] on strings. *)
Definition includes (l : list jsstring) (s : jsstring) : bool :=
  existsb (eqs s) l.

(** [Array.prototype.join]. *)
Fixpoint join (sep : jsstring) (l : list jsstring) : jsstring :=
  match l with
  | [] => []
  | [x] => x
  | x :: r => x ++ sep ++ join sep r
  end.

Definition nonEmpty (s : jsstring) : bool :=
  match s with [] => false | _ => true end.

(** [s.endsWith(suffix)]. *)
Definition endsWith (s suffix : jsstring) : bool :=
  eqs (skipn (List.length s - List.length suffix) s) suffix
  && (List.length suffix <=? List.length s)%nat.

(** [s.slice(0, -k)]. *)
Definition dropLast (k : nat) (s : jsstring) : jsstring :=
  firstn (List.length s - k) s.

(** [s.indexOf(c)] for a one-character needle; [None] is -1. *)
Fixpoint indexOf (c : N) (s : jsstring) : option nat :=
  match s with
  | [] => None
  | x :: r => if x =? c then Some O
              else match indexOf c r with Some i => Some (S i) | None => None end
  end.

(** White space and line terminators: what [trim] strips and [\s] matches. *)
Definition isWhiteSpace (c : N) : bool :=
  (c =? 9) || (c =? 10) || (c =? 11) || (c =? 12) || (c =? 13) || (c =? 32)
  || (c =? 160) || (c =? 5760) || ((8192 <=? c) && (c <=? 8202))
  || (c =? 8232) || (c =? 8233) || (c =? 8239) || (c =? 8287)
  || (c =? 12288) || (c =? 65279).

Fixpoint trimStart (s : jsstring) : jsstring :=
  match s with
  | [] => []
  | c :: r => if isWhiteSpace c then trimStart r else s
  end.

Definition trimEnd (s : jsstring) : jsstring := rev (trimStart (rev s)).

Definition trim (s : jsstring) : jsstring := trimEnd (trimStart s).

(** [s.split(/\s+/)]: the pieces between maximal runs of white space. *)
Fixpoint splitRuns (cur : jsstring) (inRun : bool) (s : jsstring)
  : list jsstring :=
  match s with
  | [] => [rev cur]
  | c :: r =>
      if isWhiteSpace c then
        if inRun then splitRuns cur true r
        else rev cur :: splitRuns [] true r
      else splitRuns (c :: cur) false r
  end.

Definition splitWhiteSpace (s : jsstring) : list jsstring :=
  splitRuns [] false s.

Definition isAsciiDigit (c : N) : bool := (48 <=? c) && (c <=? 57).
Definition isAsciiUpper (c : N) : bool := (65 <=? c) && (c <=? 90).
Definition isAsciiLower (c : N) : bool := (97 <=? c) && (c <=? 122).
Definition underscore : N := 95.
Definition dollar : N := 36.

(** [\w] of a regular expression without the i and u flags. *)
Definition isWordChar (c : N) : bool :=
  isAsciiUpper c || isAsciiLower c || isAsciiDigit c || (c =? underscore).

(** Decimal text of a number, as a template prints an integer. *)
Fixpoint uintDigits (d : Decimal.uint) : jsstring :=
  match d with
  | Decimal.Nil => []
  | Decimal.D0 r => 48 :: uintDigits r
  | Decimal.D1 r => 49 :: uintDigits r
  | Decimal.D2 r => 50 :: uintDigits r
  | Decimal.D3 r => 51 :: uintDigits r
  | Decimal.D4 r => 52 :: uintDigits r
  | Decimal.D5 r => 53 :: uintDigits r
  | Decimal.D6 r => 54 :: uintDigits r
  | Decimal.D7 r => 55 :: uintDigits r
  | Decimal.D8 r => 56 :: uintDigits r
  | Decimal.D9 r => 57 :: uintDigits r
  end.

Definition natToString (n : nat) : jsstring := uintDigits (Nat.to_uint n).

Definition intToString (z : Z) : jsstring :=
  match Z.to_int z with
  | Decimal.Pos d => uintDigits d
  | Decimal.Neg d => 45 :: uintDigits d
  end.

(* ------------------------------------------------------------------ *)
(** ** The host: Unicode data and engine text *)

Record Host := {
  (** general category L (letter) of a code point above ASCII *)
  letterU : N -> bool;
  (** general category N (number) of a code point above ASCII *)
  numberU : N -> bool;
  (** [toLowerCase] of the one-character string of a code point above ASCII *)
  lowerU : N -> jsstring;
  (** [toUpperCase] of the one-character string of a code point above ASCII *)
  upperU : N -> jsstring;
  (** the text a template prints for the member of [Object.prototype] of
      that name (a built-in function, or the prototype itself) *)
  inheritedText : jsstring -> jsstring
}.

(** A host that knows no letter, number or case outside ASCII and prints
    built-in functions as V8 does; used to run the generator on ASCII inputs,
    where the Unicode data is never consulted. *)
Definition asciiHost : Host := {|
  letterU := fun _ => false;
  numberU := fun _ => false;
  lowerU := fun c => [c];
  upperU := fun c => [c];
  inheritedText := fun k =>
    if eqs k (lit "__proto__") then lit "[object Object]"
    else if eqs k (lit "constructor")
    then lit "function Object() { [native code] }"
    else lit "function " ++ k ++ lit "() { [native code] }"
|}.

(* ------------------------------------------------------------------ *)
(** ** Values and objects *)

(** The values the generator stores under the name [type]: a string, or a
    member inherited from [Object.prototype] (what a property read on an
    object literal gives for a key such as [constructor]). *)
Inductive jsvalue :=
| VStr (s : jsstring)
| VInherited (key : jsstring).

(** The property names of [Object.prototype]; each holds a function, and
    [__proto__] reads as the prototype object: all of them are truthy. *)
Definition objectPrototypeKeys : list jsstring :=
  map lit
    [ "constructor"; "__defineGetter__"; "__defineSetter__"; "hasOwnProperty";
      "__lookupGetter__"; "__lookupSetter__"; "isPrototypeOf";
      "propertyIsEnumerable"; "toString"; "valueOf"; "__proto__";
      "toLocaleString" ]%string.

Fixpoint assoc {A : Type} (k : jsstring) (l : list (jsstring * A)) : option A :=
  match l with
  | [] => None
  | (k', v) :: r => if eqs k k' then Some v else assoc k r
  end.

(** [obj[key]] on an object literal with string values: the own property,
    else the member inherited from [Object.prototype], else undefined. *)
Definition getProperty (own : list (jsstring * jsstring)) (key : jsstring)
  : option jsvalue :=
  match assoc key own with
  | Some v => Some (VStr v)
  | None => if includes objectPrototypeKeys key then Some (VInherited key)
            else None
  end.

Definition truthy (v : jsvalue) : bool :=
  match v with
  | VStr s => nonEmpty s
  | VInherited _ => true
  end.

(** [a || b] where [a] may be undefined. *)
Definition orElse (a : option jsvalue) (b : jsvalue) : jsvalue :=
  match a with
  | Some v => if truthy v then v else b
  | None => b
  end.

(** Strict equality of a value with a string literal ([switch] cases). *)
Definition isStr (v : jsvalue) (s : string) : bool :=
  match v with
  | VStr x => eqs x (lit s)
  | VInherited _ => false
  end.

Record ClassDefinition := {
  name : jsstring;
  attributes : list jsstring;
  methods : list jsstring
}.

Inductive RelationType := ONE_TO_ONE | ONE_TO_MANY | MANY_TO_ONE | MANY_TO_MANY.

Record RelationDefinition := {
  source : jsstring;
  target : jsstring;
  type : RelationType;
  bidirectional : bool
}.

Record ParsedAttr := { attrType : jsvalue; attrName : jsstring }.

(** The generator object: its three private fields. *)
Record JavaSpringGenerator := {
  classes : list ClassDefinition;
  relations : list RelationDefinition;
  packageName : jsstring
}.

Definition newGenerator (packageName : jsstring) : JavaSpringGenerator :=
  {| classes := []; relations := []; packageName := packageName |}.

Definition addClass (g : JavaSpringGenerator) (cls : ClassDefinition)
  : JavaSpringGenerator :=
  {| classes := classes g ++ [cls]; relations := relations g;
     packageName := packageName g |}.

Definition addRelation (g : JavaSpringGenerator) (relation : RelationDefinition)
  : JavaSpringGenerator :=
  {| classes := classes g; relations := relations g ++ [relation];
     packageName := packageName g |}.

(* ------------------------------------------------------------------ *)
(** ** Plain objects and JSON *)

(** JSON values as the generator builds them (numbers are integers here:
    the literal 1.0 is the number 1). *)
Inductive json :=
| JString (s : jsstring)
| JNumber (z : Z)
| JBool (b : bool)
| JArray (items : list json)
| JObject (props : list (jsstring * json)).

(** An object as the list of its own properties in insertion order (no key of
    the generator is an array index, so insertion order is enumeration
    order). *)
Fixpoint assign {A : Type} (k : jsstring) (v : A) (obj : list (jsstring * A))
  : list (jsstring * A) :=
  match obj with
  | [] => [(k, v)]
  | (k', v') :: r =>
      if eqs k k' then (k', v) :: r else (k', v') :: assign k v r
  end.

(** [obj[k] = v] for a primitive [v] on an object created by [{}]: a new or
    overwritten own property, except that the key [__proto__] is the
    prototype accessor, which ignores a primitive. *)
Definition setProp {A : Type} (k : jsstring) (v : A)
  (obj : list (jsstring * A)) : list (jsstring * A) :=
  if eqs k (lit "__proto__") then obj else assign k v obj.

Definition hexDigit (n : N) : N := if n <? 10 then 48 + n else 87 + n.

Definition hex4 (n : N) : jsstring :=
  [ hexDigit ((n / 4096) mod 16); hexDigit ((n / 256) mod 16);
    hexDigit ((n / 16) mod 16); hexDigit (n mod 16) ].

(** The escape of one code point in a JSON string. *)
Definition escapeChar (c : N) : jsstring :=
  if c =? 34 then [92; 34]
  else if c =? 92 then [92; 92]
  else if c =? 8 then [92; 98]
  else if c =? 12 then [92; 102]
  else if c =? 10 then [92; 110]
  else if c =? 13 then [92; 114]
  else if c =? 9 then [92; 116]
  else if (c <? 32) || ((55296 <=? c) && (c <=? 57343))
       then [92; 117] ++ hex4 c
  else [c].

Definition quoteJSON (s : jsstring) : jsstring :=
  [quoteChar] ++ flat_map escapeChar s ++ [quoteChar].

Definition newline : jsstring := [10].

(** [JSON.stringify(v, null, 2)] at the current indentation. *)
Fixpoint stringifyAt (indent : jsstring) (v : json) : jsstring :=
  match v with
  | JString s => quoteJSON s
  | JNumber z => intToString z
  | JBool b => if b then lit "true" else lit "false"
  | JArray items =>
      match items with
      | [] => lit "[]"
      | _ =>
          let inner := indent ++ lit "  " in
          lit "[" ++ newline ++ inner
          ++ join (lit "," ++ newline ++ inner)
                  (map (stringifyAt inner) items)
          ++ newline ++ indent ++ lit "]"
      end
  | JObject props =>
      match props with
      | [] => lit "{}"
      | _ =>
          let inner := indent ++ lit "  " in
          lit "{" ++ newline ++ inner
          ++ join (lit "," ++ newline ++ inner)
                  (map (fun kv => quoteJSON (fst kv) ++ lit ": "
                                  ++ stringifyAt inner (snd kv)) props)
          ++ newline ++ indent ++ lit "}"
      end
  end.

Definition stringify (v : json) : jsstring := stringifyAt [] v.

(** Code-unit order of two strings, and [Array.prototype.sort()] with the
    default comparison. *)
Fixpoint ltbs (a b : jsstring) : bool :=
  match a, b with
  | _, [] => false
  | [], _ :: _ => true
  | x :: a', y :: b' => (x <? y) || ((x =? y) && ltbs a' b')
  end.

Fixpoint insertSorted (x : jsstring) (l : list jsstring) : list jsstring :=
  match l with
  | [] => [x]
  | y :: r => if ltbs y x then y :: insertSorted x r else x :: l
  end.

Definition sortStrings (l : list jsstring) : list jsstring :=
  fold_left (fun acc x => insertSorted x acc) l [].

Section Generator.

Variable host : Host.

(** [\p{L}] and [\p{N}] under the u flag. *)
Definition isLetter (c : N) : bool :=
  if c <? 128 then isAsciiUpper c || isAsciiLower c else letterU host c.

Definition isNumber (c : N) : bool :=
  if c <? 128 then isAsciiDigit c else numberU host c.

Definition toLowerChar (c : N) : jsstring :=
  if c <? 128 then [if isAsciiUpper c then c + 32 else c] else lowerU host c.

Definition toUpperChar (c : N) : jsstring :=
  if c <? 128 then [if isAsciiLower c then c - 32 else c] else upperU host c.

(** [s.toLowerCase()], one code point at a time. *)
Definition toLowerCase (s : jsstring) : jsstring := flat_map toLowerChar s.

(** [s.charAt(0).toLowerCase()] and [s.charAt(0).toUpperCase()] seen on the
    first code point: [charAt] takes one UTF-16 unit, so of a supplementary
    character it takes a lone surrogate, which has no case. *)
Definition lowerFirstUnit (c : N) : jsstring :=
  if 65536 <=? c then [c] else toLowerChar c.

Definition upperFirstUnit (c : N) : jsstring :=
  if 65536 <=? c then [c] else toUpperChar c.

(* ===== Utils ===== *)

Definition safeStr (s fallback : jsstring) : jsstring :=
  let v := trim s in
  if nonEmpty v then v else fallback.

Definition reserved : list jsstring :=
  map lit
    [ "class"; "interface"; "abstract"; "public"; "private"; "protected";
      "static"; "final"; "volatile"; "transient"; "synchronized"; "native";
      "strictfp" ]%string.

Definition toCamelCase (str : jsstring) : jsstring :=
  match safeStr str [] with
  | [] => lit "value"
  | c :: rest =>
      let out := lowerFirstUnit c ++ rest in
      if includes reserved out then out ++ lit "Entity" else out
  end.

Definition toPascal (str : jsstring) : jsstring :=
  match safeStr str [] with
  | [] => lit "Value"
  | c :: rest => upperFirstUnit c ++ rest
  end.

(** [/(s|sh|ch|x|z)$/.test(s)] *)
Definition endsInSibilant (s : jsstring) : bool :=
  endsWith s (lit "s") || endsWith s (lit "sh") || endsWith s (lit "ch")
  || endsWith s (lit "x") || endsWith s (lit "z").

Definition isLowerVowel (c : N) : bool :=
  (c =? 97) || (c =? 101) || (c =? 105) || (c =? 111) || (c =? 117).

(** [/[^aeiou]y$/.test(s)] *)
Definition endsInNonVowelY (s : jsstring) : bool :=
  match rev s with
  | y :: c :: _ => (y =? 121) && negb (isLowerVowel c)
  | _ => false
  end.

Definition toPlural (str : jsstring) : jsstring :=
  let s := safeStr str [] in
  if negb (nonEmpty s) then lit "items"
  else if endsInSibilant s then s ++ lit "es"
  else if endsInNonVowelY s then dropLast 1 s ++ lit "ies"
  else if endsWith s (lit "f") then dropLast 1 s ++ lit "ves"
  else if endsWith s (lit "fe") then dropLast 2 s ++ lit "ves"
  else s ++ lit "s".

(** The characters [/[^\p{L}\p{N}_$]/gu] leaves in place. *)
Definition isIdentifierChar (c : N) : bool :=
  isLetter c || isNumber c || (c =? underscore) || (c =? dollar).

Definition sanitizeIdentifier (raw fallback : jsstring) : jsstring :=
  let s := map (fun c => if isIdentifierChar c then c else underscore)
               (safeStr raw fallback) in
  match s with
  | c :: _ => if isAsciiDigit c then underscore :: s else s
  | [] => s
  end.

Definition primitives : list jsstring :=
  map lit [ "int"; "long"; "double"; "float"; "boolean"; "byte"; "short";
            "char"; "void" ]%string.

Definition common : list jsstring :=
  map lit [ "String"; "Integer"; "Long"; "Double"; "Float"; "Boolean";
            "BigDecimal"; "Date"; "LocalDate"; "LocalDateTime"; "UUID" ]%string.

(** [/^[A-Z]\w*$/.test(t)] *)
Definition isCapitalizedWord (t : jsstring) : bool :=
  match t with
  | c :: rest => isAsciiUpper c && forallb isWordChar rest
  | [] => false
  end.

Definition isJavaType (token : jsstring) : bool :=
  let t := trim token in
  includes primitives t || includes common t || isCapitalizedWord t.

Definition typeMap : list (jsstring * jsstring) :=
  map (fun kv => (lit (fst kv), lit (snd kv)))
    [ ("int", "Integer"); ("Int", "Integer"); ("integer", "Integer");
      ("Integer", "Integer");
      ("long", "Long"); ("Long", "Long");
      ("string", "String"); ("String", "String"); ("text", "String");
      ("Text", "String");
      ("double", "Double"); ("Double", "Double"); ("float", "Float");
      ("Float", "Float");
      ("decimal", "BigDecimal"); ("Decimal", "BigDecimal");
      ("money", "BigDecimal"); ("currency", "BigDecimal");
      ("bool", "Boolean"); ("Bool", "Boolean"); ("boolean", "Boolean");
      ("Boolean", "Boolean");
      ("date", "LocalDate"); ("Date", "LocalDate");
      ("datetime", "LocalDateTime"); ("DateTime", "LocalDateTime");
      ("timestamp", "LocalDateTime");
      ("uuid", "UUID"); ("UUID", "UUID"); ("guid", "UUID") ]%string.

Definition mapToJavaType (type : jsstring) : jsvalue :=
  let normalized := trim type in
  orElse (getProperty typeMap normalized) (VStr (lit "String")).

(** [`field_${index + 1}`] *)
Definition fieldFallback (index : nat) : jsstring :=
  lit "field_" ++ natToString (index + 1).

(** Accepts: [name: Type] | [Type name] | [name] *)
Definition parseAttribute (line : jsstring) (index : nat) : ParsedAttr :=
  let raw := safeStr line [] in
  if negb (nonEmpty raw) then
    {| attrType := VStr (lit "String"); attrName := fieldFallback index |}
  else
    match indexOf 58 raw with
    | Some colonIdx =>
        let name := sanitizeIdentifier (trim (firstn colonIdx raw))
                                       (fieldFallback index) in
        let type := trim (safeStr (skipn (colonIdx + 1) raw) (lit "String")) in
        let type := mapToJavaType type in
        let name := toCamelCase name in
        {| attrType := type; attrName := name |}
    | None =>
        let parts := filter nonEmpty (splitWhiteSpace raw) in
        match parts with
        | [p0; p1] =>
            if isJavaType p0 then
              let type := mapToJavaType p0 in
              let name := sanitizeIdentifier p1 (fieldFallback index) in
              let name := toCamelCase name in
              {| attrType := type; attrName := name |}
            else
              let name := sanitizeIdentifier raw (fieldFallback index) in
              let name := toCamelCase name in
              {| attrType := VStr (lit "String"); attrName := name |}
        | _ =>
            let name := sanitizeIdentifier raw (fieldFallback index) in
            let name := toCamelCase name in
            {| attrType := VStr (lit "String"); attrName := name |}
        end
    end.

(** What a template prints for a value ([`${type}`]). *)
Definition toStr (v : jsvalue) : jsstring :=
  match v with
  | VStr s => s
  | VInherited k => inheritedText host k
  end.

(* ====== Code gen ====== *)

Definition generateImports (g : JavaSpringGenerator) : jsstring :=
  tpl "package "
  ++ packageName g
  ++ tpl ".model;

import jakarta.persistence.*;
import lombok.*;
import java.util.*;
import java.math.BigDecimal;
import java.time.LocalDate;
import java.time.LocalDateTime;
import java.util.UUID;
import com.fasterxml.jackson.annotation.*;

".

(** One constructor per template that [generateFields] pushes onto [lines],
    with the values the template interpolates. *)
Inductive Field :=
| Column (type : jsvalue) (name : jsstring)
| OneToOneOwner (joinColumn otherClass otherVar : jsstring)
| OneToOneInverse (mappedBy otherClass otherVar : jsstring)
| ManyToOneRef (joinColumn otherClass otherVar : jsstring)
| OneToManyColl (mappedBy otherClass collName : jsstring)
| ManyToManyOwner (joinTable joinColumn inverseJoinColumn otherClass
                   collName : jsstring)
| ManyToManyInverse (mappedBy otherClass collName : jsstring).

(** The text of each pushed line. *)
Definition renderField (f : Field) : jsstring :=
  match f with
  | Column type name =>
      tpl "    @Column(name = '"
      ++ toLowerCase name
      ++ tpl "')
    private "
      ++ toStr type
      ++ tpl " "
      ++ name
      ++ tpl ";"
  | OneToOneOwner joinColumn otherClass otherVar =>
      tpl "    @OneToOne(cascade = CascadeType.ALL, fetch = FetchType.LAZY)
    @JoinColumn(name = '"
      ++ joinColumn
      ++ tpl "_id')
    @JsonIgnoreProperties({'hibernateLazyInitializer', 'handler'})
    private "
      ++ otherClass
      ++ tpl " "
      ++ otherVar
      ++ tpl ";"
  | OneToOneInverse mappedBy otherClass otherVar =>
      tpl "    @OneToOne(mappedBy = '"
      ++ mappedBy
      ++ tpl "', fetch = FetchType.LAZY)
    @JsonIgnoreProperties({'hibernateLazyInitializer', 'handler'})
    private "
      ++ otherClass
      ++ tpl " "
      ++ otherVar
      ++ tpl ";"
  | ManyToOneRef joinColumn otherClass otherVar =>
      tpl "    @ManyToOne(fetch = FetchType.LAZY)
    @JoinColumn(name = '"
      ++ joinColumn
      ++ tpl "_id')
    @JsonIgnoreProperties({'hibernateLazyInitializer', 'handler'})
    private "
      ++ otherClass
      ++ tpl " "
      ++ otherVar
      ++ tpl ";"
  | OneToManyColl mappedBy otherClass collName =>
      tpl "    @OneToMany(mappedBy = '"
      ++ mappedBy
      ++ tpl "', cascade = CascadeType.ALL, fetch = FetchType.LAZY)
    @JsonIgnoreProperties({'hibernateLazyInitializer', 'handler'})
    private Set<"
      ++ otherClass
      ++ tpl "> "
      ++ collName
      ++ tpl " = new HashSet<>();"
  | ManyToManyOwner joinTable joinColumn inverseJoinColumn otherClass
                    collName =>
      tpl "    @ManyToMany(fetch = FetchType.LAZY)
    @JoinTable(
        name = '"
      ++ joinTable
      ++ tpl "',
        joinColumns = @JoinColumn(name = '"
      ++ joinColumn
      ++ tpl "_id'),
        inverseJoinColumns = @JoinColumn(name = '"
      ++ inverseJoinColumn
      ++ tpl "_id')
    )
    @JsonIgnoreProperties({'hibernateLazyInitializer', 'handler'})
    private Set<"
      ++ otherClass
      ++ tpl "> "
      ++ collName
      ++ tpl " = new HashSet<>();"
  | ManyToManyInverse mappedBy otherClass collName =>
      tpl "    @ManyToMany(mappedBy = '"
      ++ mappedBy
      ++ tpl "', fetch = FetchType.LAZY)
    @JsonIgnoreProperties({'hibernateLazyInitializer', 'handler'})
    private Set<"
      ++ otherClass
      ++ tpl "> "
      ++ collName
      ++ tpl " = new HashSet<>();"
  end.

(** [usedFieldNames.add(x)] on a [Set] kept in insertion order. *)
Definition setAdd (used : list jsstring) (x : jsstring) : list jsstring :=
  if includes used x then used else used ++ [x].

(** The loop over [cls.attributes] of [generateFields]: the set of used names
    and the lines pushed, from attribute number [i] on. *)
Fixpoint attributeFields (attrs : list jsstring) (i : nat)
  (usedFieldNames : list jsstring) : list jsstring * list Field :=
  match attrs with
  | [] => (usedFieldNames, [])
  | a :: rest =>
      let p := parseAttribute a i in
      let type := attrType p in
      let name := attrName p in
      if negb (includes usedFieldNames name)
         && negb (eqs (toLowerCase name) (lit "id"))
      then
        let '(used, lines) :=
          attributeFields rest (S i) (setAdd usedFieldNames name) in
        (used, Column type name :: lines)
      else attributeFields rest (S i) usedFieldNames
  end.

(** The name [generateFields] looks up and reserves for a relation. *)
Definition relationFieldName (className : jsstring) (r : RelationDefinition)
  : jsstring :=
  let isSource := eqs (source r) className in
  let otherClass := if isSource then target r else source r in
  let otherVar := toCamelCase otherClass in
  let collNameFromOther := toPlural otherVar in
  if isSource then otherVar
  else match type r with
       | ONE_TO_MANY | MANY_TO_MANY => collNameFromOther
       | _ => otherVar
       end.

(** The [switch (r.type)] of [generateFields]: the line pushed, if any. *)
Definition relationLines (className : jsstring) (r : RelationDefinition)
  : list Field :=
  let thisVar := toCamelCase className in
  let isSource := eqs (source r) className in
  let otherClass := if isSource then target r else source r in
  let otherVar := toCamelCase otherClass in
  let collNameFromOther := toPlural otherVar in
  match type r with
  | ONE_TO_ONE =>
      if isSource then
        [OneToOneOwner (toCamelCase otherClass) otherClass otherVar]
      else if bidirectional r then
        [OneToOneInverse otherVar otherClass otherVar]
      else []
  | MANY_TO_ONE =>
      if isSource then
        [ManyToOneRef (toCamelCase otherClass) otherClass otherVar]
      else if bidirectional r then
        [OneToManyColl (toCamelCase className) otherClass collNameFromOther]
      else []
  | ONE_TO_MANY =>
      if isSource then
        [OneToManyColl thisVar otherClass (toPlural otherVar)]
      else
        [ManyToOneRef (toCamelCase otherClass) otherClass otherVar]
  | MANY_TO_MANY =>
      if isSource then
        let joinTable :=
          toLowerCase className ++ tpl "_" ++ toLowerCase otherClass in
        [ManyToManyOwner joinTable (toCamelCase className)
           (toCamelCase otherClass) otherClass (toPlural otherVar)]
      else if bidirectional r then
        [ManyToManyInverse (toPlural (toCamelCase otherClass)) otherClass
           (toPlural otherVar)]
      else []
  end.

(** The body of the [forEach] over the relations of the class. *)
Definition relationStep (className : jsstring)
  (usedFieldNames : list jsstring) (r : RelationDefinition)
  : list jsstring * list Field :=
  let relationFieldName := relationFieldName className r in
  if includes usedFieldNames relationFieldName then (usedFieldNames, [])
  else (setAdd usedFieldNames relationFieldName, relationLines className r).

Fixpoint relationFields (className : jsstring)
  (usedFieldNames : list jsstring) (rs : list RelationDefinition)
  : list jsstring * list Field :=
  match rs with
  | [] => (usedFieldNames, [])
  | r :: rest =>
      let '(used1, lines1) := relationStep className usedFieldNames r in
      let '(used2, lines2) := relationFields className used1 rest in
      (used2, lines1 ++ lines2)
  end.

(** [r.source === className || r.target === className] *)
Definition touches (className : jsstring) (r : RelationDefinition) : bool :=
  eqs (source r) className || eqs (target r) className.

(** The lines of [generateFields], before they are printed and joined. *)
Definition entityFields (g : JavaSpringGenerator) (cls : ClassDefinition)
  : list Field :=
  let usedFieldNames := setAdd [] (lit "id") in
  let '(used, attrLines) :=
    attributeFields (attributes cls) 0 usedFieldNames in
  let className := name cls in
  let '(_, relLines) :=
    relationFields className used (filter (touches className) (relations g)) in
  attrLines ++ relLines.

Definition generateFields (g : JavaSpringGenerator) (cls : ClassDefinition)
  : jsstring :=
  let lines := map renderField (entityFields g cls) in
  join (newline ++ newline) (filter nonEmpty lines).

Definition generateClass (g : JavaSpringGenerator) (cls : ClassDefinition)
  : jsstring :=
  let className := toPascal (name cls) in
  let varName := toCamelCase className in
  let body := generateFields g cls in
  generateImports g
  ++ tpl "
@Entity
@Table(name = '"
  ++ toPlural (toLowerCase className)
  ++ tpl "')
@Data
@NoArgsConstructor
@AllArgsConstructor
@Builder
public class "
  ++ className
  ++ tpl " {
    @Id
    @GeneratedValue(strategy = GenerationType.IDENTITY)
    private Long id;

"
  ++ (if nonEmpty body then newline ++ body ++ newline else [])
  ++ tpl "

    @Override
    public boolean equals(Object o) {
        if (this == o) return true;
        if (o == null || getClass() != o.getClass()) return false;
        "
  ++ className
  ++ tpl " "
  ++ varName
  ++ tpl " = ("
  ++ className
  ++ tpl ") o;
        return Objects.equals(id, "
  ++ varName
  ++ tpl ".id);
    }

    @Override
    public int hashCode() {
        return Objects.hash(id);
    }

    @Override
    public String toString() {
        return '"
  ++ className
  ++ tpl "{id=' + id + '}';
    }
}".

Definition generatePomXml : jsstring :=
  tpl "<?xml version='1.0' encoding='UTF-8'?>
<project xmlns='http://maven.apache.org/POM/4.0.0'
         xmlns:xsi='http://www.w3.org/2001/XMLSchema-instance'
         xsi:schemaLocation='http://maven.apache.org/POM/4.0.0 https://maven.apache.org/xsd/maven-4.0.0.xsd'>
    <modelVersion>4.0.0</modelVersion>
    <parent>
        <groupId>org.springframework.boot</groupId>
        <artifactId>spring-boot-starter-parent</artifactId>
        <version>3.2.0</version>
        <relativePath/>
    </parent>
    
    <groupId>com.example</groupId>
    <artifactId>spring-boot-project</artifactId>
    <version>0.0.1-SNAPSHOT</version>
    <name>Generated Spring Boot Project</name>
    
    <properties>
        <java.version>17</java.version>
    </properties>
    
    <dependencies>
        <dependency>
            <groupId>org.springframework.boot</groupId>
            <artifactId>spring-boot-starter-web</artifactId>
        </dependency>
        <dependency>
            <groupId>org.springframework.boot</groupId>
            <artifactId>spring-boot-starter-data-jpa</artifactId>
        </dependency>
        <dependency>
            <groupId>com.h2database</groupId>
            <artifactId>h2</artifactId>
            <scope>runtime</scope>
        </dependency>
        <dependency>
            <groupId>org.projectlombok</groupId>
            <artifactId>lombok</artifactId>
            <optional>true</optional>
        </dependency>
        <dependency>
            <groupId>org.modelmapper</groupId>
            <artifactId>modelmapper</artifactId>
            <version>3.1.1</version>
        </dependency>
    </dependencies>
    
    <build>
        <plugins>
            <plugin>
                <groupId>org.springframework.boot</groupId>
                <artifactId>spring-boot-maven-plugin</artifactId>
                <configuration>
                    <excludes>
                        <exclude>
                            <groupId>org.projectlombok</groupId>
                            <artifactId>lombok</artifactId>
                        </exclude>
                    </excludes>
                </configuration>
            </plugin>
        </plugins>
    </build>
</project>".

Definition generateApplicationProperties : jsstring :=
  tpl "# Configuración de base de datos H2 (en memoria para desarrollo)
spring.datasource.url=jdbc:h2:mem:testdb
spring.datasource.driver-class-name=org.h2.Driver
spring.datasource.username=sa
spring.datasource.password=

# JPA/Hibernate configuración
spring.jpa.database-platform=org.hibernate.dialect.H2Dialect
spring.jpa.hibernate.ddl-auto=create-drop
spring.jpa.show-sql=true
spring.jpa.defer-datasource-initialization=true

# H2 Console
spring.h2.console.enabled=true
spring.h2.console.path=/h2-console

# Configuración del servidor
server.port=8080

# ✅ LOGGING DETALLADO PARA DEBUG
logging.level.org.springframework.web=INFO
logging.level.org.hibernate=INFO
logging.level.org.springframework.context=DEBUG
logging.level.org.springframework.beans=DEBUG
logging.level.com.example=DEBUG

# Jackson configuración
spring.jackson.serialization.fail-on-empty-beans=false
spring.jackson.serialization.fail-on-self-references=false

# ✅ Desactivar inicialización automática problemática
spring.jpa.open-in-view=false
".

Definition generateMainApplication : jsstring :=
  tpl "package com.example;

import org.springframework.boot.SpringApplication;
import org.springframework.boot.autoconfigure.SpringBootApplication;

@SpringBootApplication
public class Application {
    public static void main(String[] args) {
        SpringApplication.run(Application.class, args);
    }
}".

Definition generateModelMapperConfig : jsstring :=
  tpl "package com.example.config;

import org.modelmapper.ModelMapper;
import org.springframework.context.annotation.Bean;
import org.springframework.context.annotation.Configuration;

@Configuration
public class ModelMapperConfig {

    @Bean
    public ModelMapper modelMapper() {
        return new ModelMapper();
    }
}".

(** The sample value [generateSampleRequestBody] stores for a parsed
    attribute. *)
Definition sampleValue (type : jsvalue) (name : jsstring) : json :=
  if isStr type "String" then JString (lit "sample_" ++ name)
  else if isStr type "Integer" || isStr type "Long" then JNumber 1
  else if isStr type "Double" || isStr type "Float" then JNumber 1
  else if isStr type "Boolean" then JBool true
  else JString (lit "sample_" ++ name).

(** The loop of [generateSampleRequestBody] over [cls.attributes], from
    attribute number [i] on: the object [data] after it. *)
Fixpoint sampleData (attrs : list jsstring) (i : nat)
  (data : list (jsstring * json)) : list (jsstring * json) :=
  match attrs with
  | [] => data
  | attr :: rest =>
      let p := parseAttribute attr i in
      sampleData rest (S i)
        (setProp (attrName p) (sampleValue (attrType p) (attrName p)) data)
  end.

Definition generateSampleRequestBody (cls : ClassDefinition) : jsstring :=
  stringify (JObject (sampleData (attributes cls) 0 [])).

Definition generatePostmanCollection (g : JavaSpringGenerator) : jsstring :=
  let collectionName := lit "Generated API" in
  let collection :=
    JObject
      [ (lit "info",
         JObject
           [ (lit "name", JString collectionName);
             (lit "description",
              JString (lit "Colección generada automáticamente"));
             (lit "schema",
              JString (lit "https://schema.getpostman.com/json/collection/v2.1.0/collection.json")) ]);
        (lit "item",
         JArray
           (map
              (fun cls =>
                 let className := toPascal (name cls) in
                 let endpoint := toPlural (toCamelCase className) in
                 JObject
                   [ (lit "name", JString (className ++ lit " CRUD"));
                     (lit "item",
                      JArray
                        [ JObject
                            [ (lit "name",
                               JString (lit "Get All " ++ toPlural className));
                              (lit "request",
                               JObject
                                 [ (lit "method", JString (lit "GET"));
                                   (lit "header",
                                    JArray
                                      [ JObject
                                          [ (lit "key", JString (lit "Accept"));
                                            (lit "value",
                                             JString (lit "application/json")) ] ]);
                                   (lit "url",
                                    JObject
                                      [ (lit "raw",
                                         JString (lit "{{base_url}}/api/"
                                                  ++ endpoint));
                                        (lit "host",
                                         JArray [JString (lit "{{base_url}}")]);
                                        (lit "path",
                                         JArray [ JString (lit "api");
                                                  JString endpoint ]) ]) ]) ];
                          JObject
                            [ (lit "name",
                               JString (lit "Create " ++ className));
                              (lit "request",
                               JObject
                                 [ (lit "method", JString (lit "POST"));
                                   (lit "header",
                                    JArray
                                      [ JObject
                                          [ (lit "key",
                                             JString (lit "Content-Type"));
                                            (lit "value",
                                             JString (lit "application/json")) ];
                                        JObject
                                          [ (lit "key", JString (lit "Accept"));
                                            (lit "value",
                                             JString (lit "application/json")) ] ]);
                                   (lit "body",
                                    JObject
                                      [ (lit "mode", JString (lit "raw"));
                                        (lit "raw",
                                         JString
                                           (generateSampleRequestBody cls)) ]);
                                   (lit "url",
                                    JObject
                                      [ (lit "raw",
                                         JString (lit "{{base_url}}/api/"
                                                  ++ endpoint));
                                        (lit "host",
                                         JArray [JString (lit "{{base_url}}")]);
                                        (lit "path",
                                         JArray [ JString (lit "api");
                                                  JString endpoint ]) ]) ]) ] ]) ])
              (classes g)));
        (lit "variable",
         JArray
           [ JObject
               [ (lit "key", JString (lit "base_url"));
                 (lit "value", JString (lit "http://localhost:8080"));
                 (lit "type", JString (lit "string")) ] ]) ] in
  stringify collection.

(** [now] is the value of [Date.now()] when the function runs. *)
Definition generatePostmanEnvironment (now : Z) : jsstring :=
  let environment :=
    JObject
      [ (lit "id", JString (intToString now ++ lit "-env"));
        (lit "name", JString (lit "Generated Environment"));
        (lit "values",
         JArray
           [ JObject
               [ (lit "key", JString (lit "base_url"));
                 (lit "value", JString (lit "http://localhost:8080"));
                 (lit "enabled", JBool true);
                 (lit "type", JString (lit "default")) ] ]);
        (lit "_postman_variable_scope", JString (lit "environment")) ] in
  stringify environment.

Definition addTypeImport (type : jsvalue) (imports : list jsstring)
  : list jsstring :=
  if isStr type "BigDecimal" then
    setAdd imports (lit "import java.math.BigDecimal;")
  else if isStr type "LocalDate" then
    setAdd imports (lit "import java.time.LocalDate;")
  else if isStr type "LocalDateTime" then
    setAdd imports (lit "import java.time.LocalDateTime;")
  else if isStr type "UUID" then
    setAdd imports (lit "import java.util.UUID;")
  else imports.

(** The loop of [generateDTO] over [cls.attributes], from attribute number
    [i] on: the kept attributes in order.  [fieldDefinitions] and [imports]
    are computed from them below. *)
Fixpoint dtoAttributes (attrs : list jsstring) (i : nat)
  (usedFieldNames : list jsstring) : list ParsedAttr :=
  match attrs with
  | [] => []
  | attr :: rest =>
      let p := parseAttribute attr i in
      let name := attrName p in
      if negb (includes usedFieldNames name)
         && negb (eqs (toLowerCase name) (lit "id"))
      then p :: dtoAttributes rest (S i) (setAdd usedFieldNames name)
      else dtoAttributes rest (S i) usedFieldNames
  end.

Definition dtoFields (cls : ClassDefinition) : list ParsedAttr :=
  dtoAttributes (attributes cls) 0 (setAdd [] (lit "id")).

Definition generateDTO (g : JavaSpringGenerator) (cls : ClassDefinition)
  : jsstring :=
  let className := toPascal (name cls) in
  let kept := dtoFields cls in
  let fieldDefinitions :=
    map (fun p => tpl "    private " ++ toStr (attrType p) ++ tpl " "
                  ++ attrName p ++ tpl ";") kept in
  let imports :=
    fold_left (fun imports p => addTypeImport (attrType p) imports) kept [] in
  let importSection := join newline (sortStrings imports) in
  let importBlock :=
    if (0 <? List.length imports)%nat
    then newline ++ importSection ++ newline else [] in
  let fieldBlock :=
    if (0 <? List.length fieldDefinitions)%nat
    then newline ++ join newline fieldDefinitions ++ newline else [] in
  tpl "package "
  ++ packageName g
  ++ tpl ".dto;

import lombok.*;"
  ++ importBlock
  ++ tpl "

@Data
@NoArgsConstructor
@AllArgsConstructor
public class "
  ++ className
  ++ tpl "DTO {
    private Long id;
"
  ++ fieldBlock
  ++ tpl "
}".

Definition generateRepository (g : JavaSpringGenerator) (cls : ClassDefinition) : jsstring :=
  let className := toPascal (name cls) in
  tpl "package "
  ++ packageName g
  ++ tpl ".repository;

import "
  ++ packageName g
  ++ tpl ".model."
  ++ className
  ++ tpl ";
import org.springframework.data.jpa.repository.JpaRepository;
import org.springframework.stereotype.Repository;

@Repository
public interface "
  ++ className
  ++ tpl "Repository extends JpaRepository<"
  ++ className
  ++ tpl ", Long> {
}".

Definition generateService (g : JavaSpringGenerator) (cls : ClassDefinition) : jsstring :=
  let className := toPascal (name cls) in
  let varName := toCamelCase className in
  let repoName := className ++ lit "Repository" in
  let repoVar := varName ++ lit "Repository" in
  let dtoName := className ++ lit "DTO" in
  tpl "package "
  ++ packageName g
  ++ tpl ".service;

import "
  ++ packageName g
  ++ tpl ".dto."
  ++ dtoName
  ++ tpl ";
import "
  ++ packageName g
  ++ tpl ".model."
  ++ className
  ++ tpl ";
import "
  ++ packageName g
  ++ tpl ".repository."
  ++ repoName
  ++ tpl ";
import org.modelmapper.ModelMapper;
import org.springframework.stereotype.Service;
import org.springframework.transaction.annotation.Transactional;

import java.util.List;
import java.util.stream.Collectors;

@Service
@Transactional
public class "
  ++ className
  ++ tpl "Service {

    private final "
  ++ repoName
  ++ tpl " "
  ++ repoVar
  ++ tpl ";
    private final ModelMapper modelMapper;

    public "
  ++ className
  ++ tpl "Service("
  ++ repoName
  ++ tpl " "
  ++ repoVar
  ++ tpl ", ModelMapper modelMapper) {
        this."
  ++ repoVar
  ++ tpl " = "
  ++ repoVar
  ++ tpl ";
        this.modelMapper = modelMapper;
    }

    @Transactional(readOnly = true)
    public List<"
  ++ dtoName
  ++ tpl "> findAll() {
        return "
  ++ repoVar
  ++ tpl ".findAll().stream()
                .map(entity -> modelMapper.map(entity, "
  ++ dtoName
  ++ tpl ".class))
                .collect(Collectors.toList());
    }

    @Transactional(readOnly = true)
    public "
  ++ dtoName
  ++ tpl " findById(Long id) {
        "
  ++ className
  ++ tpl " entity = "
  ++ repoVar
  ++ tpl ".findById(id)
                .orElseThrow(() -> new RuntimeException('"
  ++ className
  ++ tpl " not found with id: ' + id));
        return modelMapper.map(entity, "
  ++ dtoName
  ++ tpl ".class);
    }

    public "
  ++ dtoName
  ++ tpl " create("
  ++ dtoName
  ++ tpl " dto) {
        try {
            "
  ++ className
  ++ tpl " entity = modelMapper.map(dto, "
  ++ className
  ++ tpl ".class);
            // ✅ NO usar setId(null) - Lombok @Data maneja esto
            "
  ++ className
  ++ tpl " savedEntity = "
  ++ repoVar
  ++ tpl ".save(entity);
            return modelMapper.map(savedEntity, "
  ++ dtoName
  ++ tpl ".class);
        } catch (Exception e) {
            throw new RuntimeException('Error creating "
  ++ className
  ++ tpl ": ' + e.getMessage(), e);
        }
    }

    public "
  ++ dtoName
  ++ tpl " update(Long id, "
  ++ dtoName
  ++ tpl " dto) {
        try {
            "
  ++ className
  ++ tpl " existing = "
  ++ repoVar
  ++ tpl ".findById(id)
                .orElseThrow(() -> new RuntimeException('"
  ++ className
  ++ tpl " not found with id: ' + id));
            
            // ✅ Mapear solo los campos, preservando el ID
            Long originalId = existing.getId();
            modelMapper.map(dto, existing);
            existing.setId(originalId); // Restaurar ID original
            
            "
  ++ className
  ++ tpl " savedEntity = "
  ++ repoVar
  ++ tpl ".save(existing);
            return modelMapper.map(savedEntity, "
  ++ dtoName
  ++ tpl ".class);
        } catch (Exception e) {
            throw new RuntimeException('Error updating "
  ++ className
  ++ tpl ": ' + e.getMessage(), e);
        }
    }

    public void delete(Long id) {
        try {
            if (!"
  ++ repoVar
  ++ tpl ".existsById(id)) {
                throw new RuntimeException('"
  ++ className
  ++ tpl " not found with id: ' + id);
            }
            "
  ++ repoVar
  ++ tpl ".deleteById(id);
        } catch (Exception e) {
            throw new RuntimeException('Error deleting "
  ++ className
  ++ tpl ": ' + e.getMessage(), e);
        }
    }
}".

Definition generateController (g : JavaSpringGenerator) (cls : ClassDefinition) : jsstring :=
  let className := toPascal (name cls) in
  let varName := toCamelCase className in
  let dtoName := className ++ lit "DTO" in
  let basePath := tpl "'/api/" ++ toPlural varName ++ tpl "'" in
  tpl "package "
  ++ packageName g
  ++ tpl ".controller;

import "
  ++ packageName g
  ++ tpl ".dto."
  ++ dtoName
  ++ tpl ";
import "
  ++ packageName g
  ++ tpl ".service."
  ++ className
  ++ tpl "Service;
import org.springframework.http.ResponseEntity;
import org.springframework.web.bind.annotation.*;

import java.util.List;

@RestController
@RequestMapping("
  ++ basePath
  ++ tpl ")
public class "
  ++ className
  ++ tpl "Controller {

    private final "
  ++ className
  ++ tpl "Service "
  ++ varName
  ++ tpl "Service;

    public "
  ++ className
  ++ tpl "Controller("
  ++ className
  ++ tpl "Service "
  ++ varName
  ++ tpl "Service) {
        this."
  ++ varName
  ++ tpl "Service = "
  ++ varName
  ++ tpl "Service;
    }

    @GetMapping
    public ResponseEntity<List<"
  ++ dtoName
  ++ tpl ">> getAll() {
        return ResponseEntity.ok("
  ++ varName
  ++ tpl "Service.findAll());
    }

    @GetMapping('/{id}')
    public ResponseEntity<"
  ++ dtoName
  ++ tpl "> getById(@PathVariable Long id) {
        try {
            return ResponseEntity.ok("
  ++ varName
  ++ tpl "Service.findById(id));
        } catch (RuntimeException e) {
            return ResponseEntity.notFound().build();
        }
    }

    @PostMapping
    public ResponseEntity<"
  ++ dtoName
  ++ tpl "> create(@RequestBody "
  ++ dtoName
  ++ tpl " dto) {
        return ResponseEntity.ok("
  ++ varName
  ++ tpl "Service.create(dto));
    }

    @PutMapping('/{id}')
    public ResponseEntity<"
  ++ dtoName
  ++ tpl "> update(@PathVariable Long id, @RequestBody "
  ++ dtoName
  ++ tpl " dto) {
        try {
            return ResponseEntity.ok("
  ++ varName
  ++ tpl "Service.update(id, dto));
        } catch (RuntimeException e) {
            return ResponseEntity.notFound().build();
        }
    }

    @DeleteMapping('/{id}')
    public ResponseEntity<Void> delete(@PathVariable Long id) {
        try {
            "
  ++ varName
  ++ tpl "Service.delete(id);
            return ResponseEntity.noContent().build();
        } catch (RuntimeException e) {
            return ResponseEntity.notFound().build();
        }
    }
}".

(** The body of the [forEach] over the classes in [generateAll]: the five
    files of one class, assigned into [result]. *)
Definition perClassFiles (g : JavaSpringGenerator) (cls : ClassDefinition)
  (result : list (jsstring * jsstring)) : list (jsstring * jsstring) :=
  let className := toPascal (name cls) in
  let result :=
    setProp (lit "src/main/java/com/example/model/" ++ className
             ++ lit ".java") (generateClass g cls) result in
  let result :=
    setProp (lit "src/main/java/com/example/dto/" ++ className
             ++ lit "DTO.java") (generateDTO g cls) result in
  let result :=
    setProp (lit "src/main/java/com/example/repository/" ++ className
             ++ lit "Repository.java") (generateRepository g cls) result in
  let result :=
    setProp (lit "src/main/java/com/example/service/" ++ className
             ++ lit "Service.java") (generateService g cls) result in
  setProp (lit "src/main/java/com/example/controller/" ++ className
           ++ lit "Controller.java") (generateController g cls) result.

Definition generateAll (now : Z) (g : JavaSpringGenerator)
  : list (jsstring * jsstring) :=
  let result := [] in
  let result := setProp (lit "pom.xml") generatePomXml result in
  let result :=
    setProp (lit "src/main/resources/application.properties")
      generateApplicationProperties result in
  let result :=
    setProp (lit "src/main/java/com/example/Application.java")
      generateMainApplication result in
  let result :=
    setProp (lit "src/main/java/com/example/config/ModelMapperConfig.java")
      generateModelMapperConfig result in
  let result :=
    fold_left (fun result cls => perClassFiles g cls result) (classes g)
      result in
  let result :=
    setProp (lit "postman-collection.json") (generatePostmanCollection g)
      result in
  setProp (lit "postman-environment.json") (generatePostmanEnvironment now)
    result.

(* ------------------------------------------------------------------ *)
(** ** Reading the generated members *)

(** The Java member name each line declares. *)
Definition fieldName (f : Field) : jsstring :=
  match f with
  | Column _ name => name
  | OneToOneOwner _ _ otherVar => otherVar
  | OneToOneInverse _ _ otherVar => otherVar
  | ManyToOneRef _ _ otherVar => otherVar
  | OneToManyColl _ _ collName => collName
  | ManyToManyOwner _ _ _ _ collName => collName
  | ManyToManyInverse _ _ collName => collName
  end.

(** The [mappedBy] attribute of an inverse side: the member of the other
    entity that owns the association. *)
Definition mappedByOf (f : Field) : option jsstring :=
  match f with
  | OneToOneInverse m _ _ => Some m
  | OneToManyColl m _ _ => Some m
  | ManyToManyInverse m _ _ => Some m
  | _ => None
  end.

Definition joinTableOf (f : Field) : option jsstring :=
  match f with
  | ManyToManyOwner joinTable _ _ _ _ => Some joinTable
  | _ => None
  end.

(** The members of the entity class that [generateClass] prints: the fixed
    [private Long id;] of the class template, then the lines of
    [generateFields]. *)
Definition entityMemberNames (g : JavaSpringGenerator) (cls : ClassDefinition)
  : list jsstring :=
  lit "id" :: map fieldName (entityFields g cls).

(** The members of the DTO class: the fixed [private Long id;], then
    [fieldDefinitions]. *)
Definition dtoMemberNames (cls : ClassDefinition) : list jsstring :=
  lit "id" :: map attrName (dtoFields cls).

Definition countName (x : jsstring) (l : list jsstring) : nat :=
  List.length (filter (eqs x) l).

(** The attributes of a class as [parseAttribute] reads them, numbered
    from [i]. *)
Fixpoint parsedAttributes (attrs : list jsstring) (i : nat)
  : list ParsedAttr :=
  match attrs with
  | [] => []
  | a :: rest => parseAttribute a i :: parsedAttributes rest (S i)
  end.

End Generator.

(* ------------------------------------------------------------------ *)
(** ** Inputs used below *)

Definition mkClass (n : string) (attrs : list string) : ClassDefinition :=
  {| name := lit n; attributes := map lit attrs; methods := [] |}.

Definition mkRelation (s t : string) (ty : RelationType) (bidi : bool)
  : RelationDefinition :=
  {| source := lit s; target := lit t; type := ty; bidirectional := bidi |}.

Definition mkGenerator (cs : list ClassDefinition)
  (rs : list RelationDefinition) : JavaSpringGenerator :=
  fold_left addRelation rs
    (fold_left addClass cs (newGenerator (lit "com.example"))).

(** Class [A] declares the attribute [bs] and has many [B]. *)
Definition classA_bs : ClassDefinition := mkClass "A" ["bs: String"]%string.
Definition classA : ClassDefinition := mkClass "A" [].
Definition classB : ClassDefinition := mkClass "B" [].
Definition classId : ClassDefinition := mkClass "Id" [].

Definition gen_attr_collision : JavaSpringGenerator :=
  mkGenerator [classA_bs; classB] [mkRelation "A" "B" ONE_TO_MANY false].

Definition gen_many_to_many : JavaSpringGenerator :=
  mkGenerator [classA; classB] [mkRelation "A" "B" MANY_TO_MANY true].

Definition gen_id_class : JavaSpringGenerator :=
  mkGenerator [classId; classB] [mkRelation "Id" "B" ONE_TO_MANY false].


Definition gen_self_relation : JavaSpringGenerator :=
  mkGenerator [classA] [mkRelation "A" "A" ONE_TO_MANY false].

Definition classAuthor : ClassDefinition := mkClass "Author" ["name: String"]%string.
Definition classBook : ClassDefinition := mkClass "Book" ["title: String"]%string.

(** An author with the attribute [book], the singular of the name the
    collection of its books takes. *)
Definition classAuthor_book : ClassDefinition :=
  mkClass "Author" ["book: String"]%string.

Definition gen_singular_taken : JavaSpringGenerator :=
  mkGenerator [classAuthor_book; classBook]
    [mkRelation "Author" "Book" ONE_TO_MANY false].

Definition gen_author_book (bidi : bool) : JavaSpringGenerator :=
  mkGenerator [classAuthor; classBook]
    [mkRelation "Author" "Book" ONE_TO_MANY bidi].

(** A collection member whose elements are of class [c]. *)
Definition isCollectionOf (c : jsstring) (f : Field) : bool :=
  match f with
  | OneToManyColl _ otherClass _ => eqs otherClass c
  | ManyToManyOwner _ _ _ otherClass _ => eqs otherClass c
  | ManyToManyInverse _ otherClass _ => eqs otherClass c
  | _ => false
  end.

(** A single-valued reference member of class [c]. *)
Definition isReferenceTo (c : jsstring) (f : Field) : bool :=
  match f with
  | OneToOneOwner _ otherClass _ => eqs otherClass c
  | OneToOneInverse _ otherClass _ => eqs otherClass c
  | ManyToOneRef _ otherClass _ => eqs otherClass c
  | _ => false
  end.

(** The replacement [sanitizeIdentifier] applies to one character. *)
Definition sanitizeChar (host : Host) (c : N) : N :=
  if isIdentifierChar host c then c else underscore.

(** [/^\d/.test(s)] *)
Definition startsWithDigit (s : jsstring) : bool :=
  match s with
  | c :: _ => isAsciiDigit c
  | [] => false
  end.

(** The pluralization rules as the specification words them, to be compared
    with [toPlural]; a consonant is read as an ASCII letter that is not a
    vowel. *)
Definition isVowel (c : N) : bool :=
  isLowerVowel c || (c =? 65) || (c =? 69) || (c =? 73) || (c =? 79)
  || (c =? 85).

Definition isConsonant (c : N) : bool :=
  (isAsciiUpper c || isAsciiLower c) && negb (isVowel c).

Definition endsInConsonantY (s : jsstring) : bool :=
  match rev s with
  | y :: c :: _ => (y =? 121) && isConsonant c
  | _ => false
  end.

Definition pluralize_spec (s : jsstring) : jsstring :=
  if endsInSibilant s then s ++ lit "es"
  else if endsInConsonantY s then dropLast 1 s ++ lit "ies"
  else if endsWith s (lit "f") then dropLast 1 s ++ lit "ves"
  else if endsWith s (lit "fe") then dropLast 2 s ++ lit "ves"
  else s ++ lit "s".

(** [s] ends in [suffix]. *)
Definition EndsIn (s suffix : jsstring) : Prop := exists p, s = p ++ suffix.

(** [s] ends in one of s, sh, ch, x, z. *)
Definition Sibilant (s : jsstring) : Prop :=
  EndsIn s (lit "s") \/ EndsIn s (lit "sh") \/ EndsIn s (lit "ch")
  \/ EndsIn s (lit "x") \/ EndsIn s (lit "z").

(** [s] ends in a y that follows a character other than a, e, i, o, u. *)
Definition NonVowelY (s : jsstring) : Prop :=
  exists p c, s = p ++ [c; 121] /\ isLowerVowel c = false.

(** A run of white space, and a token: a non-empty string without white
    space. *)
Definition AllWhite (ws : jsstring) : Prop :=
  Forall (fun c => isWhiteSpace c = true) ws.

Definition Token (t : jsstring) : Prop :=
  t <> [] /\ Forall (fun c => isWhiteSpace c = false) t.

Definition colon : N := 58.

Definition classProduct : ClassDefinition :=
  mkClass "Product" ["title: String"; "pages: int"; "price: decimal"]%string.

(** One assignment [data[name] = ...] of [generateSampleRequestBody]. *)
Definition sampleStep (data : list (jsstring * json)) (p : ParsedAttr)
  : list (jsstring * json) :=
  setProp (attrName p) (sampleValue (attrType p) (attrName p)) data.


(** Two attribute lines that parse to the same name, and a line that parses
    to the name [__proto__]. *)
Definition classTwiceX : ClassDefinition :=
  mkClass "T" ["x: String"; "x: int"]%string.

Definition classProto : ClassDefinition := mkClass "P" ["__proto__"]%string.

(* ------------------------------------------------------------------ *)
(** ** The file map as a list of assignments *)

(** One assignment [result[k] = v]. *)
Definition assignStep {A : Type} (obj : list (jsstring * A))
  (kv : jsstring * A) : list (jsstring * A) :=
  setProp (fst kv) (snd kv) obj.

(** The five kinds of file [generateAll] writes for a class, and the path of
    each. *)
Inductive ArtifactKind := Model | Dto | Repository | Service | Controller.

Definition artifactKinds : list ArtifactKind :=
  [Model; Dto; Repository; Service; Controller].

Definition classPathPrefix (k : ArtifactKind) : jsstring :=
  match k with
  | Model => lit "src/main/java/com/example/model/"
  | Dto => lit "src/main/java/com/example/dto/"
  | Repository => lit "src/main/java/com/example/repository/"
  | Service => lit "src/main/java/com/example/service/"
  | Controller => lit "src/main/java/com/example/controller/"
  end.

Definition classPathSuffix (k : ArtifactKind) : jsstring :=
  match k with
  | Model => lit ".java"
  | Dto => lit "DTO.java"
  | Repository => lit "Repository.java"
  | Service => lit "Service.java"
  | Controller => lit "Controller.java"
  end.

Definition classPath (k : ArtifactKind) (className : jsstring) : jsstring :=
  classPathPrefix k ++ className ++ classPathSuffix k.

(** The text [generateAll] stores under each kind of path. *)
Definition classText (host : Host) (g : JavaSpringGenerator)
  (cls : ClassDefinition) (k : ArtifactKind) : jsstring :=
  match k with
  | Model => generateClass host g cls
  | Dto => generateDTO host g cls
  | Repository => generateRepository host g cls
  | Service => generateService host g cls
  | Controller => generateController host g cls
  end.

Definition classFiles (host : Host) (g : JavaSpringGenerator)
  (cls : ClassDefinition) : list (jsstring * jsstring) :=
  map (fun k => (classPath k (toPascal host (name cls)), classText host g cls k))
      artifactKinds.

Definition staticFiles : list (jsstring * jsstring) :=
  [ (lit "pom.xml", generatePomXml);
    (lit "src/main/resources/application.properties",
     generateApplicationProperties);
    (lit "src/main/java/com/example/Application.java",
     generateMainApplication);
    (lit "src/main/java/com/example/config/ModelMapperConfig.java",
     generateModelMapperConfig) ].

Definition postmanFiles (host : Host) (now : Z) (g : JavaSpringGenerator)
  : list (jsstring * jsstring) :=
  [ (lit "postman-collection.json", generatePostmanCollection host g);
    (lit "postman-environment.json", generatePostmanEnvironment now) ].

(** All the assignments of [generateAll], in the order it makes them. *)
Definition assignments (host : Host) (now : Z) (g : JavaSpringGenerator)
  : list (jsstring * jsstring) :=
  staticFiles ++ flat_map (classFiles host g) (classes g)
  ++ postmanFiles host now g.

(** Four characters of a path that tell the kinds of file apart. *)
Definition pathSig (p : jsstring) : jsstring :=
  [nth 0 p 0; nth 9 p 0; nth 26 p 0; nth 29 p 0].

Definition classSig (k : ArtifactKind) : jsstring :=
  pathSig (classPath k []).

(** Pairwise distinct strings, decided. *)
Fixpoint nodupb (l : list jsstring) : bool :=
  match l with
  | [] => true
  | x :: r => negb (includes r x) && nodupb r
  end.

(** The paths [generateAll] writes whatever the classes are. *)
Definition fixedPaths : list jsstring :=
  map fst staticFiles
  ++ [lit "postman-collection.json"; lit "postman-environment.json"].

(** The pair [generateSampleRequestBody] assigns for a parsed attribute. *)
Definition samplePair (p : ParsedAttr) : jsstring * json :=
  (attrName p, sampleValue (attrType p) (attrName p)).

Definition classUser : ClassDefinition := mkClass "user" ["name: String"]%string.
Definition classUserAgain : ClassDefinition :=
  mkClass "User" ["email: String"]%string.

(** Two classes whose names differ in the case of the first letter only. *)
Definition gen_same_pascal : JavaSpringGenerator :=
  mkGenerator [classUser; classUserAgain] [].

(* ------------------------------------------------------------------ *)
(** ** Shapes of names, types and lines *)

(** The ten Java types of the right-hand sides of the type table. *)
Definition javaTypes : list jsstring :=
  map lit [ "Integer"; "Long"; "String"; "Double"; "Float"; "BigDecimal";
            "Boolean"; "LocalDate"; "LocalDateTime"; "UUID" ]%string.

(** An ASCII character of a Java identifier, and a Java identifier over
    ASCII: not empty, letters, digits, underscore and dollar sign only, no
    digit in front. *)
Definition isAsciiIdentifierChar (c : N) : bool :=
  isAsciiUpper c || isAsciiLower c || isAsciiDigit c || (c =? underscore)
  || (c =? dollar).

Definition isAsciiIdentifier (s : jsstring) : bool :=
  nonEmpty s && forallb isAsciiIdentifierChar s && negb (startsWithDigit s).

Definition isAscii (s : jsstring) : bool := forallb (fun c => c <? 128) s.

(** The scalar lines of an entity, and the line an attribute of the DTO
    would be in the entity. *)
Definition isColumn (f : Field) : bool :=
  match f with
  | Column _ _ => true
  | _ => false
  end.

Definition columnOf (p : ParsedAttr) : Field :=
  Column (attrType p) (attrName p).

(** The generator [g] with the list of relations [rs] in place of its own. *)
Definition withRelations (g : JavaSpringGenerator)
  (rs : list RelationDefinition) : JavaSpringGenerator :=
  {| classes := classes g; relations := rs; packageName := packageName g |}.

(** [/^[A-Z]/.test(t)] *)
Definition startsWithUpper (t : jsstring) : bool :=
  match t with
  | c :: _ => isAsciiUpper c
  | [] => false
  end.

(** A generator with one class and no relation. *)
Definition gen_product : JavaSpringGenerator := mkGenerator [classProduct] [].

(** Two relations from [A] to [B]: each would declare the member [b] on
    [A]. *)
Definition gen_two_relations : JavaSpringGenerator :=
  mkGenerator [classA; classB]
    [mkRelation "A" "B" ONE_TO_ONE false; mkRelation "A" "B" MANY_TO_ONE false].



(** [t] is empty or starts with an ASCII character. *)
Definition startsAscii (t : jsstring) : bool :=
  match t with
  | c :: _ => c <? 128
  | [] => true
  end.

(** What is known of every real host: no white space character is a
    letter or a number. *)
Definition HostSane (host : Host) : Prop :=
  forall c, isWhiteSpace c = true -> isIdentifierChar host c = false.

(** The character [toPascal] and [toCamelCase] put in front for an ASCII
    first character. *)
Definition asciiUpper (c : N) : N := if isAsciiLower c then c - 32 else c.
Definition asciiLower (c : N) : N := if isAsciiUpper c then c + 32 else c.

(** A generator under another package, with other relations. *)
Definition gen_author_book_other : JavaSpringGenerator :=
  {| classes := [classAuthor; classBook];
     relations := [mkRelation "Book" "Author" MANY_TO_MANY true];
     packageName := lit "org.acme" |}.

(** A name that [sanitizeIdentifier] leaves as it is. *)
Definition CleanName (host : Host) (n : jsstring) : Prop :=
  n <> [] /\ Forall (fun c => isIdentifierChar host c = true) n
  /\ startsWithDigit n = false.

(* ------------------------------------------------------------------ *)
(** ** More strings *)

(** [s.split(sep)] for a one-character separator. *)
Fixpoint splitOn (sep : N) (cur : jsstring) (s : jsstring) : list jsstring :=
  match s with
  | [] => [rev cur]
  | c :: r =>
      if c =? sep then rev cur :: splitOn sep [] r
      else splitOn sep (c :: cur) r
  end.

Definition split (sep : N) (s : jsstring) : list jsstring := splitOn sep [] s.

(** [s.startsWith(p)] and [s.includes(needle)] on strings. *)
Fixpoint startsWith (s p : jsstring) : bool :=
  match p, s with
  | [], _ => true
  | x :: p', y :: s' => (x =? y) && startsWith s' p'
  | _ :: _, [] => false
  end.

Fixpoint stringIncludes (s needle : jsstring) : bool :=
  startsWith s needle
  || match s with
     | [] => false
     | _ :: r => stringIncludes r needle
     end.

(* ------------------------------------------------------------------ *)
(** ** The caller: the side bar of the diagram editor *)

Module Sidebar.

(** [sanitizeIdentifier] of the editor; [raw] is the text [String(raw ?? '')].
    Unlike the generator's, it returns the fallback as it is. *)
Definition sanitizeIdentifier (host : Host) (raw fallback : jsstring)
  : jsstring :=
  let s := trim raw in
  if negb (nonEmpty s) then fallback
  else
    let s := map (fun c => if isIdentifierChar host c then c else underscore)
                 s in
    if startsWithDigit s then underscore :: s else s.

(** The argument of [coerceArrayOfLines]: an array, given by the texts
    [String(v ?? '')] of its elements, or any other value, given by its text
    [String(value ?? '')]. *)
Inductive LinesValue :=
| ArrayOf (items : list jsstring)
| TextOf (text : jsstring).

Definition coerceArrayOfLines (value : LinesValue) : list jsstring :=
  match value with
  | ArrayOf items => filter nonEmpty (map trim items)
  | TextOf text => filter nonEmpty (map trim (split 10 text))
  end.


(** [handleGenerateCode]: the name of the class of node number [idx], whose
    data has the name [dataName] (empty when it has none). *)
Definition classFallback (idx : nat) : jsstring :=
  lit "Clase_" ++ natToString (idx + 1).

Definition className (host : Host) (dataName : jsstring) (idx : nat)
  : jsstring :=
  let rawName := if nonEmpty dataName then dataName else classFallback idx in
  sanitizeIdentifier host rawName (classFallback idx).

(** [handleGenerateCode]: the line handed to the generator for attribute
    line number [i] of a node. *)
Definition attributeName (host : Host) (line : jsstring) (i : nat)
  : jsstring :=
  let n := nth 0 (split colon line) [] in
  sanitizeIdentifier host n (lit "campo_" ++ natToString (i + 1)).

Definition attributeType (line : jsstring) : jsstring :=
  let t := nth_error (split colon line) 1 in
  let v := trim (match t with Some t => t | None => lit "String" end) in
  if nonEmpty v then v else lit "String".

Definition attributeLine (host : Host) (line : jsstring) (i : nat)
  : jsstring :=
  let nombre := attributeName host line i in
  let tipo := attributeType line in
  nombre ++ lit ": " ++ tipo.

(** [handleGenerateCode]: an end of a relation, from the name in the data
    of the node at that end of the edge. *)
Definition endpoint (host : Host) (dataName fallback : jsstring) : jsstring :=
  let s := sanitizeIdentifier host dataName fallback in
  if nonEmpty s then s else fallback.

(** [handleGenerateCode]: the folder of the archive a file of the file map
    is written to. *)
Inductive Folder :=
| modelFolder | dtoFolder | repoFolder | serviceFolder | controllerFolder.

Definition folderOf (filename : jsstring) : Folder :=
  if endsWith filename (lit "DTO.java") then dtoFolder
  else if stringIncludes filename (lit "Repository") then repoFolder
  else if stringIncludes filename (lit "Service") then serviceFolder
  else if stringIncludes filename (lit "Controller") then controllerFolder
  else modelFolder.

End Sidebar.

(* ------------------------------------------------------------------ *)
(** ** The paths of class files, taken apart *)

Definition slash : N := 47.
Definition dot : N := 46.

(** The directory of each kind of class file and the word its name ends in
    before [.java]. *)
Definition kindDirectory (k : ArtifactKind) : jsstring :=
  match k with
  | Model => lit "src/main/java/com/example/model"
  | Dto => lit "src/main/java/com/example/dto"
  | Repository => lit "src/main/java/com/example/repository"
  | Service => lit "src/main/java/com/example/service"
  | Controller => lit "src/main/java/com/example/controller"
  end.

Definition kindWord (k : ArtifactKind) : jsstring :=
  match k with
  | Model => []
  | Dto => lit "DTO"
  | Repository => lit "Repository"
  | Service => lit "Service"
  | Controller => lit "Controller"
  end.

(** The folder of the archive meant for each kind of class file. *)
Definition kindFolder (k : ArtifactKind) : Sidebar.Folder :=
  match k with
  | Model => Sidebar.modelFolder
  | Dto => Sidebar.dtoFolder
  | Repository => Sidebar.repoFolder
  | Service => Sidebar.serviceFolder
  | Controller => Sidebar.controllerFolder
  end.

(** The words [folderOf] looks for inside a file name. *)
Definition routedWords : list jsstring :=
  [lit "Repository"; lit "Service"; lit "Controller"].

(** A class name that does not end in [DTO] and holds none of the words. *)
Definition plainClassName (pn : jsstring) : bool :=
  negb (endsWith pn (lit "DTO"))
  && negb (stringIncludes pn (lit "Repository"))
  && negb (stringIncludes pn (lit "Service"))
  && negb (stringIncludes pn (lit "Controller")).

(** The import [addTypeImport] adds for a type, if any, and the set
    [imports] of [generateDTO]. *)
Definition importOf (type : jsvalue) : option jsstring :=
  if isStr type "BigDecimal" then Some (lit "import java.math.BigDecimal;")
  else if isStr type "LocalDate" then Some (lit "import java.time.LocalDate;")
  else if isStr type "LocalDateTime"
  then Some (lit "import java.time.LocalDateTime;")
  else if isStr type "UUID" then Some (lit "import java.util.UUID;")
  else None.

Definition dtoImports (host : Host) (cls : ClassDefinition) : list jsstring :=
  fold_left (fun imports p => addTypeImport (attrType p) imports)
            (dtoFields host cls) [].

(** The types of the table that need no import. *)
Definition javaLangTypes : list jsstring :=
  map lit [ "Integer"; "Long"; "String"; "Double"; "Float"; "Boolean" ]%string.




(** The names used on a class when the relation that follows the relations
    [pre] in the generator is processed for it: [id], the attributes kept,
    and what the relations of [pre] reserved. *)
Definition usedBefore (host : Host) (cls : ClassDefinition)
  (pre : list RelationDefinition) : list jsstring :=
  fst (relationFields host (name cls)
         (fst (attributeFields host (attributes cls) 0 (setAdd [] (lit "id"))))
         (filter (touches (name cls)) pre)).

(* ------------------------------------------------------------------ *)
(** ** Strings: equality and membership *)

Lemma eqs_refl (a : jsstring) : eqs a a = true.
Proof.
  induction a as [|x a IH]; simpl; [reflexivity|].
  now rewrite N.eqb_refl, IH.
Qed.

Lemma eqs_eq (a b : jsstring) : eqs a b = true <-> a = b.
Proof.
  split.
  - revert b; induction a as [|x a IH]; intros [|y b] H; simpl in H;
      try discriminate; [reflexivity|].
    apply andb_true_iff in H as [Hx Hr].
    apply N.eqb_eq in Hx. apply IH in Hr. now subst.
  - intros ->. apply eqs_refl.
Qed.

Lemma eqs_neq (a b : jsstring) : eqs a b = false <-> a <> b.
Proof.
  rewrite <- eqs_eq. destruct (eqs a b); split; congruence.
Qed.

Lemma includes_In (l : list jsstring) (s : jsstring) :
  includes l s = true <-> In s l.
Proof.
  unfold includes. rewrite existsb_exists. split.
  - intros (x & Hin & Hx). apply eqs_eq in Hx. now subst.
  - intros H. exists s. split; [assumption | apply eqs_refl].
Qed.

Lemma includes_not_In (l : list jsstring) (s : jsstring) :
  includes l s = false <-> ~ In s l.
Proof.
  rewrite <- includes_In. destruct (includes l s); split; congruence.
Qed.

Lemma setAdd_In (used : list jsstring) (x y : jsstring) :
  In y (setAdd used x) <-> y = x \/ In y used.
Proof.
  unfold setAdd. destruct (includes used x) eqn:E.
  - apply includes_In in E. split; [now right|]. intros [->|H]; assumption.
  - rewrite in_app_iff. simpl. split.
    + intros [H|[H|[]]]; [now right | now left].
    + intros [->|H]; [right; now left | now left].
Qed.

(* ------------------------------------------------------------------ *)
(** ** C1: names of the members of one entity *)

(** C1 (fails on the code): the members emitted into one entity do not always
    have pairwise distinct names.  For class [A] with the attribute
    [bs: String] and the relation A -> B of type ONE_TO_MANY, the name looked
    up and reserved for the relation is [b], while the member pushed is the
    collection [bs]: the entity of [A] declares [bs] twice. *)
Theorem C1_entity_declares_a_name_twice (host : Host) :
  relationFieldName host (lit "A") (mkRelation "A" "B" ONE_TO_MANY false)
    = lit "b"
  /\ map fieldName (entityFields host gen_attr_collision classA_bs)
     = [lit "bs"; lit "bs"]
  /\ ~ NoDup (map fieldName (entityFields host gen_attr_collision classA_bs)).
Proof.
  assert (E : map fieldName (entityFields host gen_attr_collision classA_bs)
              = [lit "bs"; lit "bs"]) by (vm_compute; reflexivity).
  split; [vm_compute; reflexivity|]. split; [exact E|].
  rewrite E. intros H. inversion H as [|x l Hnotin _]; subst.
  apply Hnotin. now left.
Qed.

(* ------------------------------------------------------------------ *)
(** ** C2: one-to-many *)

Lemma relationFields_app (host : Host) (className : jsstring)
  (rs1 rs2 : list RelationDefinition) :
  forall used,
    relationFields host className used (rs1 ++ rs2)
    = let '(used1, lines1) := relationFields host className used rs1 in
      let '(used2, lines2) := relationFields host className used1 rs2 in
      (used2, lines1 ++ lines2).
Proof.
  induction rs1 as [|r rs1 IH]; intros used; simpl.
  - destruct (relationFields host className used rs2). reflexivity.
  - destruct (relationStep host className used r) as [u1 l1].
    rewrite IH.
    destruct (relationFields host className u1 rs1) as [u2 l2].
    destruct (relationFields host className u2 rs2) as [u3 l3].
    now rewrite app_assoc.
Qed.

(** The lines of an entity are the attribute lines, then, relation by
    relation in the order of the generator, what [relationStep] pushes for
    it under the names used so far. *)
Lemma entityFields_relation (host : Host) (g : JavaSpringGenerator)
  (cls : ClassDefinition) (pre post : list RelationDefinition)
  (r : RelationDefinition) :
  relations g = pre ++ r :: post ->
  touches (name cls) r = true ->
  exists used before after,
    entityFields host g cls
    = before ++ snd (relationStep host (name cls) used r) ++ after
    /\ used
       = fst (relationFields host (name cls)
                (fst (attributeFields host (attributes cls) 0
                        (setAdd [] (lit "id"))))
                (filter (touches (name cls)) pre)).
Proof.
  intros Hrel Ht. unfold entityFields. rewrite Hrel, filter_app.
  cbn [filter]. rewrite Ht.
  destruct (attributeFields host (attributes cls) 0 (setAdd [] (lit "id")))
    as [u0 l0] eqn:E0.
  rewrite relationFields_app. cbn [fst].
  destruct (relationFields host (name cls) u0
              (filter (touches (name cls)) pre)) as [u1 l1] eqn:E1.
  cbn [relationFields].
  destruct (relationStep host (name cls) u1 r) as [u2 l2] eqn:E2.
  destruct (relationFields host (name cls) u2
              (filter (touches (name cls)) post)) as [u3 l3].
  exists u1, (l0 ++ l1), l3. cbn [fst snd]. split; [|reflexivity].
  rewrite E2. cbn [snd]. now rewrite <- !app_assoc.
Qed.

(** One step of the loop for a ONE_TO_MANY relation between two different
    classes: when the name looked up is not among the names used, the step
    pushes on the source the collection of the target class, mapped by the
    source's camel-cased name, and on the target the single reference to the
    source class with its join column; the flag [bidirectional] plays no
    part. *)
Lemma one_to_many_step (host : Host) (r : RelationDefinition)
  (used : list jsstring) :
  type r = ONE_TO_MANY ->
  source r <> target r ->
  (~ In (toCamelCase host (target r)) used ->
   snd (relationStep host (source r) used r)
   = [OneToManyColl (toCamelCase host (source r)) (target r)
        (toPlural (toCamelCase host (target r)))])
  /\ (~ In (toPlural (toCamelCase host (source r))) used ->
      snd (relationStep host (target r) used r)
      = [ManyToOneRef (toCamelCase host (source r)) (source r)
           (toCamelCase host (source r))]).
Proof.
  intros Ht Hne. split.
  - intros Hs. unfold relationStep, relationFieldName, relationLines.
    rewrite eqs_refl, Ht.
    apply includes_not_In in Hs. rewrite Hs. reflexivity.
  - intros Hp. unfold relationStep, relationFieldName, relationLines.
    apply eqs_neq in Hne. rewrite Hne, Ht.
    apply includes_not_In in Hp. rewrite Hp. reflexivity.
Qed.

(** The end-to-end example of the specification, for both values of the
    flag: the entity of Author gets [books], the entity of Book gets
    [author]. *)
Lemma author_book_example (host : Host) (bidi : bool) :
  entityFields host (gen_author_book bidi) classAuthor
  = [Column (VStr (lit "String")) (lit "name");
     OneToManyColl (lit "author") (lit "Book") (lit "books")]
  /\ entityFields host (gen_author_book bidi) classBook
     = [Column (VStr (lit "String")) (lit "title");
        ManyToOneRef (lit "author") (lit "Author") (lit "author")].
Proof.
  destruct bidi; split; vm_compute; reflexivity.
Qed.

(** C2 (fails on the code): a ONE_TO_MANY relation does not always give its
    source the collection of the target class.  For the classes
    Author{book: String} and Book{title: String} and the relation
    Author -> Book of type ONE_TO_MANY, the name looked up on Author is the
    singular [book], which the attribute has taken, so the relation is
    skipped there: the entity of Author declares the column [book] and no
    collection of Book, although the name [books] of that collection is used
    by no member; the entity of Book still gets its reference [author].  And
    for a relation from a class to itself only the source side is handled:
    the entity of [A] gets the collection [as] mapped by [a] and no single
    reference [a]. *)
Theorem C2_one_to_many_collection_lost (host : Host) :
  relationFieldName host (lit "Author")
    (mkRelation "Author" "Book" ONE_TO_MANY false) = lit "book"
  /\ entityFields host gen_singular_taken classAuthor_book
     = [Column (VStr (lit "String")) (lit "book")]
  /\ filter (isCollectionOf (lit "Book"))
            (entityFields host gen_singular_taken classAuthor_book) = []
  /\ ~ In (lit "books")
         (entityMemberNames host gen_singular_taken classAuthor_book)
  /\ entityFields host gen_singular_taken classBook
     = [Column (VStr (lit "String")) (lit "title");
        ManyToOneRef (lit "author") (lit "Author") (lit "author")]
  /\ entityFields host gen_self_relation classA
     = [OneToManyColl (lit "a") (lit "A") (lit "as")]
  /\ filter (isReferenceTo (lit "A"))
            (entityFields host gen_self_relation classA) = [].
Proof.
  assert (E : entityFields host gen_singular_taken classAuthor_book
              = [Column (VStr (lit "String")) (lit "book")])
    by (vm_compute; reflexivity).
  assert (S : entityFields host gen_self_relation classA
              = [OneToManyColl (lit "a") (lit "A") (lit "as")])
    by (vm_compute; reflexivity).
  split; [vm_compute; reflexivity|]. split; [exact E|].
  split; [rewrite E; reflexivity|].
  split.
  { unfold entityMemberNames. rewrite E. apply includes_not_In.
    vm_compute. reflexivity. }
  split; [vm_compute; reflexivity|]. split; [exact S|].
  rewrite S. reflexivity.
Qed.

(* ------------------------------------------------------------------ *)
(** ** C3: many-to-many *)

(** The owning side of a many-to-many relation: one collection of the target
    class, with the join table lower(source)_lower(target). *)
Lemma many_to_many_source_side (host : Host) (r : RelationDefinition) :
  type r = MANY_TO_MANY ->
  relationLines host (source r) r
  = [ManyToManyOwner
       (toLowerCase host (source r) ++ lit "_" ++ toLowerCase host (target r))
       (toCamelCase host (source r)) (toCamelCase host (target r)) (target r)
       (toPlural (toCamelCase host (target r)))].
Proof.
  intros Ht. unfold relationLines. rewrite Ht, eqs_refl. reflexivity.
Qed.

(** The join table is named after the relation's source and target, in
    that order, whatever the class being planned: only the source side
    declares it. *)
Lemma many_to_many_join_table (host : Host) (r : RelationDefinition) :
  type r = MANY_TO_MANY ->
  map joinTableOf (relationLines host (source r) r)
  = [Some (toLowerCase host (source r) ++ lit "_"
           ++ toLowerCase host (target r))]
  /\ (source r <> target r ->
      Forall (fun f => joinTableOf f = None)
             (relationLines host (target r) r)).
Proof.
  intros Ht. split.
  - now rewrite many_to_many_source_side.
  - intros Hne. unfold relationLines. rewrite Ht.
    apply eqs_neq in Hne. rewrite Hne.
    destruct (bidirectional r); repeat constructor.
Qed.

(** The other side: nothing unless the relation is bidirectional; then a
    collection of the source class whose [mappedBy] is the plural of the
    camel-cased source class name. *)
Lemma many_to_many_target_side (host : Host) (r : RelationDefinition) :
  type r = MANY_TO_MANY -> source r <> target r ->
  relationLines host (target r) r
  = if bidirectional r
    then [ManyToManyInverse (toPlural (toCamelCase host (source r)))
            (source r) (toPlural (toCamelCase host (source r)))]
    else [].
Proof.
  intros Ht Hne. unfold relationLines. rewrite Ht.
  apply eqs_neq in Hne. rewrite Hne. reflexivity.
Qed.

(** C3 (fails on the code): for the bidirectional many-to-many relation
    A -> B the source class gets the collection [bs] owning the join table
    [a_b], but the collection emitted on B is mapped by [as], which is its
    own name and not the name [bs] of the owning side's collection. *)
Theorem C3_inverse_side_is_mapped_by_its_own_name (host : Host) :
  entityFields host gen_many_to_many classA
  = [ManyToManyOwner (lit "a_b") (lit "a") (lit "b") (lit "B") (lit "bs")]
  /\ entityFields host gen_many_to_many classB
     = [ManyToManyInverse (lit "as") (lit "A") (lit "as")]
  /\ map mappedByOf (entityFields host gen_many_to_many classB)
     <> map (fun f => Some (fieldName f))
            (entityFields host gen_many_to_many classA).
Proof.
  assert (EA : entityFields host gen_many_to_many classA
               = [ManyToManyOwner (lit "a_b") (lit "a") (lit "b") (lit "B")
                    (lit "bs")]) by (vm_compute; reflexivity).
  assert (EB : entityFields host gen_many_to_many classB
               = [ManyToManyInverse (lit "as") (lit "A") (lit "as")])
    by (vm_compute; reflexivity).
  split; [exact EA|]. split; [exact EB|].
  rewrite EA, EB. vm_compute. discriminate.
Qed.

(* ------------------------------------------------------------------ *)
(** ** C4: the file map and the clock *)


Lemma assoc_assign_other {A : Type} (k k' : jsstring) (v : A)
  (obj : list (jsstring * A)) :
  k' <> k -> assoc k' (assign k v obj) = assoc k' obj.
Proof.
  intros Hne. induction obj as [|[k0 v0] obj IH]; simpl.
  - apply eqs_neq in Hne. now rewrite Hne.
  - destruct (eqs k k0) eqn:E; simpl.
    + apply eqs_eq in E. subst k0.
      apply eqs_neq in Hne. now rewrite Hne.
    + now rewrite IH.
Qed.

Lemma assoc_assign_same {A : Type} (k : jsstring) (v : A)
  (obj : list (jsstring * A)) :
  assoc k (assign k v obj) = Some v.
Proof.
  induction obj as [|[k0 v0] obj IH]; simpl.
  - now rewrite eqs_refl.
  - destruct (eqs k k0) eqn:E; simpl; rewrite E; [reflexivity | exact IH].
Qed.


Lemma assoc_setProp_other {A : Type} (k k' : jsstring) (v : A)
  (obj : list (jsstring * A)) :
  k' <> k -> assoc k' (setProp k v obj) = assoc k' obj.
Proof.
  intros Hne. unfold setProp. destruct (eqs k (lit "__proto__"));
    [reflexivity | now apply assoc_assign_other].
Qed.




(* ------------------------------------------------------------------ *)
(** ** C5: the type resolver *)

Lemma typeMap_values_truthy (k v : jsstring) :
  assoc k typeMap = Some v -> nonEmpty v = true.
Proof.
  assert (H : forallb (fun kv => nonEmpty (snd kv)) typeMap = true)
    by (vm_compute; reflexivity).
  rewrite forallb_forall in H.
  generalize dependent H. generalize typeMap as l.
  induction l as [|[k' v'] l IH]; intros H E; simpl in E; [discriminate|].
  destruct (eqs k k').
  - injection E as <-. apply (H (k', v')). now left.
  - apply IH; [|assumption]. intros x Hx. apply H. now right.
Qed.

(** What the resolver returns, by cases on the trimmed token: the table's
    entry; for a token that names a member of [Object.prototype], that
    member; [String] for every other token. *)
Lemma mapToJavaType_cases (token : jsstring) :
  mapToJavaType token
  = match assoc (trim token) typeMap with
    | Some v => VStr v
    | None => if includes objectPrototypeKeys (trim token)
              then VInherited (trim token)
              else VStr (lit "String")
    end.
Proof.
  unfold mapToJavaType, getProperty, orElse.
  destruct (assoc (trim token) typeMap) as [v|] eqn:E.
  - simpl. now rewrite (typeMap_values_truthy _ _ E).
  - destruct (includes objectPrototypeKeys (trim token)); reflexivity.
Qed.

(** C5 (fails on the code): the token [constructor] is not in the synonym
    table, and the resolver does not return the text type for it: the table
    is an object literal, so the read finds the member it inherits from
    [Object.prototype], which is truthy and is returned. *)
Theorem C5_token_outside_the_table_not_String :
  assoc (trim (lit "constructor")) typeMap = None
  /\ mapToJavaType (lit "constructor") = VInherited (lit "constructor")
  /\ mapToJavaType (lit "constructor") <> VStr (lit "String").
Proof.
  split; [vm_compute; reflexivity|].
  assert (E : mapToJavaType (lit "constructor")
              = VInherited (lit "constructor")) by (vm_compute; reflexivity).
  split; [exact E|]. rewrite E. discriminate.
Qed.

(* ------------------------------------------------------------------ *)
(** ** C6: the identifier sanitizer *)

Lemma underscore_is_identifierChar (host : Host) :
  isIdentifierChar host underscore = true.
Proof. reflexivity. Qed.

Lemma sanitizeChar_allowed (host : Host) (c : N) :
  isIdentifierChar host (sanitizeChar host c) = true.
Proof.
  unfold sanitizeChar. destruct (isIdentifierChar host c) eqn:E;
    [exact E | apply underscore_is_identifierChar].
Qed.

Lemma digit_is_identifierChar (host : Host) (c : N) :
  isAsciiDigit c = true -> isIdentifierChar host c = true.
Proof.
  intros H. unfold isIdentifierChar, isNumber.
  assert (Hlt : (c <? 128) = true).
  { unfold isAsciiDigit in H. apply andb_true_iff in H as [_ H].
    apply N.leb_le in H. apply N.ltb_lt. lia. }
  rewrite Hlt, H. now rewrite orb_true_r.
Qed.

Lemma sanitizeChar_digit (host : Host) (c : N) :
  isAsciiDigit (sanitizeChar host c) = isAsciiDigit c.
Proof.
  unfold sanitizeChar. destruct (isIdentifierChar host c) eqn:E;
    [reflexivity|].
  destruct (isAsciiDigit c) eqn:D; [|reflexivity].
  rewrite (digit_is_identifierChar host c D) in E. discriminate.
Qed.

Lemma sanitizeIdentifier_eq (host : Host) (raw fallback : jsstring) :
  sanitizeIdentifier host raw fallback
  = (if startsWithDigit (safeStr raw fallback) then [underscore] else [])
    ++ map (sanitizeChar host) (safeStr raw fallback).
Proof.
  unfold sanitizeIdentifier. fold (sanitizeChar host).
  destruct (safeStr raw fallback) as [|c s]; [reflexivity|].
  cbn [map startsWithDigit]. rewrite sanitizeChar_digit.
  destruct (isAsciiDigit c); reflexivity.
Qed.

Lemma map_sanitizeChar_id (host : Host) (s : jsstring) :
  Forall (fun c => isIdentifierChar host c = true) s ->
  map (sanitizeChar host) s = s.
Proof.
  induction 1 as [|c s Hc _ IH]; [reflexivity|].
  cbn [map]. unfold sanitizeChar at 1. now rewrite Hc, IH.
Qed.




(* ------------------------------------------------------------------ *)
(** ** C7: pluralization *)

Lemma skipn_length_app (p suffix : jsstring) :
  skipn (List.length (p ++ suffix) - List.length suffix) (p ++ suffix)
  = suffix.
Proof.
  rewrite length_app.
  replace (List.length p + List.length suffix - List.length suffix)%nat
    with (List.length p) by lia.
  induction p as [|x p IH]; [reflexivity | exact IH].
Qed.

Lemma dropLast_app (p suffix : jsstring) :
  dropLast (List.length suffix) (p ++ suffix) = p.
Proof.
  unfold dropLast. rewrite length_app.
  replace (List.length p + List.length suffix - List.length suffix)%nat
    with (List.length p) by lia.
  induction p as [|x p IH]; simpl; [reflexivity | now rewrite IH].
Qed.

Lemma endsWith_EndsIn (s suffix : jsstring) :
  endsWith s suffix = true <-> EndsIn s suffix.
Proof.
  unfold endsWith, EndsIn. split.
  - intros H. apply andb_true_iff in H as [H _]. apply eqs_eq in H.
    remember (List.length s - List.length suffix)%nat as n.
    exists (firstn n s). rewrite <- H. symmetry. apply firstn_skipn.
  - intros [p ->]. rewrite skipn_length_app, eqs_refl. simpl.
    apply Nat.leb_le. rewrite length_app. lia.
Qed.

Lemma endsInSibilant_iff (s : jsstring) :
  endsInSibilant s = true <-> Sibilant s.
Proof.
  unfold endsInSibilant, Sibilant.
  rewrite !orb_true_iff, !endsWith_EndsIn. tauto.
Qed.

Lemma endsInNonVowelY_iff (s : jsstring) :
  endsInNonVowelY s = true <-> NonVowelY s.
Proof.
  unfold endsInNonVowelY, NonVowelY. split.
  - destruct (rev s) as [|y [|c q]] eqn:E; try discriminate.
    intros H. apply andb_true_iff in H as [Hy Hc].
    apply N.eqb_eq in Hy. subst y. apply negb_true_iff in Hc.
    exists (rev q), c. split; [|assumption].
    rewrite <- (rev_involutive s), E. simpl. now rewrite <- app_assoc.
  - intros (p & c & -> & Hc). rewrite rev_app_distr. simpl.
    now rewrite Hc.
Qed.

Lemma safeStr_empty_fallback (s : jsstring) : safeStr s [] = trim s.
Proof.
  unfold safeStr. destruct (trim s); reflexivity.
Qed.

Lemma last_char_differs (p q : jsstring) (a b : N) :
  a <> b -> p ++ [a] <> q ++ [b].
Proof.
  intros Hne H. apply app_inj_tail in H as [_ H]. contradiction.
Qed.

(** C7 (amended): [toPlural] works on the trimmed input; a blank input gives
    [items].  Otherwise, in this order: an ending s, sh, ch, x or z takes es;
    a final y that follows any character other than a lower-case a, e, i, o,
    u is replaced by ies; a final f is replaced by ves; a final fe is
    replaced by ves; everything else takes s.  In particular class, category,
    leaf and user give classes, categories, leaves and users. *)
Theorem C7_toPlural_rules (str : jsstring) :
  let s := trim str in
  (s = [] -> toPlural str = lit "items")
  /\ (Sibilant s -> toPlural str = s ++ lit "es")
  /\ (~ Sibilant s ->
      forall p c, s = p ++ [c; 121] -> isLowerVowel c = false ->
                  toPlural str = p ++ [c] ++ lit "ies")
  /\ (~ Sibilant s -> ~ NonVowelY s ->
      forall p, s = p ++ lit "f" -> toPlural str = p ++ lit "ves")
  /\ (~ Sibilant s -> ~ NonVowelY s ->
      forall p, s = p ++ lit "fe" -> toPlural str = p ++ lit "ves")
  /\ (s <> [] -> ~ Sibilant s -> ~ NonVowelY s ->
      ~ EndsIn s (lit "f") -> ~ EndsIn s (lit "fe") ->
      toPlural str = s ++ lit "s")
  /\ toPlural (lit "class") = lit "classes"
  /\ toPlural (lit "category") = lit "categories"
  /\ toPlural (lit "leaf") = lit "leaves"
  /\ toPlural (lit "user") = lit "users".
Proof.
  cbv zeta.
  assert (Ex : toPlural (lit "class") = lit "classes"
               /\ toPlural (lit "category") = lit "categories"
               /\ toPlural (lit "leaf") = lit "leaves"
               /\ toPlural (lit "user") = lit "users")
    by (repeat split; vm_compute; reflexivity).
  unfold toPlural at 1 2 3 4 5 6. rewrite safeStr_empty_fallback.
  split; [|split; [|split; [|split; [|split; [|split; [|exact Ex]]]]]].
  - intros ->. reflexivity.
  - intros Hs. assert (Hne : nonEmpty (trim str) = true).
    { destruct (trim str); [|reflexivity].
      destruct Hs as [[p H]|[[p H]|[[p H]|[[p H]|[p H]]]]];
        destruct p; discriminate. }
    rewrite Hne. apply endsInSibilant_iff in Hs. now rewrite Hs.
  - intros Hs p c Hp Hc.
    assert (Hy : NonVowelY (trim str)) by (exists p, c; now split).
    rewrite Hp at 1. replace (nonEmpty (p ++ [c; 121])) with true
      by (destruct p; reflexivity).
    cbn [negb]. destruct (endsInSibilant (trim str)) eqn:E.
    { apply endsInSibilant_iff in E. contradiction. }
    apply endsInNonVowelY_iff in Hy. rewrite Hy, Hp.
    change (p ++ [c; 121]) with (p ++ [c] ++ [121]).
    rewrite app_assoc.
    change 1%nat with (List.length [121]).
    rewrite (dropLast_app (p ++ [c]) [121]).
    now rewrite <- app_assoc.
  - intros Hs Hy p Hp. rewrite Hp at 1.
    replace (nonEmpty (p ++ lit "f")) with true by (destruct p; reflexivity).
    cbn [negb]. destruct (endsInSibilant (trim str)) eqn:E.
    { apply endsInSibilant_iff in E. contradiction. }
    destruct (endsInNonVowelY (trim str)) eqn:E2.
    { apply endsInNonVowelY_iff in E2. contradiction. }
    assert (Hf : endsWith (trim str) (lit "f") = true)
      by (apply endsWith_EndsIn; now exists p).
    rewrite Hf, Hp. change 1%nat with (List.length (lit "f")).
    now rewrite (dropLast_app p (lit "f")).
  - intros Hs Hy p Hp. rewrite Hp at 1.
    replace (nonEmpty (p ++ lit "fe")) with true by (destruct p; reflexivity).
    cbn [negb]. destruct (endsInSibilant (trim str)) eqn:E.
    { apply endsInSibilant_iff in E. contradiction. }
    destruct (endsInNonVowelY (trim str)) eqn:E2.
    { apply endsInNonVowelY_iff in E2. contradiction. }
    destruct (endsWith (trim str) (lit "f")) eqn:Ef.
    { apply endsWith_EndsIn in Ef as [q Hq]. exfalso.
      rewrite Hp in Hq.
      change (p ++ lit "fe") with (p ++ [102] ++ [101]) in Hq.
      rewrite app_assoc in Hq.
      revert Hq. apply last_char_differs. discriminate. }
    assert (Hfe : endsWith (trim str) (lit "fe") = true)
      by (apply endsWith_EndsIn; now exists p).
    rewrite Hfe, Hp. change 2%nat with (List.length (lit "fe")).
    now rewrite (dropLast_app p (lit "fe")).
  - intros Hne Hs Hy Hf Hfe.
    replace (nonEmpty (trim str)) with true
      by (destruct (trim str); [contradiction | reflexivity]).
    cbn [negb]. destruct (endsInSibilant (trim str)) eqn:E.
    { apply endsInSibilant_iff in E. contradiction. }
    destruct (endsInNonVowelY (trim str)) eqn:E2.
    { apply endsInNonVowelY_iff in E2. contradiction. }
    destruct (endsWith (trim str) (lit "f")) eqn:Ef.
    { apply endsWith_EndsIn in Ef. contradiction. }
    destruct (endsWith (trim str) (lit "fe")) eqn:Efe.
    { apply endsWith_EndsIn in Efe. contradiction. }
    reflexivity.
Qed.

Lemma C7_toPlural_witness :
  ~ Sibilant (trim (lit " proxy "))
  /\ toPlural (lit " proxy ") = lit "proxies".
Proof.
  assert (Hs : ~ Sibilant (trim (lit " proxy "))).
  { intros Hs. apply endsInSibilant_iff in Hs. vm_compute in Hs.
    discriminate. }
  split; [exact Hs|].
  destruct (C7_toPlural_rules (lit " proxy ")) as (_ & _ & H & _).
  exact (H Hs (lit "pro") 120 eq_refl eq_refl).
Defined.

(** C7 as stated fails: in [a1y] the final y follows a digit, which is no
    consonant, so the rules of the specification give [a1ys]; the code gives
    [a1ies]. *)
Lemma C7_counterexample :
  toPlural (lit "a1y") = lit "a1ies"
  /\ pluralize_spec (lit "a1y") = lit "a1ys"
  /\ toPlural (lit "a1y") <> pluralize_spec (lit "a1y").
Proof.
  repeat split; vm_compute; try reflexivity; discriminate.
Qed.

(* ------------------------------------------------------------------ *)
(** ** C8: the attribute form [Type name] *)

Lemma trimStart_white (ws s : jsstring) :
  AllWhite ws -> trimStart (ws ++ s) = trimStart s.
Proof.
  induction 1 as [|c ws Hc _ IH]; [reflexivity|].
  simpl. now rewrite Hc.
Qed.

Lemma trimStart_token (t s : jsstring) :
  Token t -> trimStart (t ++ s) = t ++ s.
Proof.
  intros [Hne Hall]. destruct t as [|c t]; [contradiction|].
  inversion Hall as [|? ? Hc _]; subst. simpl. now rewrite Hc.
Qed.

Lemma AllWhite_rev (ws : jsstring) : AllWhite ws -> AllWhite (rev ws).
Proof. apply Forall_rev. Qed.

Lemma Token_rev (t : jsstring) : Token t -> Token (rev t).
Proof.
  intros [Hne Hall]. split; [|now apply Forall_rev].
  intros H. apply Hne. rewrite <- (rev_involutive t), H. reflexivity.
Qed.

Lemma trimEnd_white (s ws : jsstring) :
  AllWhite ws -> trimEnd (s ++ ws) = trimEnd s.
Proof.
  intros H. unfold trimEnd. rewrite rev_app_distr.
  now rewrite trimStart_white by now apply AllWhite_rev.
Qed.

Lemma trimEnd_token (s t : jsstring) :
  Token t -> trimEnd (s ++ t) = s ++ t.
Proof.
  intros H. unfold trimEnd. rewrite rev_app_distr.
  rewrite trimStart_token by now apply Token_rev.
  now rewrite <- rev_app_distr, rev_involutive.
Qed.

(** The trimmed form of a line made of two tokens. *)
Lemma trim_two_tokens (ws0 t1 ws1 t2 ws2 : jsstring) :
  AllWhite ws0 -> AllWhite ws2 -> Token t1 -> Token t2 ->
  trim (ws0 ++ t1 ++ ws1 ++ t2 ++ ws2) = t1 ++ ws1 ++ t2.
Proof.
  intros H0 H2 T1 T2. unfold trim.
  rewrite trimStart_white by assumption.
  rewrite trimStart_token by assumption.
  replace (t1 ++ ws1 ++ t2 ++ ws2) with (((t1 ++ ws1) ++ t2) ++ ws2)
    by now rewrite <- !app_assoc.
  rewrite trimEnd_white by assumption.
  rewrite trimEnd_token by assumption.
  now rewrite <- app_assoc.
Qed.

Lemma trim_token (t : jsstring) : Token t -> trim t = t.
Proof.
  intros T. unfold trim.
  rewrite <- (app_nil_r t) at 1. rewrite trimStart_token by assumption.
  rewrite app_nil_r. change t with ([] ++ t) at 1.
  now rewrite trimEnd_token.
Qed.

Lemma splitRuns_nonwhite (t : jsstring) :
  Forall (fun c => isWhiteSpace c = false) t ->
  forall cur inRun s,
    t <> [] \/ inRun = false ->
    splitRuns cur inRun (t ++ s) = splitRuns (rev t ++ cur) false s.
Proof.
  induction 1 as [|c t Hc _ IH]; intros cur inRun s Hor.
  - destruct Hor as [Hne | ->]; [contradiction | reflexivity].
  - simpl. rewrite Hc. rewrite IH by now right.
    now rewrite <- app_assoc.
Qed.

Lemma splitRuns_white_in_run (ws : jsstring) :
  AllWhite ws ->
  forall cur s, splitRuns cur true (ws ++ s) = splitRuns cur true s.
Proof.
  induction 1 as [|c ws Hc _ IH]; intros cur s; [reflexivity|].
  simpl. now rewrite Hc.
Qed.

Lemma splitRuns_white (ws : jsstring) :
  AllWhite ws -> ws <> [] ->
  forall cur s,
    splitRuns cur false (ws ++ s) = rev cur :: splitRuns [] true s.
Proof.
  intros Hall Hne cur s. destruct ws as [|c ws]; [contradiction|].
  inversion Hall as [|? ? Hc Hws]; subst. simpl. rewrite Hc.
  now rewrite splitRuns_white_in_run.
Qed.

Lemma split_two_tokens (t1 ws1 t2 : jsstring) :
  Token t1 -> Token t2 -> AllWhite ws1 -> ws1 <> [] ->
  filter nonEmpty (splitWhiteSpace (t1 ++ ws1 ++ t2)) = [t1; t2].
Proof.
  intros [N1 A1] [N2 A2] Hws Hne. unfold splitWhiteSpace.
  rewrite (splitRuns_nonwhite t1 A1) by now left.
  rewrite (splitRuns_white ws1 Hws Hne).
  rewrite <- (app_nil_r t2).
  rewrite (splitRuns_nonwhite t2 A2) by now left.
  simpl. rewrite !app_nil_r, !rev_involutive.
  destruct t1; [contradiction|]. destruct t2; [contradiction|]. reflexivity.
Qed.

Lemma indexOf_absent (c : N) (s : jsstring) :
  ~ In c s -> indexOf c s = None.
Proof.
  induction s as [|x s IH]; intros H; [reflexivity|].
  simpl. destruct (x =? c) eqn:E.
  - apply N.eqb_eq in E. exfalso. apply H. now left.
  - rewrite IH; [reflexivity|]. intros Hin. apply H. now right.
Qed.

(** C8 (amended): for a line without a colon that consists of exactly two
    tokens separated by white space, the first of which is a primitive
    keyword, a known type name or a capitalized word, [parseAttribute]
    returns as type the resolution of the first token by the type resolver
    (not the token itself) and as name the camel-cased sanitized second
    token. *)
Theorem C8_type_name_form (host : Host) (line : jsstring) (index : nat)
  (ws0 t1 ws1 t2 ws2 : jsstring) :
  line = ws0 ++ t1 ++ ws1 ++ t2 ++ ws2 ->
  AllWhite ws0 -> AllWhite ws1 -> ws1 <> [] -> AllWhite ws2 ->
  Token t1 -> Token t2 ->
  ~ In colon line ->
  In t1 primitives \/ In t1 common \/ isCapitalizedWord t1 = true ->
  parseAttribute host line index
  = {| attrType := mapToJavaType t1;
       attrName := toCamelCase host
                     (sanitizeIdentifier host t2 (fieldFallback index)) |}.
Proof.
  intros -> H0 H1 Hne H2 T1 T2 Hcolon Hlike.
  assert (Hty : isJavaType t1 = true).
  { unfold isJavaType. rewrite (trim_token t1 T1).
    rewrite !orb_true_iff, !includes_In. tauto. }
  unfold parseAttribute. rewrite safeStr_empty_fallback.
  rewrite trim_two_tokens by assumption.
  replace (nonEmpty (t1 ++ ws1 ++ t2)) with true
    by (destruct T1 as [N1 _]; destruct t1; [contradiction | reflexivity]).
  cbn [negb].
  rewrite indexOf_absent.
  - rewrite split_two_tokens by assumption. now rewrite Hty.
  - intros Hin. apply Hcolon. rewrite !in_app_iff in *. tauto.
Qed.

Lemma C8_type_name_witness :
  parseAttribute asciiHost (lit " int   Count ") 0
  = {| attrType := VStr (lit "Integer"); attrName := lit "count" |}.
Proof.
  assert (W : forall ws, forallb isWhiteSpace ws = true -> AllWhite ws).
  { intros ws H. apply Forall_forall. intros c Hc.
    exact (proj1 (forallb_forall _ _) H c Hc). }
  assert (T : forall t, nonEmpty t = true ->
                        forallb (fun c => negb (isWhiteSpace c)) t = true ->
                        Token t).
  { intros t Hn H. split; [intros ->; discriminate|].
    apply Forall_forall. intros c Hc.
    apply negb_true_iff. exact (proj1 (forallb_forall _ _) H c Hc). }
  apply (C8_type_name_form asciiHost (lit " int   Count ") 0
           (lit " ") (lit "int") (lit "   ") (lit "Count") (lit " ")).
  - reflexivity.
  - apply W. reflexivity.
  - apply W. reflexivity.
  - discriminate.
  - apply W. reflexivity.
  - apply T; reflexivity.
  - apply T; reflexivity.
  - vm_compute. intuition discriminate.
  - left. apply includes_In. vm_compute. reflexivity.
Defined.

(** C8 as stated fails: for [int count] the type returned is [Integer], not
    the first token; and for [String Title] the name returned is [title],
    not the sanitized second token. *)
Lemma C8_counterexample :
  attrType (parseAttribute asciiHost (lit "int count") 0)
  = VStr (lit "Integer")
  /\ attrType (parseAttribute asciiHost (lit "int count") 0)
     <> VStr (lit "int")
  /\ attrName (parseAttribute asciiHost (lit "String Title") 0)
     = lit "title"
  /\ sanitizeIdentifier asciiHost (lit "Title") (fieldFallback 0)
     = lit "Title".
Proof.
  repeat split; vm_compute; try reflexivity; discriminate.
Qed.

(* ------------------------------------------------------------------ *)
(** ** C9: the sample request body *)

Lemma sampleData_fold (host : Host) (attrs : list jsstring) :
  forall i data,
    sampleData host attrs i data
    = fold_left sampleStep (parsedAttributes host attrs i) data.
Proof.
  induction attrs as [|a attrs IH]; intros i data; [reflexivity|].
  simpl. now rewrite IH.
Qed.

Lemma dtoAttributes_parsed (host : Host) (attrs : list jsstring)
  (p : ParsedAttr) :
  forall i used,
    In p (dtoAttributes host attrs i used) ->
    In p (parsedAttributes host attrs i).
Proof.
  induction attrs as [|a attrs IH]; intros i used H; [contradiction|].
  simpl in *.
  destruct (negb (includes used (attrName (parseAttribute host a i)))
            && negb (eqs (toLowerCase host
                            (attrName (parseAttribute host a i)))
                         (lit "id"))).
  - destruct H as [H|H]; [now left | right; eapply IH; eassumption].
  - right. eapply IH; eassumption.
Qed.

Lemma sampleStep_untouched (ps : list ParsedAttr) (n : jsstring) :
  ~ In n (map attrName ps) ->
  forall data, assoc n (fold_left sampleStep ps data) = assoc n data.
Proof.
  induction ps as [|q ps IH]; intros Hn data; [reflexivity|].
  simpl. rewrite IH.
  - unfold sampleStep. apply assoc_setProp_other.
    intros ->. apply Hn. now left.
  - intros Hin. apply Hn. now right.
Qed.

Lemma countName_present (x : jsstring) (l : list jsstring) :
  In x l -> (1 <= countName x l)%nat.
Proof.
  unfold countName. induction l as [|y l IH]; intros H; [contradiction|].
  cbn [filter]. destruct (eqs x y) eqn:E; [simpl; lia|].
  destruct H as [->|H]; [now rewrite eqs_refl in E | now apply IH].
Qed.

Lemma countName_cons (x y : jsstring) (l : list jsstring) :
  countName x (y :: l)
  = ((if eqs x y then 1 else 0) + countName x l)%nat.
Proof.
  unfold countName. cbn [filter]. destruct (eqs x y); reflexivity.
Qed.

(** The value stored under a name that one attribute only parses to. *)
Lemma sampleStep_single (ps : list ParsedAttr) (p : ParsedAttr) :
  In p ps ->
  attrName p <> lit "__proto__" ->
  countName (attrName p) (map attrName ps) = 1%nat ->
  forall data,
    assoc (attrName p) (fold_left sampleStep ps data)
    = Some (sampleValue (attrType p) (attrName p)).
Proof.
  intros Hin Hproto. induction ps as [|q ps IH]; intros Hcount data;
    [contradiction|].
  cbn [map] in Hcount. rewrite countName_cons in Hcount.
  cbn [fold_left]. destruct Hin as [->|Hin].
  - rewrite eqs_refl in Hcount.
    rewrite sampleStep_untouched.
    + unfold sampleStep, setProp. apply eqs_neq in Hproto.
      rewrite Hproto. apply assoc_assign_same.
    + intros Hn. apply countName_present in Hn. lia.
  - assert (Hp : (1 <= countName (attrName p) (map attrName ps))%nat).
    { apply countName_present. now apply in_map. }
    destruct (eqs (attrName p) (attrName q)); [lia|].
    apply IH; [assumption | lia].
Qed.

(** C9 (amended): in the sample request body, a resolved scalar field whose
    name only one attribute line parses to (and is not [__proto__]) gets a
    value fixed by its resolved type and its name: the text type gets
    [sample_<field>], Integer and Long get 1, Double and Float get 1.0 (the
    number 1), Boolean gets true, and every other type (BigDecimal,
    LocalDate, LocalDateTime, UUID) gets [sample_<field>]. *)
Theorem C9_sample_value_by_type (host : Host) (cls : ClassDefinition)
  (p : ParsedAttr) :
  In p (dtoFields host cls) ->
  attrName p <> lit "__proto__" ->
  countName (attrName p)
            (map attrName (parsedAttributes host (attributes cls) 0))
  = 1%nat ->
  assoc (attrName p) (sampleData host (attributes cls) 0 [])
  = Some (sampleValue (attrType p) (attrName p))
  /\ (forall n,
        sampleValue (VStr (lit "String")) n = JString (lit "sample_" ++ n)
        /\ sampleValue (VStr (lit "Integer")) n = JNumber 1
        /\ sampleValue (VStr (lit "Long")) n = JNumber 1
        /\ sampleValue (VStr (lit "Double")) n = JNumber 1
        /\ sampleValue (VStr (lit "Float")) n = JNumber 1
        /\ sampleValue (VStr (lit "Boolean")) n = JBool true
        /\ sampleValue (VStr (lit "BigDecimal")) n
           = JString (lit "sample_" ++ n)
        /\ sampleValue (VStr (lit "LocalDate")) n
           = JString (lit "sample_" ++ n)
        /\ sampleValue (VStr (lit "LocalDateTime")) n
           = JString (lit "sample_" ++ n)
        /\ sampleValue (VStr (lit "UUID")) n
           = JString (lit "sample_" ++ n)).
Proof.
  intros Hin Hproto Hcount. split.
  - rewrite sampleData_fold. apply sampleStep_single; try assumption.
    unfold dtoFields in Hin. eapply dtoAttributes_parsed. eassumption.
  - intros n. repeat split.
Qed.

Lemma C9_sample_value_witness :
  let p := {| attrType := VStr (lit "Integer"); attrName := lit "pages" |} in
  In p (dtoFields asciiHost classProduct)
  /\ assoc (lit "pages")
           (sampleData asciiHost (attributes classProduct) 0 [])
     = Some (JNumber 1).
Proof.
  assert (Hin : In {| attrType := VStr (lit "Integer");
                      attrName := lit "pages" |}
                   (dtoFields asciiHost classProduct)).
  { vm_compute. right. left. reflexivity. }
  split; [exact Hin|].
  refine (proj1 (C9_sample_value_by_type asciiHost classProduct _ Hin _ _)).
  - vm_compute. discriminate.
  - vm_compute. reflexivity.
Defined.

(** C9 as stated fails: the attribute [price: decimal] resolves to the
    decimal type BigDecimal, and its sample value is the string
    [sample_price], not 1.0.  Besides, the body is filled from every
    attribute line, the last one winning: the field [x] resolved from
    [x: String] gets the value 1 of the later line [x: int]; and the field
    [__proto__] gets no value at all. *)
Lemma C9_counterexample :
  In {| attrType := VStr (lit "BigDecimal"); attrName := lit "price" |}
     (dtoFields asciiHost classProduct)
  /\ assoc (lit "price")
           (sampleData asciiHost (attributes classProduct) 0 [])
     = Some (JString (lit "sample_price"))
  /\ assoc (lit "price")
           (sampleData asciiHost (attributes classProduct) 0 [])
     <> Some (JNumber 1)
  /\ dtoFields asciiHost classTwiceX
     = [{| attrType := VStr (lit "String"); attrName := lit "x" |}]
  /\ assoc (lit "x") (sampleData asciiHost (attributes classTwiceX) 0 [])
     = Some (JNumber 1)
  /\ dtoFields asciiHost classProto
     = [{| attrType := VStr (lit "String"); attrName := lit "__proto__" |}]
  /\ sampleData asciiHost (attributes classProto) 0 [] = [].
Proof.
  split; [vm_compute; right; right; left; reflexivity|].
  repeat split; vm_compute; try reflexivity; discriminate.
Qed.

(* ------------------------------------------------------------------ *)
(** ** C10: the member [id] *)

Lemma lower_not_id (host : Host) (n : jsstring) :
  eqs (toLowerCase host n) (lit "id") = false -> n <> lit "id".
Proof.
  intros H ->. vm_compute in H. discriminate.
Qed.

(** No attribute line of an entity declares a name that is [id] up to
    case. *)
Lemma attributeFields_never_id (host : Host) (attrs : list jsstring) :
  forall i used,
    Forall (fun f => eqs (toLowerCase host (fieldName f)) (lit "id") = false)
           (snd (attributeFields host attrs i used)).
Proof.
  induction attrs as [|a attrs IH]; intros i used; simpl; [constructor|].
  destruct (includes used (attrName (parseAttribute host a i))); simpl;
    [apply IH|].
  destruct (eqs (toLowerCase host (attrName (parseAttribute host a i)))
                (lit "id")) eqn:E; simpl; [apply IH|].
  specialize (IH (S i) (setAdd used (attrName (parseAttribute host a i)))).
  destruct (attributeFields host attrs (S i) _) as [u ls]. simpl in *.
  constructor; assumption.
Qed.

(** The attribute lines of an entity have pairwise distinct names, none of
    which was in the set of used names before. *)
Lemma attributeFields_distinct (host : Host) (attrs : list jsstring) :
  forall i used,
    NoDup (map fieldName (snd (attributeFields host attrs i used)))
    /\ (forall x, In x (map fieldName (snd (attributeFields host attrs i used)))
                  -> ~ In x used).
Proof.
  induction attrs as [|a attrs IH]; intros i used; simpl.
  - split; [constructor | intros x []].
  - destruct (includes used (attrName (parseAttribute host a i))) eqn:Einc;
      simpl; [apply IH|].
    destruct (eqs (toLowerCase host (attrName (parseAttribute host a i)))
                  (lit "id")); simpl; [apply IH|].
    specialize (IH (S i) (setAdd used (attrName (parseAttribute host a i)))).
    destruct (attributeFields host attrs (S i) _) as [u ls]. simpl in *.
    destruct IH as [Hnd Hfresh]. split.
    + constructor; [|assumption]. intros Hin.
      apply (Hfresh _ Hin). apply setAdd_In. now left.
    + intros x [<-|Hin].
      * now apply includes_not_In.
      * intros Hu. apply (Hfresh _ Hin). apply setAdd_In. now right.
Qed.

Lemma dtoAttributes_never_id (host : Host) (attrs : list jsstring) :
  forall i used,
    Forall (fun p => eqs (toLowerCase host (attrName p)) (lit "id") = false)
           (dtoAttributes host attrs i used).
Proof.
  induction attrs as [|a attrs IH]; intros i used; simpl; [constructor|].
  destruct (includes used (attrName (parseAttribute host a i))); simpl;
    [apply IH|].
  destruct (eqs (toLowerCase host (attrName (parseAttribute host a i)))
                (lit "id")) eqn:E; simpl; [apply IH|].
  constructor; [assumption | apply IH].
Qed.

Lemma countName_absent (x : jsstring) (l : list jsstring) :
  ~ In x l -> countName x l = 0%nat.
Proof.
  unfold countName. induction l as [|y l IH]; intros H; [reflexivity|].
  cbn [filter]. destruct (eqs x y) eqn:E.
  - apply eqs_eq in E. subst. exfalso. apply H. now left.
  - apply IH. intros Hin. apply H. now right.
Qed.

Lemma countName_head (x : jsstring) (l : list jsstring) :
  countName x (x :: l) = S (countName x l).
Proof.
  unfold countName. cbn [filter]. now rewrite eqs_refl.
Qed.

(** Every DTO declares [id] exactly once. *)
Lemma dto_declares_id_once (host : Host) (cls : ClassDefinition) :
  countName (lit "id") (dtoMemberNames host cls) = 1%nat.
Proof.
  unfold dtoMemberNames. rewrite countName_head. f_equal.
  apply countName_absent. intros Hin.
  apply in_map_iff in Hin as (p & Hp & Hin).
  pose proof (dtoAttributes_never_id host (attributes cls) 0
                (setAdd [] (lit "id"))) as H.
  rewrite Forall_forall in H. specialize (H p Hin).
  apply lower_not_id in H. congruence.
Qed.

(** C10 (fails on the code): an entity can declare [id] twice.  For the
    relation Id -> B of type ONE_TO_MANY the name reserved on B is [ids],
    which is free, and the member pushed is [private Id id;], beside the
    [private Long id;] of the class template. *)
Theorem C10_entity_declares_id_twice (host : Host) :
  entityFields host gen_id_class classB
  = [ManyToOneRef (lit "id") (lit "Id") (lit "id")]
  /\ entityMemberNames host gen_id_class classB = [lit "id"; lit "id"]
  /\ countName (lit "id") (entityMemberNames host gen_id_class classB)
     = 2%nat.
Proof.
  repeat split; vm_compute; reflexivity.
Qed.

(* ------------------------------------------------------------------ *)
(** ** Objects filled by assignments *)

Lemma assign_absent {A : Type} (k : jsstring) (v : A)
  (obj : list (jsstring * A)) :
  ~ In k (map fst obj) -> assign k v obj = obj ++ [(k, v)].
Proof.
  induction obj as [|[k' v'] obj IH]; intros H; simpl; [reflexivity|].
  destruct (eqs k k') eqn:E.
  - apply eqs_eq in E. subst k'. exfalso. apply H. now left.
  - rewrite IH; [reflexivity|]. intros Hin. apply H. now right.
Qed.

Lemma assign_key_In {A : Type} (k x : jsstring) (v : A)
  (obj : list (jsstring * A)) :
  In x (map fst (assign k v obj)) <-> x = k \/ In x (map fst obj).
Proof.
  induction obj as [|[k' v'] obj IH]; simpl.
  - intuition.
  - destruct (eqs k k') eqn:E; simpl.
    + apply eqs_eq in E. subst k'. intuition.
    + rewrite IH. intuition.
Qed.

Lemma assign_NoDup {A : Type} (k : jsstring) (v : A)
  (obj : list (jsstring * A)) :
  NoDup (map fst obj) -> NoDup (map fst (assign k v obj)).
Proof.
  induction obj as [|[k' v'] obj IH]; intros H; simpl.
  - constructor; [intros [] | constructor].
  - inversion H as [|? ? Hnot Hrest]; subst.
    destruct (eqs k k') eqn:E; simpl; [constructor; assumption|].
    constructor; [|now apply IH].
    intros Hin. apply assign_key_In in Hin as [->|Hin];
      [now rewrite eqs_refl in E | contradiction].
Qed.

Lemma assignStep_NoDup {A : Type} (obj : list (jsstring * A))
  (kv : jsstring * A) :
  NoDup (map fst obj) -> NoDup (map fst (assignStep obj kv)).
Proof.
  intros H. unfold assignStep, setProp.
  destruct (eqs (fst kv) (lit "__proto__")); [assumption|].
  now apply assign_NoDup.
Qed.

Lemma fold_assign_NoDup {A : Type} (l : list (jsstring * A)) :
  forall obj, NoDup (map fst obj) ->
              NoDup (map fst (fold_left assignStep l obj)).
Proof.
  induction l as [|kv l IH]; intros obj H; [assumption|].
  cbn [fold_left]. apply IH. now apply assignStep_NoDup.
Qed.

Lemma fold_assign_key_In {A : Type} (l : list (jsstring * A)) (x : jsstring) :
  forall obj,
    In x (map fst (fold_left assignStep l obj))
    <-> In x (map fst obj) \/ (x <> lit "__proto__" /\ In x (map fst l)).
Proof.
  induction l as [|[k v] l IH]; intros obj; cbn [fold_left map fst].
  - simpl. intuition.
  - rewrite IH. unfold assignStep, setProp. cbn [fst snd].
    destruct (eqs k (lit "__proto__")) eqn:E.
    + apply eqs_eq in E. subst k. simpl. intuition congruence.
    + apply eqs_neq in E. rewrite assign_key_In. simpl.
      intuition (subst; auto).
Qed.

(** Assignments under pairwise distinct new keys are appended in order. *)
Lemma fold_assign_distinct {A : Type} (l : list (jsstring * A)) :
  forall obj,
    NoDup (map fst l) ->
    ~ In (lit "__proto__") (map fst l) ->
    (forall k, In k (map fst l) -> ~ In k (map fst obj)) ->
    fold_left assignStep l obj = obj ++ l.
Proof.
  induction l as [|[k v] l IH]; intros obj Hnd Hproto Hfresh.
  - now rewrite app_nil_r.
  - cbn [fold_left map fst] in *. inversion Hnd as [|? ? Hk Hl]; subst.
    unfold assignStep at 2. cbn [fst snd]. unfold setProp.
    replace (eqs k (lit "__proto__")) with false.
    + rewrite assign_absent by (apply Hfresh; now left).
      rewrite IH.
      * now rewrite <- app_assoc.
      * assumption.
      * intros H. apply Hproto. now right.
      * intros x Hx Hin. rewrite map_app, in_app_iff in Hin.
        destruct Hin as [Hin|[<-|[]]].
        -- apply (Hfresh x); [now right | assumption].
        -- contradiction.
    + symmetry. apply eqs_neq. intros ->. apply Hproto. now left.
Qed.

Lemma assoc_app {A : Type} (k : jsstring) (l1 l2 : list (jsstring * A)) :
  assoc k (l1 ++ l2)
  = match assoc k l1 with Some v => Some v | None => assoc k l2 end.
Proof.
  induction l1 as [|[k' v'] l1 IH]; simpl; [reflexivity|].
  destruct (eqs k k'); [reflexivity | exact IH].
Qed.

Lemma assoc_absent {A : Type} (k : jsstring) (l : list (jsstring * A)) :
  ~ In k (map fst l) -> assoc k l = None.
Proof.
  induction l as [|[k' v'] l IH]; intros H; simpl; [reflexivity|].
  destruct (eqs k k') eqn:E.
  - apply eqs_eq in E. subst k'. exfalso. apply H. now left.
  - apply IH. intros Hin. apply H. now right.
Qed.

Lemma assoc_present {A : Type} (k : jsstring) (v : A)
  (l : list (jsstring * A)) :
  NoDup (map fst l) -> In (k, v) l -> assoc k l = Some v.
Proof.
  induction l as [|[k' v'] l IH]; intros Hnd Hin; [contradiction|].
  simpl in *. inversion Hnd as [|? ? Hk Hl]; subst.
  destruct Hin as [Heq|Hin].
  - injection Heq as -> ->. now rewrite eqs_refl.
  - destruct (eqs k k') eqn:E.
    + apply eqs_eq in E. subst k'. exfalso. apply Hk.
      change k with (fst (k, v)). now apply in_map.
    + now apply IH.
Qed.

(** After a run of assignments a key holds what the last assignment to it
    stored; the key [__proto__] is never stored. *)
Lemma assoc_fold_assign {A : Type} (l : list (jsstring * A)) (k : jsstring) :
  forall obj,
    assoc k (fold_left assignStep l obj)
    = match (if eqs k (lit "__proto__") then None else assoc k (rev l)) with
      | Some v => Some v
      | None => assoc k obj
      end.
Proof.
  induction l as [|[k' v'] l IH]; intros obj.
  - simpl. destruct (eqs k (lit "__proto__")); reflexivity.
  - cbn [fold_left rev]. rewrite IH, assoc_app.
    destruct (eqs k (lit "__proto__")) eqn:Ep.
    + unfold assignStep, setProp. cbn [fst snd].
      destruct (eqs k' (lit "__proto__")) eqn:Ep'; [reflexivity|].
      apply assoc_assign_other. intros ->. congruence.
    + destruct (assoc k (rev l)); [reflexivity|].
      unfold assignStep, setProp. cbn [fst snd assoc].
      destruct (eqs k k') eqn:E.
      * apply eqs_eq in E. subst k'. rewrite Ep. apply assoc_assign_same.
      * destruct (eqs k' (lit "__proto__")); [reflexivity|].
        apply assoc_assign_other. now apply eqs_neq.
Qed.

Lemma nodupb_NoDup (l : list jsstring) : nodupb l = true -> NoDup l.
Proof.
  induction l as [|x l IH]; intros H; [constructor|].
  simpl in H. apply andb_true_iff in H as [Hx Hl].
  constructor; [|now apply IH].
  apply negb_true_iff in Hx. now apply includes_not_In.
Qed.

(* ------------------------------------------------------------------ *)
(** ** The file map of [generateAll] *)

Lemma NoDup_app_apart {A : Type} (l1 l2 : list A) :
  NoDup (l1 ++ l2) -> forall x, In x l1 -> In x l2 -> False.
Proof.
  induction l1 as [|a l1 IH]; intros H x H1 H2; [contradiction|].
  cbn [app] in H. inversion H as [|? ? Hnot Hrest]; subst.
  destruct H1 as [->|H1].
  - apply Hnot. apply in_app_iff. now right.
  - exact (IH Hrest x H1 H2).
Qed.

Lemma perClassFiles_fold (host : Host) (g : JavaSpringGenerator)
  (cls : ClassDefinition) (result : list (jsstring * jsstring)) :
  perClassFiles host g cls result
  = fold_left assignStep (classFiles host g cls) result.
Proof.
  unfold perClassFiles, classFiles, artifactKinds, assignStep.
  unfold classPath.
  cbn [map fold_left fst snd classPathPrefix classPathSuffix classText].
  reflexivity.
Qed.

Lemma fold_left_cons {A B : Type} (f : A -> B -> A) (b : B) (l : list B)
  (a : A) : fold_left f (b :: l) a = fold_left f l (f a b).
Proof. reflexivity. Qed.

Lemma fold_left_nil {A B : Type} (f : A -> B -> A) (a : A) :
  fold_left f [] a = a.
Proof. reflexivity. Qed.

Lemma flat_map_cons {A B : Type} (f : A -> list B) (a : A) (l : list A) :
  flat_map f (a :: l) = f a ++ flat_map f l.
Proof. reflexivity. Qed.

Lemma assignStep_eq {A : Type} (obj : list (jsstring * A)) (k : jsstring)
  (v : A) : assignStep obj (k, v) = setProp k v obj.
Proof. reflexivity. Qed.

Lemma classes_fold (host : Host) (g : JavaSpringGenerator)
  (cs : list ClassDefinition) :
  forall result,
    fold_left (fun result cls => perClassFiles host g cls result) cs result
    = fold_left assignStep (flat_map (classFiles host g) cs) result.
Proof.
  induction cs as [|cls cs IH]; intros result.
  - reflexivity.
  - rewrite fold_left_cons, flat_map_cons, fold_left_app.
    rewrite (perClassFiles_fold host g cls result). apply IH.
Qed.

(** [generateAll] is the run of its assignments on the empty object. *)
Lemma generateAll_fold (host : Host) (now : Z) (g : JavaSpringGenerator) :
  generateAll host now g = fold_left assignStep (assignments host now g) [].
Proof.
  unfold assignments. rewrite !fold_left_app.
  rewrite <- (classes_fold host g (classes g)).
  unfold staticFiles, postmanFiles.
  rewrite !fold_left_cons, !fold_left_nil, !assignStep_eq.
  unfold generateAll. cbv zeta. reflexivity.
Qed.

Lemma In_artifactKinds (k : ArtifactKind) : In k artifactKinds.
Proof. destruct k; simpl; tauto. Qed.

Lemma classSig_path (k : ArtifactKind) (cn : jsstring) :
  pathSig (classPath k cn) = classSig k.
Proof. destruct k; reflexivity. Qed.

Lemma classSig_inj (k1 k2 : ArtifactKind) :
  classSig k1 = classSig k2 -> k1 = k2.
Proof.
  destruct k1, k2; intros H; try reflexivity; exfalso; vm_compute in H;
    discriminate H.
Qed.

Lemma classPath_same_kind (k : ArtifactKind) (cn1 cn2 : jsstring) :
  classPath k cn1 = classPath k cn2 -> cn1 = cn2.
Proof.
  unfold classPath. intros H. apply app_inv_head in H.
  now apply app_inv_tail in H.
Qed.

(** The path of a class file tells its kind and the class name. *)
Lemma classPath_inj (k1 k2 : ArtifactKind) (cn1 cn2 : jsstring) :
  classPath k1 cn1 = classPath k2 cn2 -> k1 = k2 /\ cn1 = cn2.
Proof.
  intros H. assert (Hk : k1 = k2).
  { apply (f_equal pathSig) in H. rewrite !classSig_path in H.
    now apply classSig_inj. }
  subst k2. split; [reflexivity|]. now apply classPath_same_kind in H.
Qed.

Lemma fixedPaths_not_class (x : jsstring) (k : ArtifactKind)
  (cn : jsstring) :
  In x fixedPaths -> x <> classPath k cn.
Proof.
  intros Hin ->.
  assert (H : forallb
                (fun x => negb (includes (map classSig artifactKinds)
                                         (pathSig x))) fixedPaths = true)
    by (vm_compute; reflexivity).
  rewrite forallb_forall in H. specialize (H _ Hin).
  apply negb_true_iff, includes_not_In in H. apply H.
  rewrite classSig_path. apply in_map. apply In_artifactKinds.
Qed.

Lemma proto_sig_not_class (k : ArtifactKind) :
  pathSig (lit "__proto__") <> classSig k.
Proof.
  destruct k; intros H; vm_compute in H; discriminate H.
Qed.

Lemma classFiles_keys (host : Host) (g : JavaSpringGenerator)
  (cls : ClassDefinition) :
  map fst (classFiles host g cls)
  = map (fun k => classPath k (toPascal host (name cls))) artifactKinds.
Proof. reflexivity. Qed.

Lemma classFiles_key_In (host : Host) (g : JavaSpringGenerator)
  (cs : list ClassDefinition) (x : jsstring) :
  In x (map fst (flat_map (classFiles host g) cs))
  <-> exists cls k, In cls cs /\ x = classPath k (toPascal host (name cls)).
Proof.
  rewrite in_map_iff. split.
  - intros ([p t] & Hx & Hin). cbn [fst] in Hx. subst p.
    apply in_flat_map in Hin as (cls & Hc & Hin).
    unfold classFiles in Hin. apply in_map_iff in Hin as (k & Hk & _).
    injection Hk as Hp _. exists cls, k. split; [assumption | now symmetry].
  - intros (cls & k & Hc & ->).
    exists (classPath k (toPascal host (name cls)), classText host g cls k).
    split; [reflexivity|]. apply in_flat_map. exists cls. split; [assumption|].
    unfold classFiles.
    apply (in_map (fun k0 => (classPath k0 (toPascal host (name cls)),
                              classText host g cls k0))).
    apply In_artifactKinds.
Qed.

Lemma classFiles_NoDup_one (host : Host) (g : JavaSpringGenerator)
  (cls : ClassDefinition) :
  NoDup (map fst (classFiles host g cls)).
Proof.
  rewrite classFiles_keys.
  assert (Hk : NoDup artifactKinds)
    by (repeat constructor; simpl; intuition discriminate).
  revert Hk. generalize artifactKinds as ks.
  induction ks as [|k ks IH]; intros Hk; [constructor|].
  inversion Hk as [|? ? Hnot Hrest]; subst. cbn [map]. constructor.
  - intros Hin. apply in_map_iff in Hin as (k' & Heq & Hin').
    apply classPath_inj in Heq as [-> _]. contradiction.
  - now apply IH.
Qed.

Lemma classFiles_NoDup (host : Host) (g : JavaSpringGenerator)
  (cs : list ClassDefinition) :
  NoDup (map (fun cls => toPascal host (name cls)) cs) ->
  NoDup (map fst (flat_map (classFiles host g) cs)).
Proof.
  induction cs as [|cls cs IH]; intros H; [constructor|].
  cbn [map flat_map] in *. inversion H as [|? ? Hnot Hrest]; subst.
  rewrite map_app. apply NoDup_app.
  - apply classFiles_NoDup_one.
  - now apply IH.
  - intros x Hx Hin. rewrite classFiles_keys in Hx.
    apply in_map_iff in Hx as (k & <- & _).
    apply classFiles_key_In in Hin as (cls' & k' & Hc & Heq).
    apply classPath_inj in Heq as [_ Heq]. apply Hnot.
    rewrite Heq. now apply (in_map (fun c => toPascal host (name c))).
Qed.

Lemma assignments_keys (host : Host) (now : Z) (g : JavaSpringGenerator) :
  map fst (assignments host now g)
  = map fst staticFiles
    ++ map fst (flat_map (classFiles host g) (classes g))
    ++ [lit "postman-collection.json"; lit "postman-environment.json"].
Proof.
  unfold assignments. now rewrite !map_app.
Qed.

Lemma assignments_NoDup (host : Host) (now : Z) (g : JavaSpringGenerator) :
  NoDup (map (fun cls => toPascal host (name cls)) (classes g)) ->
  NoDup (map fst (assignments host now g)).
Proof.
  intros H. rewrite assignments_keys.
  assert (Hfixed : NoDup fixedPaths)
    by (apply nodupb_NoDup; vm_compute; reflexivity).
  unfold fixedPaths in Hfixed.
  assert (Hclass : forall x,
             In x (map fst (flat_map (classFiles host g) (classes g))) ->
             ~ In x fixedPaths).
  { intros x Hx Hin. apply classFiles_key_In in Hx as (cls & k & _ & ->).
    now apply (fixedPaths_not_class _ k (toPascal host (name cls))) in Hin. }
  apply NoDup_app.
  - now apply NoDup_app_remove_r in Hfixed.
  - apply NoDup_app.
    + now apply classFiles_NoDup.
    + now apply NoDup_app_remove_l in Hfixed.
    + intros x Hx Hin. apply (Hclass x Hx). unfold fixedPaths.
      apply in_app_iff. now right.
  - intros x Hx Hin. apply in_app_iff in Hin as [Hin|Hin].
    + apply (Hclass x Hin). unfold fixedPaths. apply in_app_iff. now left.
    + exact (NoDup_app_apart _ _ Hfixed x Hx Hin).
Qed.

Lemma assignments_no_proto (host : Host) (now : Z)
  (g : JavaSpringGenerator) :
  ~ In (lit "__proto__") (map fst (assignments host now g)).
Proof.
  rewrite assignments_keys, !in_app_iff. intros [H|[H|H]].
  - vm_compute in H. intuition discriminate.
  - apply classFiles_key_In in H as (cls & k & _ & H).
    apply (f_equal pathSig) in H. rewrite classSig_path in H.
    revert H. apply proto_sig_not_class.
  - vm_compute in H. intuition discriminate.
Qed.

Lemma classFiles_length (host : Host) (g : JavaSpringGenerator)
  (cs : list ClassDefinition) :
  List.length (flat_map (classFiles host g) cs) = (5 * List.length cs)%nat.
Proof.
  induction cs as [|cls cs IH]; [reflexivity|].
  rewrite flat_map_cons, length_app, IH. unfold classFiles.
  rewrite length_map. cbn [List.length artifactKinds]. lia.
Qed.

(** X1: when the Pascal-cased names of the classes are pairwise distinct,
    the file map of [generateAll] is, in this order, the four scaffolding
    files, then for each class in turn its entity, DTO, repository, service
    and controller, then the two Postman documents: 6 + 5 n files for n
    classes, each under its own path. *)
Theorem X1_generateAll_files (host : Host) (now : Z)
  (g : JavaSpringGenerator) :
  NoDup (map (fun cls => toPascal host (name cls)) (classes g)) ->
  generateAll host now g
  = staticFiles ++ flat_map (classFiles host g) (classes g)
    ++ postmanFiles host now g
  /\ List.length (generateAll host now g)
     = (6 + 5 * List.length (classes g))%nat.
Proof.
  intros H.
  assert (E : generateAll host now g = assignments host now g).
  { rewrite generateAll_fold.
    rewrite fold_assign_distinct; [reflexivity | | |].
    - now apply assignments_NoDup.
    - apply assignments_no_proto.
    - intros k _ []. }
  split; [exact E|]. rewrite E. unfold assignments.
  rewrite !length_app, classFiles_length.
  unfold staticFiles, postmanFiles. cbn [List.length]. lia.
Qed.

Lemma X1_generateAll_files_witness :
  NoDup (map (fun cls => toPascal asciiHost (name cls))
             (classes (gen_author_book false)))
  /\ List.length (generateAll asciiHost 0 (gen_author_book false)) = 16%nat.
Proof.
  assert (H : NoDup (map (fun cls => toPascal asciiHost (name cls))
                         (classes (gen_author_book false))))
    by (apply nodupb_NoDup; vm_compute; reflexivity).
  split; [exact H|].
  exact (proj2 (X1_generateAll_files asciiHost 0 (gen_author_book false) H)).
Defined.

Lemma assoc_rev_absent {A : Type} (k : jsstring) (l : list (jsstring * A)) :
  ~ In k (map fst l) -> assoc k (rev l) = None.
Proof.
  intros H. apply assoc_absent. rewrite map_rev. intros Hin.
  apply H. now apply in_rev.
Qed.

Lemma classPath_not_proto (k : ArtifactKind) (cn : jsstring) :
  eqs (classPath k cn) (lit "__proto__") = false.
Proof.
  apply eqs_neq. intros H. apply (f_equal pathSig) in H.
  rewrite classSig_path in H. symmetry in H. revert H.
  apply proto_sig_not_class.
Qed.

Lemma postmanFiles_keys (host : Host) (now : Z) (g : JavaSpringGenerator) :
  map fst (postmanFiles host now g)
  = [lit "postman-collection.json"; lit "postman-environment.json"].
Proof. unfold postmanFiles. cbn [map fst]. reflexivity. Qed.

Lemma postman_paths_not_class (host : Host) (now : Z)
  (g : JavaSpringGenerator) (k : ArtifactKind) (cn : jsstring) :
  ~ In (classPath k cn) (map fst (postmanFiles host now g)).
Proof.
  rewrite postmanFiles_keys. intros Hin.
  apply (fixedPaths_not_class (classPath k cn) k cn); [|reflexivity].
  unfold fixedPaths. apply in_app_iff. right. exact Hin.
Qed.

Lemma classFiles_In (host : Host) (g : JavaSpringGenerator)
  (cls : ClassDefinition) (k : ArtifactKind) :
  In (classPath k (toPascal host (name cls)), classText host g cls k)
     (classFiles host g cls).
Proof.
  unfold classFiles.
  apply (in_map (fun k0 => (classPath k0 (toPascal host (name cls)),
                            classText host g cls k0))).
  apply In_artifactKinds.
Qed.

(** X2: the files of a class are those of the last class with its
    Pascal-cased name.  If no class after [cls] in the generator has the same
    Pascal-cased name, then each of the five paths of [cls] holds the text
    generated for [cls], whatever classes of that name came before. *)
Theorem X2_generateAll_last_class_wins (host : Host) (now : Z)
  (g : JavaSpringGenerator) (cs1 cs2 : list ClassDefinition)
  (cls : ClassDefinition) (k : ArtifactKind) :
  classes g = cs1 ++ cls :: cs2 ->
  ~ In (toPascal host (name cls))
       (map (fun c => toPascal host (name c)) cs2) ->
  assoc (classPath k (toPascal host (name cls))) (generateAll host now g)
  = Some (classText host g cls k).
Proof.
  intros Hcs Hlast. rewrite generateAll_fold, assoc_fold_assign.
  rewrite classPath_not_proto. unfold assignments. rewrite Hcs.
  rewrite flat_map_app, flat_map_cons, !rev_app_distr, <- !app_assoc.
  rewrite !assoc_app.
  rewrite (assoc_rev_absent _ (postmanFiles host now g))
    by apply postman_paths_not_class.
  rewrite (assoc_rev_absent _ (flat_map (classFiles host g) cs2)).
  2:{ intros Hin. apply classFiles_key_In in Hin as (c & k' & Hc & Heq).
      apply classPath_inj in Heq as [_ Heq]. apply Hlast. rewrite Heq.
      now apply (in_map (fun c => toPascal host (name c))). }
  rewrite (assoc_present _ (classText host g cls k)
             (rev (classFiles host g cls))); [reflexivity | |].
  - rewrite map_rev. apply NoDup_rev. apply classFiles_NoDup_one.
  - apply -> in_rev. apply classFiles_In.
Qed.

Lemma X2_generateAll_last_class_wins_witness :
  classes gen_same_pascal = [classUser] ++ classUserAgain :: []
  /\ assoc (lit "src/main/java/com/example/dto/UserDTO.java")
           (generateAll asciiHost 0 gen_same_pascal)
     = Some (generateDTO asciiHost gen_same_pascal classUserAgain).
Proof.
  split; [reflexivity|].
  refine (X2_generateAll_last_class_wins asciiHost 0 gen_same_pascal
            [classUser] [] classUserAgain Dto eq_refl _).
  intros [].
Defined.

(* ------------------------------------------------------------------ *)
(** ** The sample request body as an object *)

Lemma sampleData_assign (host : Host) (attrs : list jsstring) :
  forall i data,
    sampleData host attrs i data
    = fold_left assignStep (map samplePair (parsedAttributes host attrs i))
                data.
Proof.
  induction attrs as [|a attrs IH]; intros i data; [reflexivity|].
  cbn [sampleData parsedAttributes map]. rewrite fold_left_cons.
  rewrite IH. reflexivity.
Qed.

Lemma samplePair_keys (ps : list ParsedAttr) :
  map fst (map samplePair ps) = map attrName ps.
Proof.
  induction ps as [|p ps IH]; [reflexivity|]. cbn [map]. now rewrite IH.
Qed.

(** X3: the object behind the sample request body has pairwise distinct
    keys, and its keys are exactly the names the attribute lines parse to,
    except [__proto__]: every attribute line counts, also one that the
    entity and the DTO drop (a repeated name, or a name that is id up to
    case). *)
Theorem X3_sample_body_keys (host : Host) (cls : ClassDefinition)
  (n : jsstring) :
  NoDup (map fst (sampleData host (attributes cls) 0 []))
  /\ (In n (map fst (sampleData host (attributes cls) 0 []))
      <-> n <> lit "__proto__"
          /\ In n (map attrName
                       (parsedAttributes host (attributes cls) 0))).
Proof.
  rewrite sampleData_assign. split.
  - apply fold_assign_NoDup. constructor.
  - rewrite fold_assign_key_In, samplePair_keys. simpl. tauto.
Qed.

(** X4: in the sample request body the last attribute line of a name wins:
    if the attribute lines parse to [ps1 ++ p :: ps2], no attribute of [ps2]
    has the name of [p], and that name is not [__proto__], then the body
    holds under that name the sample value of the type of [p]. *)
Theorem X4_sample_body_last_line_wins (host : Host) (cls : ClassDefinition)
  (ps1 ps2 : list ParsedAttr) (p : ParsedAttr) :
  parsedAttributes host (attributes cls) 0 = ps1 ++ p :: ps2 ->
  ~ In (attrName p) (map attrName ps2) ->
  attrName p <> lit "__proto__" ->
  assoc (attrName p) (sampleData host (attributes cls) 0 [])
  = Some (sampleValue (attrType p) (attrName p)).
Proof.
  intros Hps Hlast Hproto. rewrite sampleData_assign, assoc_fold_assign.
  apply eqs_neq in Hproto. rewrite Hproto, Hps.
  rewrite map_app, rev_app_distr. cbn [map rev]. rewrite <- app_assoc.
  rewrite assoc_app, assoc_rev_absent.
  - cbn [app assoc samplePair]. now rewrite eqs_refl.
  - now rewrite samplePair_keys.
Qed.

Lemma X4_sample_body_last_line_wins_witness :
  parsedAttributes asciiHost (attributes classTwiceX) 0
  = [{| attrType := VStr (lit "String"); attrName := lit "x" |}]
    ++ {| attrType := VStr (lit "Integer"); attrName := lit "x" |} :: []
  /\ assoc (lit "x") (sampleData asciiHost (attributes classTwiceX) 0 [])
     = Some (JNumber 1).
Proof.
  assert (E : parsedAttributes asciiHost (attributes classTwiceX) 0
              = [{| attrType := VStr (lit "String"); attrName := lit "x" |}]
                ++ {| attrType := VStr (lit "Integer");
                      attrName := lit "x" |} :: [])
    by (vm_compute; reflexivity).
  split; [exact E|].
  refine (X4_sample_body_last_line_wins asciiHost classTwiceX _ []
            {| attrType := VStr (lit "Integer"); attrName := lit "x" |}
            E _ _).
  - intros [].
  - vm_compute. discriminate.
Defined.

(* ------------------------------------------------------------------ *)
(** ** Names: reserved words and plurals *)

Lemma reserved_entity_free :
  forallb (fun w => negb (includes reserved (w ++ lit "Entity"))) reserved
  = true.
Proof. vm_compute. reflexivity. Qed.

Lemma toCamelCase_not_reserved (host : Host) (str : jsstring) :
  includes reserved (toCamelCase host str) = false.
Proof.
  unfold toCamelCase. destruct (safeStr str []) as [|c rest].
  - vm_compute. reflexivity.
  - cbv zeta.
    destruct (includes reserved (lowerFirstUnit host c ++ rest)) eqn:E;
      [|exact E].
    apply includes_In in E.
    pose proof reserved_entity_free as H. rewrite forallb_forall in H.
    specialize (H _ E). now apply negb_true_iff in H.
Qed.

Lemma endsWith_length (s suffix : jsstring) :
  endsWith s suffix = true -> (List.length suffix <= List.length s)%nat.
Proof.
  unfold endsWith. intros H. apply andb_true_iff in H as [_ H].
  now apply Nat.leb_le in H.
Qed.

Lemma dropLast_length (k : nat) (s : jsstring) :
  List.length (dropLast k s) = (List.length s - k)%nat.
Proof. unfold dropLast. rewrite length_firstn. lia. Qed.

Lemma endsInNonVowelY_length (s : jsstring) :
  endsInNonVowelY s = true -> (2 <= List.length s)%nat.
Proof.
  unfold endsInNonVowelY. intros H. rewrite <- length_rev.
  destruct (rev s) as [|y [|c r]]; try discriminate. simpl. lia.
Qed.

(** X5: a plural is never the singular.  [toPlural] returns a string that
    is strictly longer than its trimmed argument, by at most two characters
    when the argument is not blank. *)
Theorem X5_toPlural_longer (str : jsstring) :
  (List.length (trim str) < List.length (toPlural str))%nat
  /\ (trim str <> [] ->
      (List.length (toPlural str) <= List.length (trim str) + 2)%nat).
Proof.
  unfold toPlural. rewrite safeStr_empty_fallback. cbv zeta.
  set (s := trim str).
  destruct (nonEmpty s) eqn:Hne; cbn [negb].
  2:{ destruct s; [|discriminate]. split; [simpl; lia|congruence]. }
  assert (Hlen : (1 <= List.length s)%nat)
    by (destruct s; [discriminate | simpl; lia]).
  destruct (endsInSibilant s).
  { rewrite length_app. change (List.length (lit "es")) with 2%nat.
    split; [lia | intros _; lia]. }
  destruct (endsInNonVowelY s) eqn:Ey.
  { apply endsInNonVowelY_length in Ey.
    rewrite length_app, dropLast_length.
    change (List.length (lit "ies")) with 3%nat.
    split; [lia | intros _; lia]. }
  destruct (endsWith s (lit "f")) eqn:Ef.
  { rewrite length_app, dropLast_length.
    change (List.length (lit "ves")) with 3%nat.
    split; [lia | intros _; lia]. }
  destruct (endsWith s (lit "fe")) eqn:Efe.
  { apply endsWith_length in Efe.
    change (List.length (lit "fe")) with 2%nat in Efe.
    rewrite length_app, dropLast_length.
    change (List.length (lit "ves")) with 3%nat.
    split; [lia | intros _; lia]. }
  rewrite length_app. change (List.length (lit "s")) with 1%nat.
  split; [lia | intros _; lia].
Qed.

Lemma X5_toPlural_longer_witness :
  trim (lit " leaf ") <> []
  /\ (List.length (toPlural (lit " leaf ")) <= List.length (trim (lit " leaf ")) + 2)%nat.
Proof.
  assert (H : trim (lit " leaf ") <> []) by (vm_compute; discriminate).
  split; [exact H|].
  exact (proj2 (X5_toPlural_longer (lit " leaf ")) H).
Defined.

(* ------------------------------------------------------------------ *)
(** ** The types of attributes *)

Lemma assoc_In {A : Type} (k : jsstring) (v : A) (l : list (jsstring * A)) :
  assoc k l = Some v -> In (k, v) l.
Proof.
  induction l as [|[k' v'] l IH]; intros E; simpl in E; [discriminate|].
  destruct (eqs k k') eqn:Ek.
  - apply eqs_eq in Ek. injection E as <-. subst. now left.
  - right. now apply IH.
Qed.

Lemma typeMap_values_canonical (k v : jsstring) :
  assoc k typeMap = Some v -> In v javaTypes.
Proof.
  intros E. apply assoc_In in E.
  assert (H : forallb (fun kv => includes javaTypes (snd kv)) typeMap = true)
    by (vm_compute; reflexivity).
  rewrite forallb_forall in H. specialize (H _ E).
  now apply includes_In in H.
Qed.

Lemma String_canonical : In (lit "String") javaTypes.
Proof. apply includes_In. vm_compute. reflexivity. Qed.

(** X6: the type resolver returns one of the ten Java types of its table,
    or, only for a token that is no key of the table and names a member of
    [Object.prototype], that member. *)
Theorem X6_mapToJavaType_range (token : jsstring) :
  match mapToJavaType token with
  | VStr v => In v javaTypes
  | VInherited k =>
      k = trim token /\ In k objectPrototypeKeys /\ assoc k typeMap = None
  end.
Proof.
  rewrite mapToJavaType_cases.
  destruct (assoc (trim token) typeMap) as [v|] eqn:E.
  - now apply typeMap_values_canonical in E.
  - destruct (includes objectPrototypeKeys (trim token)) eqn:Ei.
    + apply includes_In in Ei. now repeat split.
    + apply String_canonical.
Qed.

Lemma prototype_keys_not_types :
  forallb (fun k => negb (includes primitives k) && negb (includes common k)
                    && negb (startsWithUpper k))
          objectPrototypeKeys = true.
Proof. vm_compute. reflexivity. Qed.

Lemma isCapitalizedWord_upper (t : jsstring) :
  isCapitalizedWord t = true -> startsWithUpper t = true.
Proof.
  destruct t as [|c r]; [discriminate|].
  unfold isCapitalizedWord, startsWithUpper. intros H.
  now apply andb_true_iff in H as [H _].
Qed.

Lemma isJavaType_not_inherited (token : jsstring) :
  isJavaType token = true ->
  includes objectPrototypeKeys (trim token) = false.
Proof.
  unfold isJavaType. cbv zeta. intros H.
  destruct (includes objectPrototypeKeys (trim token)) eqn:E; [|reflexivity].
  apply includes_In in E.
  pose proof prototype_keys_not_types as P. rewrite forallb_forall in P.
  specialize (P _ E). apply andb_true_iff in P as [P P3].
  apply andb_true_iff in P as [P1 P2].
  apply negb_true_iff in P1, P2, P3.
  rewrite P1, P2 in H. cbn [orb] in H.
  apply isCapitalizedWord_upper in H. congruence.
Qed.

Lemma isJavaType_resolves (token : jsstring) :
  isJavaType token = true ->
  exists v, mapToJavaType token = VStr v /\ In v javaTypes.
Proof.
  intros H. rewrite mapToJavaType_cases.
  destruct (assoc (trim token) typeMap) as [v|] eqn:E.
  - exists v. split; [reflexivity|]. now apply typeMap_values_canonical in E.
  - rewrite (isJavaType_not_inherited _ H). exists (lit "String").
    split; [reflexivity | apply String_canonical].
Qed.

Lemma indexOf_Some_In (c : N) (s : jsstring) (i : nat) :
  indexOf c s = Some i -> In c s.
Proof.
  revert i. induction s as [|x s IH]; intros i E; simpl in E; [discriminate|].
  destruct (N.eqb_spec x c) as [->|_]; [now left|].
  destruct (indexOf c s) as [j|]; [|discriminate]. right. now apply (IH j).
Qed.

(** X7: the type of a parsed attribute is one of the ten Java types of the
    table, whatever the line; the one exception is a line with a colon whose
    type token names a member of [Object.prototype].  A line without a colon
    (forms [Type name] and [name]) always gets a Java type. *)
Theorem X7_attribute_type_range (host : Host) (line : jsstring)
  (index : nat) :
  match attrType (parseAttribute host line index) with
  | VStr v => In v javaTypes
  | VInherited k => In k objectPrototypeKeys /\ In colon (trim line)
  end.
Proof.
  unfold parseAttribute. rewrite safeStr_empty_fallback. cbv zeta.
  destruct (negb (nonEmpty (trim line))).
  { cbn [attrType]. apply String_canonical. }
  destruct (indexOf 58 (trim line)) as [colonIdx|] eqn:Ei.
  - cbn [attrType]. rewrite mapToJavaType_cases.
    match goal with
    | |- context [assoc ?t typeMap] =>
        destruct (assoc t typeMap) as [v|] eqn:E;
        [now apply typeMap_values_canonical in E|];
        destruct (includes objectPrototypeKeys t) eqn:Einc
    end.
    + apply includes_In in Einc. split; [exact Einc|].
      now apply indexOf_Some_In in Ei.
    + apply String_canonical.
  - destruct (filter nonEmpty (splitWhiteSpace (trim line)))
      as [|p0 [|p1 [|p2 ps]]]; cbn [attrType]; try apply String_canonical.
    destruct (isJavaType p0) eqn:Ej; cbn [attrType];
      [|apply String_canonical].
    destruct (isJavaType_resolves _ Ej) as (v & -> & Hv). exact Hv.
Qed.

Lemma fieldFallback_not_reserved (index : nat) :
  includes reserved (fieldFallback index) = false.
Proof.
  apply includes_not_In. intros Hin.
  assert (H : forallb (fun w => negb (nth 5 w 0 =? underscore)) reserved
              = true) by (vm_compute; reflexivity).
  rewrite forallb_forall in H. specialize (H _ Hin).
  unfold fieldFallback in H.
  change (lit "field_") with [102; 105; 101; 108; 100; 95] in H.
  cbn [app nth] in H. discriminate H.
Qed.

(** X8: no name is one of the thirteen reserved words of the generator:
    not the result of [toCamelCase], whatever the string, and so not the
    name of a parsed attribute, whatever the line. *)
Theorem X8_names_never_reserved (host : Host) :
  (forall str, includes reserved (toCamelCase host str) = false)
  /\ (forall line index,
        includes reserved (attrName (parseAttribute host line index))
        = false).
Proof.
  split; [apply toCamelCase_not_reserved|]. intros line index.
  unfold parseAttribute. cbv zeta.
  destruct (negb (nonEmpty (safeStr line []))).
  { cbn [attrName]. apply fieldFallback_not_reserved. }
  destruct (indexOf 58 (safeStr line [])) as [colonIdx|].
  - cbn [attrName]. apply toCamelCase_not_reserved.
  - destruct (filter nonEmpty (splitWhiteSpace (safeStr line [])))
      as [|p0 [|p1 [|p2 ps]]]; cbn [attrName];
      try apply toCamelCase_not_reserved.
    destruct (isJavaType p0); cbn [attrName];
      apply toCamelCase_not_reserved.
Qed.

(* ------------------------------------------------------------------ *)
(** ** The entity and its DTO *)

Lemma attributeFields_dto (host : Host) (attrs : list jsstring) :
  forall i used,
    snd (attributeFields host attrs i used)
    = map columnOf (dtoAttributes host attrs i used).
Proof.
  induction attrs as [|a attrs IH]; intros i used; [reflexivity|].
  cbn [attributeFields dtoAttributes]. cbv zeta.
  destruct (negb (includes used (attrName (parseAttribute host a i)))
            && negb (eqs (toLowerCase host (attrName (parseAttribute host a i)))
                         (lit "id"))); [|apply IH].
  specialize (IH (S i) (setAdd used (attrName (parseAttribute host a i)))).
  destruct (attributeFields host attrs (S i) _) as [u ls].
  cbn [snd map] in *. now rewrite IH.
Qed.

Lemma relationLines_not_column (host : Host) (className : jsstring)
  (r : RelationDefinition) :
  filter isColumn (relationLines host className r) = [].
Proof.
  unfold relationLines. cbv zeta.
  destruct (type r), (eqs (source r) className), (bidirectional r);
    reflexivity.
Qed.

Lemma relationFields_not_column (host : Host) (className : jsstring)
  (rs : list RelationDefinition) :
  forall used,
    filter isColumn (snd (relationFields host className used rs)) = [].
Proof.
  induction rs as [|r rs IH]; intros used; [reflexivity|].
  cbn [relationFields].
  destruct (relationStep host className used r) as [u1 l1] eqn:E1.
  specialize (IH u1).
  destruct (relationFields host className u1 rs) as [u2 l2].
  cbn [snd] in *. rewrite filter_app, IH, app_nil_r.
  unfold relationStep in E1.
  destruct (includes used (relationFieldName host className r));
    injection E1 as <- <-; [reflexivity | apply relationLines_not_column].
Qed.

(** X9: the entity of a class declares, first, one column for each field
    of its DTO, of the same type and name and in the same order, and after
    them lines of relations only. *)
Theorem X9_entity_columns_are_dto_fields (host : Host)
  (g : JavaSpringGenerator) (cls : ClassDefinition) :
  exists rel,
    entityFields host g cls = map columnOf (dtoFields host cls) ++ rel
    /\ filter isColumn rel = [].
Proof.
  unfold entityFields, dtoFields. cbv zeta.
  pose proof (attributeFields_dto host (attributes cls) 0
                (setAdd [] (lit "id"))) as E.
  destruct (attributeFields host (attributes cls) 0 (setAdd [] (lit "id")))
    as [used attrLines].
  cbn [snd] in E. rewrite E.
  pose proof (relationFields_not_column host (name cls)
                (filter (touches (name cls)) (relations g)) used) as R.
  destruct (relationFields host (name cls) used
              (filter (touches (name cls)) (relations g))) as [u relLines].
  cbn [snd] in R. exists relLines. split; [reflexivity | exact R].
Qed.

Lemma dtoAttributes_names (host : Host) (attrs : list jsstring) (i : nat)
  (used : list jsstring) :
  map attrName (dtoAttributes host attrs i used)
  = map fieldName (snd (attributeFields host attrs i used)).
Proof.
  rewrite attributeFields_dto, map_map. reflexivity.
Qed.

(** X10: the members of a DTO class have pairwise distinct names: [id] and
    the kept attributes, none of which is named [id] or repeats an earlier
    one. *)
Theorem X10_dto_members_distinct (host : Host) (cls : ClassDefinition) :
  NoDup (dtoMemberNames host cls).
Proof.
  unfold dtoMemberNames, dtoFields. rewrite dtoAttributes_names.
  destruct (attributeFields_distinct host (attributes cls) 0
              (setAdd [] (lit "id"))) as [Hnd Hfresh].
  constructor; [|exact Hnd].
  intros Hin. apply (Hfresh _ Hin). apply setAdd_In. now left.
Qed.

(** X11: an entity of a class that no relation touches declares exactly the
    members of its DTO, under the same names and in the same order. *)
Theorem X11_entity_without_relations (host : Host) (g : JavaSpringGenerator)
  (cls : ClassDefinition) :
  filter (touches (name cls)) (relations g) = [] ->
  entityFields host g cls = map columnOf (dtoFields host cls)
  /\ entityMemberNames host g cls = dtoMemberNames host cls.
Proof.
  intros H.
  assert (E : entityFields host g cls = map columnOf (dtoFields host cls)).
  { unfold entityFields, dtoFields. cbv zeta. rewrite H.
    pose proof (attributeFields_dto host (attributes cls) 0
                  (setAdd [] (lit "id"))) as E.
    destruct (attributeFields host (attributes cls) 0
                (setAdd [] (lit "id"))) as [used attrLines].
    cbn [snd relationFields] in *. now rewrite app_nil_r. }
  split; [exact E|].
  unfold entityMemberNames, dtoMemberNames. rewrite E, map_map. reflexivity.
Qed.

Lemma X11_entity_without_relations_witness :
  filter (touches (name classProduct))
         (relations gen_product) = []
  /\ entityMemberNames asciiHost gen_product classProduct
     = [lit "id"; lit "title"; lit "pages"; lit "price"].
Proof.
  assert (H : filter (touches (name classProduct))
                     (relations gen_product) = [])
    by (vm_compute; reflexivity).
  split; [exact H|].
  rewrite (proj2 (X11_entity_without_relations asciiHost
                    gen_product classProduct H)).
  vm_compute. reflexivity.
Defined.

(* ------------------------------------------------------------------ *)
(** ** Relations that share a name *)

Lemma relationStep_skip (host : Host) (className : jsstring)
  (used : list jsstring) (r : RelationDefinition) :
  In (relationFieldName host className r) used ->
  relationStep host className used r = (used, []).
Proof.
  intros H. unfold relationStep. cbv zeta.
  apply includes_In in H. now rewrite H.
Qed.

Lemma relationStep_reserves (host : Host) (className : jsstring)
  (used : list jsstring) (r : RelationDefinition) :
  In (relationFieldName host className r)
     (fst (relationStep host className used r)).
Proof.
  unfold relationStep. cbv zeta.
  destruct (includes used (relationFieldName host className r)) eqn:E;
    cbn [fst].
  - now apply includes_In.
  - apply setAdd_In. now left.
Qed.

Lemma relationStep_grows (host : Host) (className : jsstring)
  (used : list jsstring) (r : RelationDefinition) (x : jsstring) :
  In x used -> In x (fst (relationStep host className used r)).
Proof.
  intros H. unfold relationStep. cbv zeta.
  destruct (includes used (relationFieldName host className r)); cbn [fst];
    [exact H | apply setAdd_In; now right].
Qed.

Lemma relationFields_grows (host : Host) (className : jsstring)
  (rs : list RelationDefinition) (x : jsstring) :
  forall used,
    In x used -> In x (fst (relationFields host className used rs)).
Proof.
  induction rs as [|r rs IH]; intros used H; [exact H|].
  cbn [relationFields].
  pose proof (relationStep_grows host className used r x H) as H1.
  destruct (relationStep host className used r) as [u1 l1].
  specialize (IH u1 H1).
  destruct (relationFields host className u1 rs) as [u2 l2]. exact IH.
Qed.

Lemma relationFields_skip (host : Host) (className : jsstring)
  (used : list jsstring) (r : RelationDefinition)
  (rs : list RelationDefinition) :
  In (relationFieldName host className r) used ->
  relationFields host className used (r :: rs)
  = relationFields host className used rs.
Proof.
  intros H. cbn [relationFields]. rewrite (relationStep_skip _ _ _ _ H).
  destruct (relationFields host className used rs). reflexivity.
Qed.

Lemma relationFields_reserved (host : Host) (className : jsstring)
  (used : list jsstring) (rs1 rs2 : list RelationDefinition)
  (r : RelationDefinition) :
  In (relationFieldName host className r)
     (fst (relationFields host className used (rs1 ++ r :: rs2))).
Proof.
  rewrite relationFields_app.
  destruct (relationFields host className used rs1) as [u1 l1].
  pose proof (relationStep_reserves host className u1 r) as H.
  cbn [relationFields].
  destruct (relationStep host className u1 r) as [u2 l2]. cbn [fst] in H.
  pose proof (relationFields_grows host className rs2 _ u2 H) as H2.
  destruct (relationFields host className u2 rs2) as [u3 l3]. exact H2.
Qed.

Lemma relationFields_drop_repeated (host : Host) (className : jsstring)
  (used : list jsstring) (rs1 rs2 rs3 : list RelationDefinition)
  (r1 r2 : RelationDefinition) :
  relationFieldName host className r2 = relationFieldName host className r1 ->
  relationFields host className used (rs1 ++ r1 :: rs2 ++ r2 :: rs3)
  = relationFields host className used (rs1 ++ r1 :: rs2 ++ rs3).
Proof.
  intros Hkey.
  change (rs1 ++ r1 :: rs2 ++ r2 :: rs3)
    with (rs1 ++ (r1 :: rs2) ++ r2 :: rs3).
  change (rs1 ++ r1 :: rs2 ++ rs3) with (rs1 ++ (r1 :: rs2) ++ rs3).
  rewrite !app_assoc.
  rewrite (relationFields_app host className (rs1 ++ r1 :: rs2) (r2 :: rs3)).
  rewrite (relationFields_app host className (rs1 ++ r1 :: rs2) rs3).
  pose proof (relationFields_reserved host className used rs1 rs2 r1) as H.
  destruct (relationFields host className used (rs1 ++ r1 :: rs2))
    as [u1 l1].
  cbn [fst] in H. rewrite <- Hkey in H.
  now rewrite (relationFields_skip _ _ _ _ rs3 H).
Qed.

(** X12: of the relations of a class that look up the same name, only the
    first one counts.  If [r1] comes before [r2] among the relations, [r1]
    touches the class and both give the same name on it, then the entity of
    the class is the one generated without [r2]; this holds whether or not
    [r1] declared a member. *)
Theorem X12_repeated_relation_name_dropped (host : Host)
  (g : JavaSpringGenerator) (cls : ClassDefinition)
  (rs1 rs2 rs3 : list RelationDefinition) (r1 r2 : RelationDefinition) :
  relations g = rs1 ++ r1 :: rs2 ++ r2 :: rs3 ->
  touches (name cls) r1 = true ->
  relationFieldName host (name cls) r2 = relationFieldName host (name cls) r1 ->
  entityFields host g cls
  = entityFields host (withRelations g (rs1 ++ r1 :: rs2 ++ rs3)) cls.
Proof.
  intros Hrel Ht Hkey. unfold entityFields. cbv zeta.
  cbn [relations withRelations]. rewrite Hrel.
  destruct (attributeFields host (attributes cls) 0 (setAdd [] (lit "id")))
    as [used attrLines].
  rewrite !filter_app. cbn [filter]. rewrite !filter_app. cbn [filter].
  rewrite Ht.
  destruct (touches (name cls) r2); [|reflexivity].
  now rewrite (relationFields_drop_repeated host (name cls) used _ _ _ _ _
                 Hkey).
Qed.

Lemma X12_repeated_relation_name_dropped_witness :
  entityFields asciiHost gen_two_relations classA
  = entityFields asciiHost
      (withRelations gen_two_relations [mkRelation "A" "B" ONE_TO_ONE false])
      classA.
Proof.
  refine (X12_repeated_relation_name_dropped asciiHost gen_two_relations
            classA [] [] [] (mkRelation "A" "B" ONE_TO_ONE false)
            (mkRelation "A" "B" MANY_TO_ONE false) eq_refl _ _);
    vm_compute; reflexivity.
Defined.




(* ------------------------------------------------------------------ *)
(** ** Identifiers over ASCII *)

Ltac nbool :=
  repeat match goal with
         | |- context [?a <=? ?b] => destruct (N.leb_spec a b); try lia
         | |- context [?a <? ?b] => destruct (N.ltb_spec a b); try lia
         | |- context [?a =? ?b] => destruct (N.eqb_spec a b); try lia
         end;
  cbn [andb orb negb]; try reflexivity; try (intros; discriminate);
  try (intros; lia).

Lemma asciiIdChar_bounds (c : N) :
  isAsciiIdentifierChar c = true -> 36 <= c <= 122.
Proof.
  unfold isAsciiIdentifierChar, isAsciiUpper, isAsciiLower, isAsciiDigit,
    underscore, dollar.
  nbool.
Qed.

Lemma bounds_not_white (c : N) : 36 <= c <= 122 -> isWhiteSpace c = false.
Proof. intros H. unfold isWhiteSpace. nbool. Qed.

Lemma ascii_identifierChar (host : Host) (c : N) :
  c < 128 -> isIdentifierChar host c = isAsciiIdentifierChar c.
Proof.
  intros H. unfold isIdentifierChar, isLetter, isNumber, isAsciiIdentifierChar.
  apply N.ltb_lt in H. rewrite H. reflexivity.
Qed.

Lemma ascii_sanitizeChar (host : Host) (c : N) :
  c < 128 -> isAsciiIdentifierChar (sanitizeChar host c) = true.
Proof.
  intros H. unfold sanitizeChar. rewrite (ascii_identifierChar host c H).
  destruct (isAsciiIdentifierChar c) eqn:E; [exact E | reflexivity].
Qed.

Lemma isAscii_In (s : jsstring) (c : N) :
  isAscii s = true -> In c s -> c < 128.
Proof.
  unfold isAscii. rewrite forallb_forall. intros H Hin.
  apply N.ltb_lt. now apply H.
Qed.

Lemma isAscii_incl (s t : jsstring) :
  incl s t -> isAscii t = true -> isAscii s = true.
Proof.
  unfold isAscii. rewrite !forallb_forall. intros Hi H x Hx.
  apply H. now apply Hi.
Qed.

Lemma trimStart_incl (s : jsstring) : incl (trimStart s) s.
Proof.
  induction s as [|c s IH]; simpl; [apply incl_refl|].
  destruct (isWhiteSpace c); [now apply incl_tl | apply incl_refl].
Qed.

Lemma trimEnd_incl (s : jsstring) : incl (trimEnd s) s.
Proof.
  unfold trimEnd. intros x Hx. apply in_rev in Hx.
  apply trimStart_incl in Hx. now apply in_rev.
Qed.

Lemma trim_incl (s : jsstring) : incl (trim s) s.
Proof.
  unfold trim. intros x Hx. apply trimEnd_incl in Hx.
  now apply trimStart_incl in Hx.
Qed.

Lemma firstn_incl_own {A : Type} (n : nat) (l : list A) : incl (firstn n l) l.
Proof.
  intros x Hx. rewrite <- (firstn_skipn n l). apply in_or_app. now left.
Qed.

Lemma splitRuns_chars (s : jsstring) :
  forall cur inRun p x,
    In p (splitRuns cur inRun s) -> In x p -> In x cur \/ In x s.
Proof.
  induction s as [|c s IH]; intros cur inRun p x Hp Hx; simpl in Hp.
  - destruct Hp as [<-|[]]. left. now apply in_rev.
  - destruct (isWhiteSpace c).
    + destruct inRun.
      * destruct (IH _ _ _ _ Hp Hx) as [H|H]; [now left | right; now right].
      * destruct Hp as [<-|Hp]; [left; now apply in_rev|].
        destruct (IH _ _ _ _ Hp Hx) as [[]|H]. right. now right.
    + destruct (IH _ _ _ _ Hp Hx) as [[<-|H]|H].
      * right. now left.
      * now left.
      * right. now right.
Qed.

Lemma splitWhiteSpace_incl (s p : jsstring) :
  In p (filter nonEmpty (splitWhiteSpace s)) -> incl p s.
Proof.
  intros Hp x Hx. apply filter_In in Hp as [Hp _].
  destruct (splitRuns_chars s [] false p x Hp Hx) as [[]|H]. exact H.
Qed.

Lemma safeStr_ascii (raw fallback : jsstring) :
  isAscii raw = true -> isAscii fallback = true ->
  isAscii (safeStr raw fallback) = true.
Proof.
  intros Hr Hf. unfold safeStr. cbv zeta.
  destruct (nonEmpty (trim raw)); [|exact Hf].
  exact (isAscii_incl _ _ (trim_incl raw) Hr).
Qed.

Lemma isAsciiIdentifier_parts (s : jsstring) :
  isAsciiIdentifier s = true
  <-> s <> [] /\ forallb isAsciiIdentifierChar s = true
      /\ startsWithDigit s = false.
Proof.
  unfold isAsciiIdentifier. rewrite !andb_true_iff, negb_true_iff.
  destruct s; simpl; intuition congruence.
Qed.

Lemma isAsciiIdentifier_ascii (s : jsstring) :
  isAsciiIdentifier s = true -> isAscii s = true.
Proof.
  intros H. apply isAsciiIdentifier_parts in H as (_ & H & _).
  unfold isAscii. rewrite forallb_forall in *. intros x Hx.
  apply N.ltb_lt. pose proof (asciiIdChar_bounds x (H x Hx)). lia.
Qed.

Lemma isAsciiIdentifier_token (s : jsstring) :
  isAsciiIdentifier s = true -> Token s.
Proof.
  intros H. apply isAsciiIdentifier_parts in H as (Hne & H & _).
  split; [exact Hne|]. apply Forall_forall. intros x Hx.
  rewrite forallb_forall in H.
  apply bounds_not_white, asciiIdChar_bounds. now apply H.
Qed.

Lemma sanitizeIdentifier_ascii (host : Host) (raw fallback : jsstring) :
  isAscii (safeStr raw fallback) = true -> safeStr raw fallback <> [] ->
  isAsciiIdentifier (sanitizeIdentifier host raw fallback) = true.
Proof.
  rewrite sanitizeIdentifier_eq. intros Ha Hne.
  destruct (safeStr raw fallback) as [|c s]; [congruence|].
  assert (Hall : forallb isAsciiIdentifierChar
                   (map (sanitizeChar host) (c :: s)) = true).
  { apply forallb_forall. intros x Hx.
    apply in_map_iff in Hx as (y & <- & Hy).
    apply ascii_sanitizeChar. exact (isAscii_In _ _ Ha Hy). }
  apply isAsciiIdentifier_parts. cbn [startsWithDigit].
  destruct (isAsciiDigit c) eqn:D.
  - cbn [app]. repeat split.
    + discriminate.
    + cbn [forallb]. rewrite Hall. reflexivity.
  - cbn [app map]. repeat split.
    + discriminate.
    + exact Hall.
    + cbn [startsWithDigit]. now rewrite sanitizeChar_digit.
Qed.

Lemma uintDigits_identifierChars (d : Decimal.uint) :
  forallb isAsciiIdentifierChar (uintDigits d) = true.
Proof.
  induction d; cbn [uintDigits forallb]; [reflexivity| | | | | | | | | |];
    rewrite IHd; reflexivity.
Qed.

Lemma fieldFallback_identifier (index : nat) :
  isAsciiIdentifier (fieldFallback index) = true.
Proof.
  apply isAsciiIdentifier_parts. unfold fieldFallback.
  change (lit "field_") with [102; 105; 101; 108; 100; 95].
  repeat split.
  - discriminate.
  - unfold natToString.
    rewrite forallb_app, uintDigits_identifierChars. reflexivity.
Qed.

Lemma lowerFirstUnit_ascii (host : Host) (c : N) :
  c < 128 ->
  lowerFirstUnit host c = [if isAsciiUpper c then c + 32 else c].
Proof.
  intros H. unfold lowerFirstUnit, toLowerChar.
  destruct (N.leb_spec 65536 c); [lia|].
  apply N.ltb_lt in H. now rewrite H.
Qed.

Lemma upperFirstUnit_ascii (host : Host) (c : N) :
  c < 128 ->
  upperFirstUnit host c = [if isAsciiLower c then c - 32 else c].
Proof.
  intros H. unfold upperFirstUnit, toUpperChar.
  destruct (N.leb_spec 65536 c); [lia|].
  apply N.ltb_lt in H. now rewrite H.
Qed.

Lemma lower_identifierChar (c : N) :
  isAsciiIdentifierChar c = true ->
  isAsciiIdentifierChar (if isAsciiUpper c then c + 32 else c) = true
  /\ isAsciiDigit (if isAsciiUpper c then c + 32 else c) = isAsciiDigit c.
Proof.
  intros H. destruct (isAsciiUpper c) eqn:U; [|now split].
  unfold isAsciiUpper in U. apply andb_true_iff in U as [U1 U2].
  apply N.leb_le in U1, U2.
  unfold isAsciiIdentifierChar, isAsciiUpper, isAsciiLower, isAsciiDigit,
    underscore, dollar.
  split; nbool.
Qed.

Lemma toCamelCase_ascii (host : Host) (y : jsstring) :
  isAsciiIdentifier y = true ->
  isAsciiIdentifier (toCamelCase host y) = true.
Proof.
  intros H. unfold toCamelCase.
  rewrite safeStr_empty_fallback, (trim_token _ (isAsciiIdentifier_token _ H)).
  apply isAsciiIdentifier_parts in H as (Hne & Hall & Hd).
  destruct y as [|c rest]; [congruence|]. cbv zeta.
  cbn [forallb startsWithDigit] in Hall, Hd.
  apply andb_true_iff in Hall as [Hc Hrest].
  pose proof (asciiIdChar_bounds c Hc) as Hb.
  rewrite lowerFirstUnit_ascii by lia.
  destruct (lower_identifierChar c Hc) as [Hl Hld].
  cbn [app].
  destruct (includes reserved _); apply isAsciiIdentifier_parts;
    repeat split; try discriminate.
  - cbn [app forallb]. rewrite Hl, forallb_app, Hrest. reflexivity.
  - cbn [app startsWithDigit]. congruence.
  - cbn [forallb]. now rewrite Hl, Hrest.
  - cbn [startsWithDigit]. congruence.
Qed.

Lemma sanitized_name_ascii (host : Host) (x : jsstring) (index : nat) :
  isAscii x = true ->
  isAsciiIdentifier
    (toCamelCase host (sanitizeIdentifier host x (fieldFallback index)))
  = true.
Proof.
  intros H. apply toCamelCase_ascii, sanitizeIdentifier_ascii.
  - apply safeStr_ascii; [exact H|].
    apply isAsciiIdentifier_ascii, fieldFallback_identifier.
  - unfold safeStr. cbv zeta.
    destruct (trim x) as [|c t] eqn:E; cbn [nonEmpty]; [|discriminate].
    pose proof (fieldFallback_identifier index) as F.
    apply isAsciiIdentifier_parts in F as (F & _). exact F.
Qed.

(** X14: the name of an attribute parsed from a line of ASCII characters is
    a Java identifier over ASCII: it is not empty, it holds letters, digits,
    underscores and dollar signs only, and it does not start with a digit. *)
Theorem X14_ascii_attribute_name (host : Host) (line : jsstring)
  (index : nat) :
  isAscii line = true ->
  isAsciiIdentifier (attrName (parseAttribute host line index)) = true.
Proof.
  intros H. unfold parseAttribute. rewrite safeStr_empty_fallback. cbv zeta.
  pose proof (isAscii_incl _ _ (trim_incl line) H) as Hraw.
  destruct (negb (nonEmpty (trim line))).
  { cbn [attrName]. apply fieldFallback_identifier. }
  destruct (indexOf 58 (trim line)) as [colonIdx|].
  - cbn [attrName]. apply sanitized_name_ascii.
    apply (isAscii_incl _ (firstn colonIdx (trim line)));
      [apply trim_incl|].
    exact (isAscii_incl _ _ (firstn_incl_own _ _) Hraw).
  - destruct (filter nonEmpty (splitWhiteSpace (trim line)))
      as [|p0 [|p1 [|p2 ps]]] eqn:Ep; cbn [attrName];
      try (apply sanitized_name_ascii; exact Hraw).
    destruct (isJavaType p0); cbn [attrName];
      [|apply sanitized_name_ascii; exact Hraw].
    apply sanitized_name_ascii.
    apply (isAscii_incl _ (trim line)); [|exact Hraw].
    apply splitWhiteSpace_incl. rewrite Ep. right. now left.
Qed.

Lemma X14_ascii_attribute_name_witness :
  isAscii (lit " 2nd-price : money ") = true
  /\ attrName (parseAttribute asciiHost (lit " 2nd-price : money ") 0)
     = lit "_2nd_price"
  /\ isAsciiIdentifier
       (attrName (parseAttribute asciiHost (lit " 2nd-price : money ") 0))
     = true.
Proof.
  assert (H : isAscii (lit " 2nd-price : money ") = true)
    by (vm_compute; reflexivity).
  split; [exact H|]. split; [vm_compute; reflexivity|].
  exact (X14_ascii_attribute_name asciiHost (lit " 2nd-price : money ") 0 H).
Defined.

(* ------------------------------------------------------------------ *)
(** ** The paths of the file map *)

Lemma assign_keys_same {A : Type} (k : jsstring) (v1 v2 : A) :
  forall obj1 obj2 : list (jsstring * A),
    map fst obj1 = map fst obj2 ->
    map fst (assign k v1 obj1) = map fst (assign k v2 obj2).
Proof.
  induction obj1 as [|[k1 w1] o1 IH]; intros [|[k2 w2] o2] H; simpl in H;
    try discriminate; [reflexivity|].
  injection H as -> H. cbn [assign].
  destruct (eqs k k2); cbn [map fst]; f_equal; auto.
Qed.

Lemma fold_assign_keys {A : Type} (l1 : list (jsstring * A)) :
  forall l2 obj1 obj2 : list (jsstring * A),
    map fst l1 = map fst l2 -> map fst obj1 = map fst obj2 ->
    map fst (fold_left assignStep l1 obj1)
    = map fst (fold_left assignStep l2 obj2).
Proof.
  induction l1 as [|[k v] l1 IH]; intros [|[k' v'] l2] obj1 obj2 H Ho;
    simpl in H; try discriminate; [exact Ho|].
  injection H as -> H. cbn [fold_left]. apply IH; [exact H|].
  unfold assignStep, setProp. cbn [fst snd].
  destruct (eqs k' (lit "__proto__")); [exact Ho|].
  now apply assign_keys_same.
Qed.

Lemma classFiles_keys_flat (host : Host) (g : JavaSpringGenerator)
  (cs : list ClassDefinition) :
  map fst (flat_map (classFiles host g) cs)
  = flat_map (fun n => map (fun k => classPath k n) artifactKinds)
             (map (fun c => toPascal host (name c)) cs).
Proof.
  induction cs as [|c cs IH]; [reflexivity|].
  rewrite flat_map_cons, map_app, classFiles_keys, IH, map_cons,
    flat_map_cons.
  reflexivity.
Qed.

(** X15: the paths of the file map depend on the Pascal-cased class names
    only: two generators whose classes have, in order, the same Pascal-cased
    names write the same paths in the same order, whatever their attributes,
    relations, package names and clocks. *)
Theorem X15_paths_depend_on_class_names (host : Host) (now1 now2 : Z)
  (g1 g2 : JavaSpringGenerator) :
  map (fun c => toPascal host (name c)) (classes g1)
  = map (fun c => toPascal host (name c)) (classes g2) ->
  map fst (generateAll host now1 g1) = map fst (generateAll host now2 g2).
Proof.
  intros H. rewrite !generateAll_fold.
  apply fold_assign_keys; [|reflexivity].
  rewrite !assignments_keys, !classFiles_keys_flat, H. reflexivity.
Qed.

Lemma X15_paths_depend_on_class_names_witness :
  map fst (generateAll asciiHost 0 (gen_author_book false))
  = map fst (generateAll asciiHost 1 gen_author_book_other).
Proof.
  apply X15_paths_depend_on_class_names. vm_compute. reflexivity.
Defined.

(* ------------------------------------------------------------------ *)
(** ** Trimmed strings *)

Lemma trimStart_head (s : jsstring) (c : N) (r : jsstring) :
  trimStart s = c :: r -> isWhiteSpace c = false.
Proof.
  induction s as [|a s IH]; simpl; [discriminate|].
  destruct (isWhiteSpace a) eqn:E; [exact IH|].
  intros H. injection H as <- _. exact E.
Qed.

Lemma trimStart_app_last (l : jsstring) (c : N) :
  isWhiteSpace c = false -> trimStart (l ++ [c]) = trimStart l ++ [c].
Proof.
  intros H. induction l as [|a l IH]; simpl; [now rewrite H|].
  destruct (isWhiteSpace a); [exact IH | reflexivity].
Qed.

Lemma trimEnd_cons (c : N) (t : jsstring) :
  isWhiteSpace c = false -> trimEnd (c :: t) = c :: trimEnd t.
Proof.
  intros H. unfold trimEnd. cbn [rev].
  rewrite (trimStart_app_last _ _ H), rev_app_distr. reflexivity.
Qed.

Lemma trimStart_idem (s : jsstring) : trimStart (trimStart s) = trimStart s.
Proof.
  induction s as [|a s IH]; simpl; [reflexivity|].
  destruct (isWhiteSpace a) eqn:E; [exact IH|]. simpl. now rewrite E.
Qed.

Lemma trimEnd_idem (s : jsstring) : trimEnd (trimEnd s) = trimEnd s.
Proof.
  unfold trimEnd. now rewrite rev_involutive, trimStart_idem.
Qed.

Lemma trim_head (s : jsstring) (c : N) (r : jsstring) :
  trim s = c :: r -> isWhiteSpace c = false /\ trimEnd r = r.
Proof.
  unfold trim. destruct (trimStart s) as [|c0 r0] eqn:E; [discriminate|].
  pose proof (trimStart_head _ _ _ E) as Hc.
  rewrite (trimEnd_cons _ _ Hc). intros H. injection H as <- <-.
  split; [exact Hc | apply trimEnd_idem].
Qed.

Lemma trim_cons (c : N) (r : jsstring) :
  isWhiteSpace c = false -> trimEnd r = r -> trim (c :: r) = c :: r.
Proof.
  intros Hc Hr. unfold trim. cbn [trimStart]. rewrite Hc.
  now rewrite (trimEnd_cons _ _ Hc), Hr.
Qed.

Lemma trim_idem (s : jsstring) : trim (trim s) = trim s.
Proof.
  destruct (trim s) as [|c r] eqn:E; [reflexivity|].
  apply trim_head in E as [Hc Hr]. now apply trim_cons.
Qed.

(* ------------------------------------------------------------------ *)
(** ** Pascal case and camel case *)

Lemma asciiUpper_facts (c : N) :
  c < 128 -> isWhiteSpace c = false ->
  asciiUpper c < 128 /\ isWhiteSpace (asciiUpper c) = false
  /\ asciiUpper (asciiUpper c) = asciiUpper c
  /\ asciiLower (asciiUpper c) = asciiLower c.
Proof.
  intros H W. unfold asciiUpper, asciiLower.
  destruct (isAsciiLower c) eqn:L.
  - unfold isAsciiLower in L. apply andb_true_iff in L as [L1 L2].
    apply N.leb_le in L1, L2.
    assert (B : 36 <= c - 32 <= 122) by lia.
    split; [lia|]. split; [now apply bounds_not_white|].
    split; unfold isAsciiLower, isAsciiUpper; nbool.
  - split; [exact H|]. split; [exact W|]. cbv iota. rewrite L.
    split; reflexivity.
Qed.

Lemma asciiLower_facts (c : N) :
  c < 128 -> isWhiteSpace c = false ->
  asciiLower c < 128 /\ isWhiteSpace (asciiLower c) = false
  /\ asciiLower (asciiLower c) = asciiLower c.
Proof.
  intros H W. unfold asciiLower.
  destruct (isAsciiUpper c) eqn:U.
  - unfold isAsciiUpper in U. apply andb_true_iff in U as [U1 U2].
    apply N.leb_le in U1, U2.
    assert (B : 36 <= c + 32 <= 122) by lia.
    split; [lia|]. split; [now apply bounds_not_white|].
    unfold isAsciiUpper; nbool.
  - split; [exact H|]. split; [exact W|]. cbv iota. now rewrite U.
Qed.

Lemma toPascal_cons (host : Host) (s : jsstring) (c : N) (r : jsstring) :
  trim s = c :: r -> c < 128 -> toPascal host s = asciiUpper c :: r.
Proof.
  intros E H. unfold toPascal. rewrite safeStr_empty_fallback, E.
  now rewrite (upperFirstUnit_ascii host c H).
Qed.

Lemma toCamelCase_cons (host : Host) (s : jsstring) (c : N) (r : jsstring) :
  trim s = c :: r -> c < 128 ->
  toCamelCase host s
  = if includes reserved (asciiLower c :: r)
    then (asciiLower c :: r) ++ lit "Entity" else asciiLower c :: r.
Proof.
  intros E H. unfold toCamelCase. rewrite safeStr_empty_fallback, E.
  now rewrite (lowerFirstUnit_ascii host c H).
Qed.

Lemma Entity_token : Token (lit "Entity").
Proof.
  split; [discriminate|]. apply Forall_forall. intros x Hx.
  assert (H : forallb (fun c => negb (isWhiteSpace c)) (lit "Entity") = true)
    by (vm_compute; reflexivity).
  rewrite forallb_forall in H. specialize (H x Hx).
  now apply negb_true_iff in H.
Qed.

(** X16: Pascal case and camel case agree on names that start with an ASCII
    character (after trimming) or are blank: the variable name taken from the
    Pascal-cased class name is the camel-cased raw name, and each of the two
    conversions, applied twice, gives what it gives applied once. *)
Theorem X16_case_conversions (host : Host) (s : jsstring) :
  startsAscii (trim s) = true ->
  toCamelCase host (toPascal host s) = toCamelCase host s
  /\ toPascal host (toPascal host s) = toPascal host s
  /\ toCamelCase host (toCamelCase host s) = toCamelCase host s.
Proof.
  intros H. destruct (trim s) as [|c r] eqn:E.
  - assert (P : toPascal host s = lit "Value")
      by (unfold toPascal; now rewrite safeStr_empty_fallback, E).
    assert (C : toCamelCase host s = lit "value")
      by (unfold toCamelCase; now rewrite safeStr_empty_fallback, E).
    rewrite P, C. repeat split; vm_compute; reflexivity.
  - cbn [startsAscii] in H. apply N.ltb_lt in H.
    destruct (trim_head _ _ _ E) as [W R].
    destruct (asciiUpper_facts c H W) as (HU & WU & UU & LU).
    destruct (asciiLower_facts c H W) as (HL & WL & LL).
    rewrite (toPascal_cons host s c r E H).
    rewrite (toCamelCase_cons host s c r E H).
    pose proof (trim_cons _ _ WU R) as TU.
    rewrite (toCamelCase_cons host _ _ _ TU HU), LU.
    rewrite (toPascal_cons host _ _ _ TU HU), UU.
    split; [reflexivity|]. split; [reflexivity|].
    destruct (includes reserved (asciiLower c :: r)) eqn:I.
    + assert (T : trim ((asciiLower c :: r) ++ lit "Entity")
                  = asciiLower c :: r ++ lit "Entity").
      { cbn [app]. apply trim_cons; [exact WL|].
        apply trimEnd_token, Entity_token. }
      rewrite (toCamelCase_cons host _ _ _ T HL), LL.
      assert (N : includes reserved (asciiLower c :: r ++ lit "Entity")
                  = false).
      { apply includes_In in I.
        pose proof reserved_entity_free as F. rewrite forallb_forall in F.
        specialize (F _ I). now apply negb_true_iff in F. }
      rewrite N. reflexivity.
    + pose proof (trim_cons _ _ WL R) as T.
      rewrite (toCamelCase_cons host _ _ _ T HL), LL, I. reflexivity.
Qed.

Lemma X16_case_conversions_witness :
  startsAscii (trim (lit " order item ")) = true
  /\ toCamelCase asciiHost (toPascal asciiHost (lit " order item "))
     = lit "order item".
Proof.
  assert (H : startsAscii (trim (lit " order item ")) = true)
    by (vm_compute; reflexivity).
  split; [exact H|].
  rewrite (proj1 (X16_case_conversions asciiHost (lit " order item ") H)).
  vm_compute. reflexivity.
Defined.

(* ------------------------------------------------------------------ *)
(** ** Sanitized names *)

Lemma asciiHost_sane : HostSane asciiHost.
Proof.
  intros c. unfold isIdentifierChar, isLetter, isNumber, asciiHost.
  cbn [letterU numberU].
  unfold isWhiteSpace, isAsciiUpper, isAsciiLower, isAsciiDigit, underscore,
    dollar.
  nbool.
Qed.

Lemma sanitizeIdentifier_clean (host : Host) (raw fallback : jsstring) :
  safeStr raw fallback <> [] ->
  CleanName host (sanitizeIdentifier host raw fallback).
Proof.
  rewrite sanitizeIdentifier_eq. intros Hne.
  destruct (safeStr raw fallback) as [|c s]; [congruence|].
  assert (Hall : Forall (fun x => isIdentifierChar host x = true)
                        (map (sanitizeChar host) (c :: s))).
  { apply Forall_forall. intros x Hx.
    apply in_map_iff in Hx as (y & <- & _). apply sanitizeChar_allowed. }
  cbn [startsWithDigit]. destruct (isAsciiDigit c) eqn:D.
  - cbn [app]. split; [discriminate|]. split; [|reflexivity].
    constructor; [apply underscore_is_identifierChar | exact Hall].
  - cbn [app map]. split; [discriminate|]. split; [exact Hall|].
    cbn [startsWithDigit]. now rewrite sanitizeChar_digit.
Qed.

Lemma clean_token (host : Host) (n : jsstring) :
  HostSane host -> CleanName host n -> Token n.
Proof.
  intros Hs (Hne & Hall & _). split; [exact Hne|].
  apply Forall_forall. intros x Hx. rewrite Forall_forall in Hall.
  specialize (Hall x Hx). destruct (isWhiteSpace x) eqn:W; [|reflexivity].
  rewrite (Hs x W) in Hall. discriminate.
Qed.

Lemma sanitizeIdentifier_fixed (host : Host) (n fallback : jsstring) :
  HostSane host -> CleanName host n ->
  sanitizeIdentifier host n fallback = n.
Proof.
  intros Hs Hc. pose proof (clean_token host n Hs Hc) as T.
  destruct Hc as (Hne & Hall & Hd).
  rewrite sanitizeIdentifier_eq. unfold safeStr. cbv zeta.
  rewrite (trim_token _ T).
  destruct n as [|c n']; [congruence|]. cbn [nonEmpty].
  rewrite Hd. cbn [app]. now apply map_sanitizeChar_id.
Qed.

(** X17: [sanitizeIdentifier] is idempotent: on a host where no white space
    character is a letter or a number, sanitizing a sanitized name again,
    with any fallback, changes nothing. *)
Theorem X17_sanitizeIdentifier_idempotent (host : Host)
  (raw fallback fallback' : jsstring) :
  HostSane host -> safeStr raw fallback <> [] ->
  sanitizeIdentifier host (sanitizeIdentifier host raw fallback) fallback'
  = sanitizeIdentifier host raw fallback.
Proof.
  intros Hs Hne. apply sanitizeIdentifier_fixed; [exact Hs|].
  now apply sanitizeIdentifier_clean.
Qed.

Lemma X17_sanitizeIdentifier_idempotent_witness :
  sanitizeIdentifier asciiHost (lit " 9a b-c ") (lit "field_1") = lit "_9a_b_c"
  /\ sanitizeIdentifier asciiHost
       (sanitizeIdentifier asciiHost (lit " 9a b-c ") (lit "field_1"))
       (lit "x")
     = sanitizeIdentifier asciiHost (lit " 9a b-c ") (lit "field_1").
Proof.
  split; [vm_compute; reflexivity|].
  apply (X17_sanitizeIdentifier_idempotent asciiHost (lit " 9a b-c ")
           (lit "field_1") (lit "x") asciiHost_sane).
  vm_compute. discriminate.
Defined.

(* ------------------------------------------------------------------ *)
(** ** The side bar: names and lines *)

Lemma editor_sanitize_nonblank (host : Host) (raw fb1 fb2 : jsstring) :
  trim raw <> [] ->
  Sidebar.sanitizeIdentifier host raw fb1 = sanitizeIdentifier host raw fb2.
Proof.
  intros H. unfold Sidebar.sanitizeIdentifier. rewrite sanitizeIdentifier_eq.
  unfold safeStr. cbv zeta.
  destruct (trim raw) as [|c s]; [congruence|]. cbn [nonEmpty negb].
  fold (sanitizeChar host). cbn [map startsWithDigit].
  rewrite sanitizeChar_digit. destruct (isAsciiDigit c); reflexivity.
Qed.

Lemma editor_sanitize_blank (host : Host) (raw fb : jsstring) :
  trim raw = [] -> Sidebar.sanitizeIdentifier host raw fb = fb.
Proof.
  intros H. unfold Sidebar.sanitizeIdentifier. cbv zeta. now rewrite H.
Qed.

(** X18: the editor's [sanitizeIdentifier] and the generator's give the same
    name for every input that is not blank, whatever the two fallbacks; for a
    blank input the editor returns its fallback as it is, where the generator
    sanitizes the fallback too. *)
Theorem X18_editor_sanitize_agrees (host : Host) (raw fb1 fb2 : jsstring) :
  (trim raw <> [] ->
   Sidebar.sanitizeIdentifier host raw fb1 = sanitizeIdentifier host raw fb2)
  /\ (trim raw = [] ->
      Sidebar.sanitizeIdentifier host raw fb1 = fb1
      /\ sanitizeIdentifier host raw fb2 = sanitizeIdentifier host [] fb2).
Proof.
  split; [apply editor_sanitize_nonblank|]. intros H.
  split; [now apply editor_sanitize_blank|].
  rewrite !sanitizeIdentifier_eq. unfold safeStr. cbv zeta. rewrite H.
  reflexivity.
Qed.

Lemma X18_editor_sanitize_agrees_witness :
  trim (lit " a-b ") <> []
  /\ Sidebar.sanitizeIdentifier asciiHost (lit " a-b ") (lit "x y")
     = sanitizeIdentifier asciiHost (lit " a-b ") (lit "z")
  /\ trim (lit "  ") = []
  /\ Sidebar.sanitizeIdentifier asciiHost (lit "  ") (lit "x y") = lit "x y".
Proof.
  assert (H1 : trim (lit " a-b ") <> []) by (vm_compute; discriminate).
  assert (H2 : trim (lit "  ") = []) by (vm_compute; reflexivity).
  split; [exact H1|].
  split; [exact (proj1 (X18_editor_sanitize_agrees asciiHost (lit " a-b ")
                          (lit "x y") (lit "z")) H1)|].
  split; [exact H2|].
  exact (proj1 (proj2 (X18_editor_sanitize_agrees asciiHost (lit "  ")
                         (lit "x y") (lit "z")) H2)).
Defined.

Lemma splitOn_no_sep (sep : N) (s : jsstring) :
  forall cur p,
    In p (splitOn sep cur s) -> ~ In sep cur -> ~ In sep p.
Proof.
  induction s as [|c s IH]; intros cur p Hp Hcur; simpl in Hp.
  - destruct Hp as [<-|[]]. intros H. apply Hcur. now apply in_rev.
  - destruct (N.eqb_spec c sep) as [->|Hc].
    + destruct Hp as [<-|Hp].
      * intros H. apply Hcur. now apply in_rev.
      * apply (IH [] p Hp). intros [].
    + apply (IH (c :: cur) p Hp). intros [H|H]; [congruence | now apply Hcur].
Qed.

Lemma filter_trim_fixed (ls : list jsstring) :
  Forall (fun l => l <> [] /\ trim l = l) ls ->
  filter nonEmpty (map trim ls) = ls.
Proof.
  induction 1 as [|l ls [Hne Ht] _ IH]; [reflexivity|].
  cbn [map filter]. rewrite Ht, IH.
  destruct l; [congruence | reflexivity].
Qed.

Lemma filter_trim_lines (items : list jsstring) :
  Forall (fun l => l <> [] /\ trim l = l) (filter nonEmpty (map trim items)).
Proof.
  apply Forall_forall. intros l Hl. apply filter_In in Hl as [Hl Hne].
  apply in_map_iff in Hl as (x & <- & _).
  split; [|apply trim_idem]. intros E. rewrite E in Hne. discriminate.
Qed.

(** X19: [coerceArrayOfLines] returns trimmed lines, none of them empty;
    applied to its own result it returns that result; and a line taken from
    a text holds no line feed. *)
Theorem X19_coerceArrayOfLines (value : Sidebar.LinesValue) :
  Forall (fun l => l <> [] /\ trim l = l) (Sidebar.coerceArrayOfLines value)
  /\ Sidebar.coerceArrayOfLines
       (Sidebar.ArrayOf (Sidebar.coerceArrayOfLines value))
     = Sidebar.coerceArrayOfLines value
  /\ (forall text l,
        value = Sidebar.TextOf text ->
        In l (Sidebar.coerceArrayOfLines value) -> ~ In 10 l).
Proof.
  assert (F : Forall (fun l => l <> [] /\ trim l = l)
                     (Sidebar.coerceArrayOfLines value))
    by (destruct value; apply filter_trim_lines).
  split; [exact F|]. split.
  - cbn [Sidebar.coerceArrayOfLines]. now apply filter_trim_fixed.
  - intros text l -> Hl. cbn [Sidebar.coerceArrayOfLines] in Hl.
    apply filter_In in Hl as [Hl _].
    apply in_map_iff in Hl as (x & <- & Hx). intros H.
    apply trim_incl in H. revert H.
    apply (splitOn_no_sep 10 text [] x Hx). intros [].
Qed.

Lemma X19_coerceArrayOfLines_witness :
  Sidebar.coerceArrayOfLines (Sidebar.TextOf (lit " a: int
b

 c d ")) = [lit "a: int"; lit "b"; lit "c d"]
  /\ ~ In 10 (lit "c d").
Proof.
  assert (E : Sidebar.coerceArrayOfLines (Sidebar.TextOf (lit " a: int
b

 c d ")) = [lit "a: int"; lit "b"; lit "c d"]) by (vm_compute; reflexivity).
  split; [exact E|].
  apply (proj2 (proj2 (X19_coerceArrayOfLines (Sidebar.TextOf (lit " a: int
b

 c d ")))) _ (lit "c d") eq_refl).
  rewrite E. right. right. now left.
Defined.

(* ------------------------------------------------------------------ *)
(** ** Attribute lines with a colon *)

Lemma trimStart_app_nonwhite (a : jsstring) (c : N) (b : jsstring) :
  isWhiteSpace c = false ->
  trimStart (a ++ c :: b) = trimStart a ++ c :: b.
Proof.
  intros H. induction a as [|x a IH]; simpl; [now rewrite H|].
  destruct (isWhiteSpace x); [exact IH | reflexivity].
Qed.

Lemma trimEnd_app_nonwhite (a : jsstring) (c : N) (b : jsstring) :
  isWhiteSpace c = false ->
  trimEnd (a ++ c :: b) = a ++ c :: trimEnd b.
Proof.
  intros H. unfold trimEnd. rewrite rev_app_distr. cbn [rev].
  rewrite <- app_assoc. cbn [app].
  rewrite (trimStart_app_nonwhite _ _ _ H), rev_app_distr. cbn [rev].
  rewrite rev_involutive, <- app_assoc. reflexivity.
Qed.

Lemma trimStart_app_white_last (l : jsstring) (x : N) :
  isWhiteSpace x = true ->
  trimStart (l ++ [x])
  = match trimStart l with [] => [] | _ => trimStart l ++ [x] end.
Proof.
  intros H. induction l as [|a l IH]; simpl; [now rewrite H|].
  destruct (isWhiteSpace a); [exact IH | reflexivity].
Qed.

Lemma trimEnd_cons_white (x : N) (t : jsstring) :
  isWhiteSpace x = true ->
  trimEnd (x :: t) = match trimEnd t with [] => [] | _ => x :: trimEnd t end.
Proof.
  intros H. unfold trimEnd. cbn [rev].
  rewrite (trimStart_app_white_last _ _ H).
  destruct (trimStart (rev t)) as [|y l] eqn:E; [reflexivity|].
  rewrite rev_app_distr. cbn [rev app].
  destruct (rev l ++ [y]) eqn:E2; [|reflexivity].
  now destruct (rev l).
Qed.

Lemma trimStart_trimEnd (b : jsstring) :
  trimStart (trimEnd b) = trimEnd (trimStart b).
Proof.
  induction b as [|x b IH]; [reflexivity|].
  cbn [trimStart]. destruct (isWhiteSpace x) eqn:W.
  - rewrite (trimEnd_cons_white _ _ W), <- IH.
    destruct (trimEnd b) eqn:E; [reflexivity|].
    cbn [trimStart]. now rewrite W.
  - rewrite (trimEnd_cons _ _ W). cbn [trimStart]. now rewrite W.
Qed.

Lemma trim_trimEnd (b : jsstring) : trim (trimEnd b) = trim b.
Proof.
  unfold trim. now rewrite trimStart_trimEnd, trimEnd_idem.
Qed.

Lemma trim_trimStart (a : jsstring) : trim (trimStart a) = trim a.
Proof. unfold trim. now rewrite trimStart_idem. Qed.

Lemma safeStr_trim (s fallback : jsstring) :
  safeStr (trim s) fallback = safeStr s fallback.
Proof. unfold safeStr. now rewrite trim_idem. Qed.

Lemma sanitizeIdentifier_trim (host : Host) (s fallback : jsstring) :
  sanitizeIdentifier host (trim s) fallback
  = sanitizeIdentifier host s fallback.
Proof. now rewrite !sanitizeIdentifier_eq, safeStr_trim. Qed.

Lemma mapToJavaType_trim (t : jsstring) :
  mapToJavaType (trim t) = mapToJavaType t.
Proof. unfold mapToJavaType. now rewrite trim_idem. Qed.

Lemma indexOf_first (c : N) (a b : jsstring) :
  ~ In c a -> indexOf c (a ++ c :: b) = Some (List.length a).
Proof.
  induction a as [|x a IH]; intros H; simpl.
  - now rewrite N.eqb_refl.
  - destruct (N.eqb_spec x c) as [->|_]; [exfalso; apply H; now left|].
    rewrite IH; [reflexivity|]. intros Hin. apply H. now right.
Qed.

Lemma firstn_length_app {A : Type} (a b : list A) :
  firstn (List.length a) (a ++ b) = a.
Proof.
  induction a as [|x a IH]; simpl; [reflexivity | now rewrite IH].
Qed.

Lemma skipn_length_cons {A : Type} (a : list A) (c : A) (b : list A) :
  skipn (List.length a + 1) (a ++ c :: b) = b.
Proof.
  induction a as [|x a IH]; simpl; [reflexivity | exact IH].
Qed.

Lemma colon_not_white : isWhiteSpace colon = false.
Proof. reflexivity. Qed.

(** The form [name: Type]: the name is taken from what stands before the
    first colon, the type from what stands after it. *)
Lemma parseAttribute_colon (host : Host) (a b : jsstring) (index : nat) :
  ~ In colon a ->
  parseAttribute host (a ++ colon :: b) index
  = {| attrType := mapToJavaType (safeStr b (lit "String"));
       attrName :=
         toCamelCase host (sanitizeIdentifier host a (fieldFallback index)) |}.
Proof.
  intros Ha. unfold parseAttribute. rewrite safeStr_empty_fallback.
  assert (E : trim (a ++ colon :: b) = trimStart a ++ colon :: trimEnd b).
  { unfold trim.
    rewrite (trimStart_app_nonwhite _ _ _ colon_not_white).
    apply (trimEnd_app_nonwhite _ _ _ colon_not_white). }
  rewrite E. cbv zeta.
  assert (Hne : nonEmpty (trimStart a ++ colon :: trimEnd b) = true)
    by (destruct (trimStart a); reflexivity).
  rewrite Hne. cbn [negb].
  change 58 with colon.
  rewrite indexOf_first
    by (intros Hin; apply Ha; now apply trimStart_incl in Hin).
  rewrite firstn_length_app, skipn_length_cons.
  rewrite trim_trimStart, sanitizeIdentifier_trim, mapToJavaType_trim.
  f_equal. f_equal. unfold safeStr. now rewrite trim_trimEnd.
Qed.

Lemma first_occurrence (c : N) (s : jsstring) :
  In c s -> exists a b, s = a ++ c :: b /\ ~ In c a.
Proof.
  induction s as [|x s IH]; intros H; [destruct H|].
  destruct (N.eqb_spec x c) as [->|Hx].
  - exists [], s. split; [reflexivity | intros []].
  - destruct H as [H|H]; [congruence|].
    destruct (IH H) as (a & b & -> & Ha). exists (x :: a), b.
    split; [reflexivity|]. intros [Hin|Hin]; [congruence | now apply Ha].
Qed.

(** X20: every attribute line that holds a colon is read in the form
    [name: Type].  With [a] what stands before its first colon and [b] what
    stands after it, the name is the camel-cased sanitized [a] (the fallback
    [field_<index+1>] when [a] is blank) and the type is what the resolver
    gives for [b] ([String] when [b] is blank); further colons belong to
    [b]. *)
Theorem X20_colon_form (host : Host) (line : jsstring) (index : nat) :
  In colon line ->
  exists a b,
    line = a ++ colon :: b /\ ~ In colon a
    /\ parseAttribute host line index
       = {| attrType := mapToJavaType (safeStr b (lit "String"));
            attrName :=
              toCamelCase host
                (sanitizeIdentifier host a (fieldFallback index)) |}.
Proof.
  intros H. destruct (first_occurrence colon line H) as (a & b & -> & Ha).
  exists a, b. split; [reflexivity|]. split; [exact Ha|].
  now apply parseAttribute_colon.
Qed.

Lemma X20_colon_form_witness :
  In colon (lit " unit price : money: x ")
  /\ exists a b,
       lit " unit price : money: x " = a ++ colon :: b /\ ~ In colon a
       /\ parseAttribute asciiHost (lit " unit price : money: x ") 0
          = {| attrType := mapToJavaType (safeStr b (lit "String"));
               attrName :=
                 toCamelCase asciiHost
                   (sanitizeIdentifier asciiHost a (fieldFallback 0)) |}.
Proof.
  assert (H : In colon (lit " unit price : money: x "))
    by (apply (indexOf_Some_In colon _ 12); vm_compute; reflexivity).
  split; [exact H|].
  exact (X20_colon_form asciiHost (lit " unit price : money: x ") 0 H).
Defined.

(* ------------------------------------------------------------------ *)
(** ** From the side bar to the generator *)

Lemma asciiIdChar_ident (host : Host) (c : N) :
  isAsciiIdentifierChar c = true -> isIdentifierChar host c = true.
Proof.
  intros H. pose proof (asciiIdChar_bounds c H).
  rewrite ascii_identifierChar by lia. exact H.
Qed.

Lemma ascii_identifier_clean (host : Host) (s : jsstring) :
  isAsciiIdentifier s = true -> CleanName host s.
Proof.
  intros H. apply isAsciiIdentifier_parts in H as (Hne & Hall & Hd).
  split; [exact Hne|]. split; [|exact Hd].
  apply Forall_forall. intros x Hx. rewrite forallb_forall in Hall.
  apply asciiIdChar_ident. now apply Hall.
Qed.

Lemma numbered_identifier (p : jsstring) (n : nat) :
  isAsciiIdentifier p = true -> isAsciiIdentifier (p ++ natToString n) = true.
Proof.
  intros H. apply isAsciiIdentifier_parts in H as (Hne & Hall & Hd).
  apply isAsciiIdentifier_parts. destruct p as [|c p]; [congruence|].
  split; [discriminate|]. split; [|exact Hd].
  unfold natToString. now rewrite forallb_app, Hall, uintDigits_identifierChars.
Qed.

Lemma colon_not_identifierChar (host : Host) :
  isIdentifierChar host colon = false.
Proof. reflexivity. Qed.

Lemma clean_no_colon (host : Host) (n : jsstring) :
  CleanName host n -> ~ In colon n.
Proof.
  intros (_ & Hall & _) Hin. rewrite Forall_forall in Hall.
  specialize (Hall _ Hin). rewrite colon_not_identifierChar in Hall.
  discriminate.
Qed.

Lemma editor_sanitize_clean (host : Host) (raw fallback : jsstring) :
  CleanName host fallback ->
  CleanName host (Sidebar.sanitizeIdentifier host raw fallback).
Proof.
  intros Hf. destruct (trim raw) as [|c s] eqn:E.
  - now rewrite (editor_sanitize_blank host raw fallback E).
  - rewrite (editor_sanitize_nonblank host raw fallback fallback)
      by (rewrite E; discriminate).
    apply sanitizeIdentifier_clean. unfold safeStr. cbv zeta. rewrite E.
    discriminate.
Qed.

Lemma attributeName_clean (host : Host) (line : jsstring) (i : nat) :
  CleanName host (Sidebar.attributeName host line i).
Proof.
  unfold Sidebar.attributeName. cbv zeta. apply editor_sanitize_clean.
  apply ascii_identifier_clean, numbered_identifier.
  vm_compute. reflexivity.
Qed.

Lemma String_token : Token (lit "String").
Proof.
  split; [discriminate|]. apply Forall_forall. intros x Hx.
  assert (H : forallb (fun c => negb (isWhiteSpace c)) (lit "String") = true)
    by (vm_compute; reflexivity).
  rewrite forallb_forall in H. specialize (H x Hx).
  now apply negb_true_iff in H.
Qed.

Lemma attributeType_trimmed (line : jsstring) :
  trim (Sidebar.attributeType line) = Sidebar.attributeType line
  /\ Sidebar.attributeType line <> [].
Proof.
  unfold Sidebar.attributeType. cbv zeta.
  match goal with
  | |- context [nonEmpty (trim ?x)] => generalize x; intros v
  end.
  destruct (nonEmpty (trim v)) eqn:E.
  - split; [apply trim_idem|]. intros H. rewrite H in E. discriminate.
  - split; [apply trim_token, String_token | discriminate].
Qed.

(** X21: the generator reads back what the editor wrote.  The line the
    editor hands over for an attribute is [nombre: tipo]; on a host where no
    white space character is a letter or a number, [parseAttribute] gives
    for it the camel-cased [nombre] as the name and the resolver's type for
    [tipo], whatever the index. *)
Theorem X21_editor_line_read_back (host : Host) (line : jsstring)
  (i index : nat) :
  HostSane host ->
  parseAttribute host (Sidebar.attributeLine host line i) index
  = {| attrType := mapToJavaType (Sidebar.attributeType line);
       attrName := toCamelCase host (Sidebar.attributeName host line i) |}.
Proof.
  intros Hs. unfold Sidebar.attributeLine. cbv zeta.
  pose proof (attributeName_clean host line i) as Hc.
  destruct (attributeType_trimmed line) as [Ht Hne].
  change (lit ": ") with [colon; 32]. cbn [app].
  rewrite (parseAttribute_colon host _ _ index (clean_no_colon host _ Hc)).
  rewrite (sanitizeIdentifier_fixed host _ _ Hs Hc).
  f_equal. f_equal. unfold safeStr. cbv zeta.
  assert (E : trim (32 :: Sidebar.attributeType line)
              = Sidebar.attributeType line).
  { unfold trim. cbn [trimStart].
    change (isWhiteSpace 32) with true. cbv iota. exact Ht. }
  rewrite E. destruct (Sidebar.attributeType line); [congruence|reflexivity].
Qed.

Lemma X21_editor_line_read_back_witness :
  Sidebar.attributeLine asciiHost (lit "Unit price : money : x") 0
  = lit "Unit_price: money"
  /\ parseAttribute asciiHost
       (Sidebar.attributeLine asciiHost (lit "Unit price : money : x") 0) 7
     = {| attrType := VStr (lit "BigDecimal"); attrName := lit "unit_price" |}.
Proof.
  split; [vm_compute; reflexivity|].
  rewrite (X21_editor_line_read_back asciiHost (lit "Unit price : money : x")
             0 7 asciiHost_sane).
  vm_compute. reflexivity.
Defined.

Lemma classFallback_identifier (idx : nat) :
  isAsciiIdentifier (Sidebar.classFallback idx) = true.
Proof.
  unfold Sidebar.classFallback. apply numbered_identifier.
  vm_compute. reflexivity.
Qed.

Lemma editor_sanitize_identifier (host : Host) (s fallback : jsstring) :
  isAsciiIdentifier s = true ->
  Sidebar.sanitizeIdentifier host s fallback = s.
Proof.
  intros H. pose proof (isAsciiIdentifier_token s H) as T.
  pose proof (ascii_identifier_clean host s H) as (Hne & Hall & Hd).
  unfold Sidebar.sanitizeIdentifier. cbv zeta. rewrite (trim_token _ T).
  destruct s as [|c s]; [congruence|]. cbn [nonEmpty negb].
  fold (sanitizeChar host). rewrite (map_sanitizeChar_id host _ Hall).
  now rewrite Hd.
Qed.

(** X22: an edge finds the class of a node exactly when the node has a
    name that is not blank.  For such a name the end of the relation and the
    class get the same sanitized name; for a blank or missing name the class
    is called [Clase_<idx+1>] while the end of the relation is the fallback
    of the edge, and [Clase_<idx+1>] is neither [Source] nor [Target]. *)
Theorem X22_node_and_edge_names (host : Host) (dataName fallback : jsstring)
  (idx : nat) :
  (trim dataName <> [] ->
   Sidebar.endpoint host dataName fallback
   = Sidebar.className host dataName idx)
  /\ (trim dataName = [] ->
      Sidebar.className host dataName idx = Sidebar.classFallback idx
      /\ Sidebar.endpoint host dataName fallback = fallback)
  /\ Sidebar.classFallback idx <> lit "Source"
  /\ Sidebar.classFallback idx <> lit "Target".
Proof.
  split; [|split].
  - intros H. unfold Sidebar.endpoint, Sidebar.className. cbv zeta.
    assert (Hn : nonEmpty dataName = true).
    { destruct dataName; [|reflexivity]. exfalso. now apply H. }
    rewrite Hn.
    rewrite (editor_sanitize_nonblank host dataName fallback
               (Sidebar.classFallback idx) H).
    rewrite (editor_sanitize_nonblank host dataName (Sidebar.classFallback idx)
               (Sidebar.classFallback idx) H).
    destruct (sanitizeIdentifier_clean host dataName (Sidebar.classFallback idx))
      as (Hne & _).
    { unfold safeStr. cbv zeta. destruct (trim dataName); [congruence|].
      discriminate. }
    destruct (sanitizeIdentifier host dataName (Sidebar.classFallback idx));
      [congruence | reflexivity].
  - intros H. split.
    + unfold Sidebar.className. cbv zeta.
      destruct (nonEmpty dataName).
      * now apply editor_sanitize_blank.
      * apply editor_sanitize_identifier, classFallback_identifier.
    + unfold Sidebar.endpoint. cbv zeta.
      rewrite (editor_sanitize_blank host dataName fallback H).
      now destruct (nonEmpty fallback).
  - unfold Sidebar.classFallback.
    change (lit "Clase_") with [67; 108; 97; 115; 101; 95].
    split; discriminate.
Qed.

Lemma X22_node_and_edge_names_witness :
  trim (lit " Order item ") <> []
  /\ Sidebar.endpoint asciiHost (lit " Order item ") (lit "Source")
     = Sidebar.className asciiHost (lit " Order item ") 0
  /\ trim (lit " ") = []
  /\ Sidebar.className asciiHost (lit " ") 2 = lit "Clase_3"
  /\ Sidebar.endpoint asciiHost (lit " ") (lit "Source") = lit "Source".
Proof.
  assert (H1 : trim (lit " Order item ") <> []) by (vm_compute; discriminate).
  assert (H2 : trim (lit " ") = []) by (vm_compute; reflexivity).
  split; [exact H1|].
  split; [exact (proj1 (X22_node_and_edge_names asciiHost (lit " Order item ")
                          (lit "Source") 0) H1)|].
  split; [exact H2|].
  destruct (proj1 (proj2 (X22_node_and_edge_names asciiHost (lit " ")
                            (lit "Source") 2)) H2) as [E1 E2].
  split; [rewrite E1; vm_compute; reflexivity | exact E2].
Defined.

(* ------------------------------------------------------------------ *)
(** ** Searching a string *)

Lemma startsWith_app_sep (needle : jsstring) (c : N) :
  ~ In c needle ->
  forall a s, startsWith (a ++ c :: s) needle = startsWith a needle.
Proof.
  induction needle as [|x p IH]; intros Hc a s.
  - destruct a; reflexivity.
  - assert (Hx : x <> c) by (intros ->; apply Hc; now left).
    assert (Hp : ~ In c p) by (intros H; apply Hc; now right).
    destruct a as [|y a]; cbn [app startsWith].
    + apply N.eqb_neq in Hx. now rewrite Hx.
    + now rewrite (IH Hp).
Qed.

Lemma stringIncludes_app_sep (needle : jsstring) (c : N) :
  needle <> [] -> ~ In c needle ->
  forall a s,
    stringIncludes (a ++ c :: s) needle
    = stringIncludes a needle || stringIncludes s needle.
Proof.
  intros Hne Hc a s. induction a as [|y a IH].
  - pose proof (startsWith_app_sep needle c Hc [] s) as H0.
    cbn [app] in H0. cbn [app stringIncludes]. rewrite H0.
    destruct needle; [congruence | reflexivity].
  - change ((y :: a) ++ c :: s) with (y :: (a ++ c :: s)).
    cbn [stringIncludes]. rewrite IH.
    change (y :: (a ++ c :: s)) with ((y :: a) ++ c :: s).
    rewrite (startsWith_app_sep needle c Hc (y :: a) s).
    now rewrite orb_assoc.
Qed.

Lemma startsWith_app (p b : jsstring) : startsWith (p ++ b) p = true.
Proof.
  induction p as [|x p IH]; [destruct b; reflexivity|].
  cbn [app startsWith]. now rewrite N.eqb_refl, IH.
Qed.

Lemma stringIncludes_at (a w b : jsstring) :
  stringIncludes (a ++ w ++ b) w = true.
Proof.
  induction a as [|y a IH].
  - cbn [app]. destruct (w ++ b) eqn:E; cbn [stringIncludes];
      rewrite <- E, startsWith_app; reflexivity.
  - cbn [app stringIncludes]. rewrite IH. apply orb_true_r.
Qed.

Lemma not_In_forallb (c : N) (w : jsstring) :
  forallb (fun x => negb (x =? c)) w = true -> ~ In c w.
Proof.
  intros H Hin. rewrite forallb_forall in H. specialize (H c Hin).
  now rewrite N.eqb_refl in H.
Qed.

Lemma EndsIn_app_sep (d : jsstring) (c : N) (s : jsstring) :
  ~ In c d -> forall a, EndsIn (a ++ c :: s) d <-> EndsIn s d.
Proof.
  intros Hc a. split.
  - intros [p E]. revert a E. induction p as [|y p IH]; intros a E.
    + exfalso. apply Hc. cbn [app] in E. rewrite <- E.
      apply in_elt.
    + destruct a as [|y' a]; cbn [app] in E; injection E as _ E.
      * now exists p.
      * now apply (IH a).
  - intros [p ->]. exists (a ++ c :: p). now rewrite <- app_assoc.
Qed.

Lemma EndsIn_app_tail (x d t : jsstring) :
  EndsIn (x ++ t) (d ++ t) <-> EndsIn x d.
Proof.
  split.
  - intros [p E]. rewrite app_assoc in E. apply app_inv_tail in E.
    now exists p.
  - intros [p ->]. exists p. now rewrite <- app_assoc.
Qed.

(* ------------------------------------------------------------------ *)
(** ** The folders of the archive *)

Lemma classPathPrefix_split (k : ArtifactKind) :
  classPathPrefix k = kindDirectory k ++ [slash].
Proof. destruct k; vm_compute; reflexivity. Qed.

Lemma classPathSuffix_split (k : ArtifactKind) :
  classPathSuffix k = kindWord k ++ dot :: lit "java".
Proof. destruct k; vm_compute; reflexivity. Qed.

Lemma classPath_split (k : ArtifactKind) (pn : jsstring) :
  classPath k pn
  = kindDirectory k ++ slash :: (pn ++ kindWord k) ++ dot :: lit "java".
Proof.
  unfold classPath.
  rewrite classPathPrefix_split, classPathSuffix_split, <- !app_assoc.
  reflexivity.
Qed.

Lemma stringIncludes_path (k : ArtifactKind) (pn w : jsstring) :
  In w routedWords ->
  stringIncludes (classPath k pn) w = stringIncludes (pn ++ kindWord k) w.
Proof.
  intros Hw. rewrite classPath_split.
  assert (Hne : w <> [])
    by (destruct Hw as [<-|[<-|[<-|[]]]]; discriminate).
  assert (Hs : ~ In slash w)
    by (destruct Hw as [<-|[<-|[<-|[]]]]; apply not_In_forallb;
        vm_compute; reflexivity).
  assert (Hd : ~ In dot w)
    by (destruct Hw as [<-|[<-|[<-|[]]]]; apply not_In_forallb;
        vm_compute; reflexivity).
  assert (Hdir : stringIncludes (kindDirectory k) w = false)
    by (destruct Hw as [<-|[<-|[<-|[]]]]; destruct k;
        vm_compute; reflexivity).
  assert (Hj : stringIncludes (lit "java") w = false)
    by (destruct Hw as [<-|[<-|[<-|[]]]]; vm_compute; reflexivity).
  rewrite (stringIncludes_app_sep w slash Hne Hs), Hdir. cbn [orb].
  rewrite (stringIncludes_app_sep w dot Hne Hd), Hj. apply orb_false_r.
Qed.

Lemma stringIncludes_before (pn w : jsstring) (c : N) (rest : jsstring) :
  w <> [] -> ~ In c w -> stringIncludes rest w = false ->
  stringIncludes (pn ++ c :: rest) w = stringIncludes pn w.
Proof.
  intros Hne Hc Hr.
  rewrite (stringIncludes_app_sep w c Hne Hc), Hr. apply orb_false_r.
Qed.

Lemma endsWith_model_path (pn : jsstring) :
  endsWith (classPath Model pn) (lit "DTO.java") = endsWith pn (lit "DTO").
Proof.
  apply eq_true_iff_eq. rewrite !endsWith_EndsIn, classPath_split.
  cbn [kindWord]. rewrite app_nil_r.
  change (lit "DTO.java") with (lit "DTO" ++ dot :: lit "java").
  change (kindDirectory Model ++ slash :: pn ++ dot :: lit "java")
    with (kindDirectory Model ++ (slash :: pn) ++ dot :: lit "java").
  rewrite app_assoc, EndsIn_app_tail.
  apply EndsIn_app_sep. apply not_In_forallb. vm_compute. reflexivity.
Qed.

Lemma endsWith_dto_path (pn : jsstring) :
  endsWith (classPath Dto pn) (lit "DTO.java") = true.
Proof.
  apply endsWith_EndsIn. unfold classPath. cbn [classPathSuffix].
  exists (classPathPrefix Dto ++ pn). now rewrite <- app_assoc.
Qed.

Lemma endsWith_other_path (k : ArtifactKind) (pn : jsstring) :
  k <> Model -> k <> Dto ->
  endsWith (classPath k pn) (lit "DTO.java") = false.
Proof.
  intros Hm Hd. destruct (endsWith (classPath k pn) (lit "DTO.java")) eqn:E;
    [|reflexivity].
  exfalso. apply endsWith_EndsIn in E. rewrite classPath_split in E.
  change (lit "DTO.java") with (lit "DTO" ++ dot :: lit "java") in E.
  change (kindDirectory k ++ slash :: (pn ++ kindWord k) ++ dot :: lit "java")
    with (kindDirectory k ++ (slash :: pn ++ kindWord k) ++ dot :: lit "java")
    in E.
  rewrite app_assoc in E. apply EndsIn_app_tail in E. destruct E as [p E].
  change (lit "DTO") with (lit "DT" ++ [79]) in E.
  assert (L : exists w c, kindWord k = w ++ [c] /\ c <> 79).
  { destruct k; try congruence.
    - exists (lit "Repositor"), 121. split; [reflexivity | discriminate].
    - exists (lit "Servic"), 101. split; [reflexivity | discriminate].
    - exists (lit "Controlle"), 114. split; [reflexivity | discriminate]. }
  destruct L as (w & c & Hw & Hc). rewrite Hw in E.
  revert E. rewrite !app_comm_cons, !app_assoc.
  now apply last_char_differs.
Qed.

Lemma folderOf_fixed (p : jsstring) :
  In p fixedPaths -> Sidebar.folderOf p = Sidebar.modelFolder.
Proof.
  intros H. unfold fixedPaths, staticFiles in H. cbn [map fst app] in H.
  repeat (destruct H as [<-|H]; [vm_compute; reflexivity|]). destruct H.
Qed.

(** X23: where the files of a class end up in the archive.  The DTO goes to
    the DTO folder and the repository to the repository folder, whatever the
    class name.  All five files of a class go to the folder of their kind
    exactly when the Pascal-cased class name does not end in [DTO] and holds
    none of the words [Repository], [Service] and [Controller].  The
    scaffolding files and the Postman documents of the file map go to the
    model folder. *)
Theorem X23_class_files_routing (pn : jsstring) :
  Sidebar.folderOf (classPath Dto pn) = Sidebar.dtoFolder
  /\ Sidebar.folderOf (classPath Repository pn) = Sidebar.repoFolder
  /\ ((forall k, Sidebar.folderOf (classPath k pn) = kindFolder k)
      <-> plainClassName pn = true)
  /\ (forall p, In p fixedPaths -> Sidebar.folderOf p = Sidebar.modelFolder).
Proof.
  assert (R : In (lit "Repository") routedWords) by (now left).
  assert (S : In (lit "Service") routedWords) by (right; now left).
  assert (C : In (lit "Controller") routedWords) by (right; right; now left).
  assert (Dt : Sidebar.folderOf (classPath Dto pn) = Sidebar.dtoFolder).
  { unfold Sidebar.folderOf. now rewrite endsWith_dto_path. }
  assert (Rp : Sidebar.folderOf (classPath Repository pn)
               = Sidebar.repoFolder).
  { unfold Sidebar.folderOf.
    rewrite endsWith_other_path by discriminate.
    rewrite (stringIncludes_path Repository pn _ R). cbn [kindWord].
    rewrite <- (app_nil_r (lit "Repository")) at 1.
    now rewrite stringIncludes_at. }
  assert (Md : Sidebar.folderOf (classPath Model pn)
               = if endsWith pn (lit "DTO") then Sidebar.dtoFolder
                 else if stringIncludes pn (lit "Repository")
                 then Sidebar.repoFolder
                 else if stringIncludes pn (lit "Service")
                 then Sidebar.serviceFolder
                 else if stringIncludes pn (lit "Controller")
                 then Sidebar.controllerFolder
                 else Sidebar.modelFolder).
  { unfold Sidebar.folderOf. rewrite endsWith_model_path.
    rewrite (stringIncludes_path Model pn _ R),
      (stringIncludes_path Model pn _ S), (stringIncludes_path Model pn _ C).
    cbn [kindWord]. now rewrite app_nil_r. }
  split; [exact Dt|]. split; [exact Rp|]. split; [|apply folderOf_fixed].
  unfold plainClassName. split.
  - intros H. specialize (H Model). rewrite Md in H. cbn [kindFolder] in H.
    destruct (endsWith pn (lit "DTO")); [discriminate|].
    destruct (stringIncludes pn (lit "Repository")); [discriminate|].
    destruct (stringIncludes pn (lit "Service")); [discriminate|].
    destruct (stringIncludes pn (lit "Controller")); [discriminate|].
    reflexivity.
  - intros H. apply andb_true_iff in H as [H H4].
    apply andb_true_iff in H as [H H3]. apply andb_true_iff in H as [H1 H2].
    apply negb_true_iff in H1, H2, H3, H4.
    intros [| | | |]; cbn [kindFolder].
    + now rewrite Md, H1, H2, H3, H4.
    + exact Dt.
    + exact Rp.
    + unfold Sidebar.folderOf. rewrite endsWith_other_path by discriminate.
      rewrite (stringIncludes_path Service pn _ R),
        (stringIncludes_path Service pn _ S).
      cbn [kindWord].
      change (lit "Service") with (83 :: lit "ervice") at 1.
      rewrite stringIncludes_before, H2;
        [| discriminate
         | apply not_In_forallb; vm_compute; reflexivity
         | vm_compute; reflexivity].
      rewrite <- (app_nil_r (lit "Service")) at 1.
      now rewrite stringIncludes_at.
    + unfold Sidebar.folderOf. rewrite endsWith_other_path by discriminate.
      rewrite (stringIncludes_path Controller pn _ R),
        (stringIncludes_path Controller pn _ S),
        (stringIncludes_path Controller pn _ C).
      cbn [kindWord].
      change (lit "Controller") with (67 :: lit "ontroller") at 1.
      rewrite stringIncludes_before, H2;
        [| discriminate
         | apply not_In_forallb; vm_compute; reflexivity
         | vm_compute; reflexivity].
      change (lit "Controller") with (67 :: lit "ontroller") at 1.
      rewrite stringIncludes_before, H3;
        [| discriminate
         | apply not_In_forallb; vm_compute; reflexivity
         | vm_compute; reflexivity].
      rewrite <- (app_nil_r (lit "Controller")) at 1.
      now rewrite stringIncludes_at.
Qed.

Lemma X23_class_files_routing_witness :
  plainClassName (lit "OrderItem") = true
  /\ Sidebar.folderOf (classPath Service (lit "OrderItem"))
     = Sidebar.serviceFolder
  /\ Sidebar.folderOf (lit "pom.xml") = Sidebar.modelFolder.
Proof.
  assert (H : plainClassName (lit "OrderItem") = true)
    by (vm_compute; reflexivity).
  split; [exact H|]. split.
  - exact (proj2 (proj1 (proj2 (proj2
             (X23_class_files_routing (lit "OrderItem"))))) H Service).
  - apply (proj2 (proj2 (proj2 (X23_class_files_routing (lit "OrderItem"))))).
    vm_compute. tauto.
Defined.
(* ------------------------------------------------------------------ *)
(** ** The imports of a DTO *)

Lemma addTypeImport_importOf (type : jsvalue) (imports : list jsstring) :
  addTypeImport type imports
  = match importOf type with
    | Some i => setAdd imports i
    | None => imports
    end.
Proof.
  unfold addTypeImport, importOf.
  destruct (isStr type "BigDecimal"); [reflexivity|].
  destruct (isStr type "LocalDate"); [reflexivity|].
  destruct (isStr type "LocalDateTime"); [reflexivity|].
  destruct (isStr type "UUID"); reflexivity.
Qed.

Lemma setAdd_NoDup (used : list jsstring) (x : jsstring) :
  NoDup used -> NoDup (setAdd used x).
Proof.
  intros H. unfold setAdd. destruct (includes used x) eqn:E; [exact H|].
  apply includes_not_In in E. apply NoDup_app; [exact H | |].
  - constructor; [intros [] | constructor].
  - intros a Ha [<-|[]]. contradiction.
Qed.

Lemma imports_fold (ps : list ParsedAttr) :
  forall acc,
    NoDup acc ->
    NoDup (fold_left (fun imports p => addTypeImport (attrType p) imports)
                     ps acc)
    /\ forall imp,
         In imp (fold_left (fun imports p => addTypeImport (attrType p) imports)
                           ps acc)
         <-> In imp acc
             \/ exists p, In p ps /\ importOf (attrType p) = Some imp.
Proof.
  induction ps as [|p ps IH]; intros acc Hacc; cbn [fold_left].
  - split; [exact Hacc|]. intros imp. split; [now left|].
    intros [H|(p & [] & _)]. exact H.
  - rewrite addTypeImport_importOf.
    destruct (importOf (attrType p)) as [i|] eqn:E.
    + destruct (IH (setAdd acc i) (setAdd_NoDup _ _ Hacc)) as [Hnd Hin].
      split; [exact Hnd|]. intros imp. rewrite Hin, setAdd_In. split.
      * intros [[->|H]|(q & Hq & Eq)].
        -- right. exists p. split; [now left | exact E].
        -- now left.
        -- right. exists q. split; [now right | exact Eq].
      * intros [H|(q & [<-|Hq] & Eq)].
        -- left. now right.
        -- left. left. congruence.
        -- right. now exists q.
    + destruct (IH acc Hacc) as [Hnd Hin].
      split; [exact Hnd|]. intros imp. rewrite Hin. split.
      * intros [H|(q & Hq & Eq)]; [now left|].
        right. exists q. split; [now right | exact Eq].
      * intros [H|(q & [<-|Hq] & Eq)]; [now left | congruence |].
        right. now exists q.
Qed.

Lemma java_types_imported :
  forallb (fun v => includes javaLangTypes v
                    || match importOf (VStr v) with
                       | Some _ => true
                       | None => false
                       end) javaTypes = true.
Proof. vm_compute. reflexivity. Qed.

(** X24: a DTO imports what its fields need.  The set of imports of
    [generateDTO] holds no line twice; it holds an import exactly when a kept
    field has the type of that import; and every Java type of the table that
    a kept field has is either one of Integer, Long, String, Double, Float
    and Boolean, which need no import, or imported. *)
Theorem X24_dto_imports (host : Host) (cls : ClassDefinition) :
  NoDup (dtoImports host cls)
  /\ (forall imp,
        In imp (dtoImports host cls)
        <-> exists p, In p (dtoFields host cls)
                      /\ importOf (attrType p) = Some imp)
  /\ (forall p v,
        In p (dtoFields host cls) -> attrType p = VStr v ->
        In v javaTypes ->
        In v javaLangTypes
        \/ exists imp, importOf (VStr v) = Some imp
                       /\ In imp (dtoImports host cls)).
Proof.
  unfold dtoImports.
  destruct (imports_fold (dtoFields host cls) [] (NoDup_nil _)) as [Hnd Hin].
  assert (Hin' : forall imp,
             In imp (fold_left
                       (fun imports p => addTypeImport (attrType p) imports)
                       (dtoFields host cls) [])
             <-> exists p, In p (dtoFields host cls)
                           /\ importOf (attrType p) = Some imp).
  { intros imp. rewrite Hin. split; [intros [[]|H]; exact H | now right]. }
  split; [exact Hnd|]. split; [exact Hin'|].
  intros p v Hp Ht Hv.
  pose proof java_types_imported as J. rewrite forallb_forall in J.
  specialize (J v Hv). apply orb_true_iff in J as [J|J].
  - left. now apply includes_In.
  - right. destruct (importOf (VStr v)) as [imp|] eqn:E; [|discriminate].
    exists imp. split; [reflexivity|]. apply Hin'. exists p.
    split; [exact Hp | now rewrite Ht].
Qed.

Lemma X24_dto_imports_witness :
  In {| attrType := VStr (lit "BigDecimal"); attrName := lit "price" |}
     (dtoFields asciiHost classProduct)
  /\ dtoImports asciiHost classProduct = [lit "import java.math.BigDecimal;"]
  /\ exists imp,
       importOf (VStr (lit "BigDecimal")) = Some imp
       /\ In imp (dtoImports asciiHost classProduct).
Proof.
  assert (H : In {| attrType := VStr (lit "BigDecimal");
                    attrName := lit "price" |}
                 (dtoFields asciiHost classProduct))
    by (vm_compute; tauto).
  split; [exact H|]. split; [vm_compute; reflexivity|].
  destruct (proj2 (proj2 (X24_dto_imports asciiHost classProduct))
              _ (lit "BigDecimal") H eq_refl) as [Hl|He].
  - apply includes_In. vm_compute. reflexivity.
  - exfalso. apply includes_In in Hl. vm_compute in Hl. discriminate.
  - exact He.
Defined.

(* ------------------------------------------------------------------ *)
(** ** The two sides of a relation *)

Lemma relationLines_at_most_one (host : Host) (className : jsstring)
  (r : RelationDefinition) :
  (List.length (relationLines host className r) <= 1)%nat.
Proof.
  unfold relationLines. cbv zeta.
  destruct (type r), (eqs (source r) className), (bidirectional r);
    cbn [List.length]; lia.
Qed.

(** X25: which side of a relation declares a member.  The switch of
    [generateFields] gives exactly one line for the source class of a
    relation, whatever its type; for the target class (when it is another
    class) it gives no line exactly when the relation is not ONE_TO_MANY and
    not bidirectional; and it never gives more than one line. *)
Theorem X25_relation_sides (host : Host) (r : RelationDefinition) :
  List.length (relationLines host (source r) r) = 1%nat
  /\ (source r <> target r ->
      (relationLines host (target r) r = []
       <-> type r <> ONE_TO_MANY /\ bidirectional r = false))
  /\ (forall className,
        (List.length (relationLines host className r) <= 1)%nat).
Proof.
  split; [|split].
  - unfold relationLines. cbv zeta. rewrite eqs_refl.
    destruct (type r); reflexivity.
  - intros H. apply eqs_neq in H. unfold relationLines. cbv zeta.
    rewrite H. destruct (type r), (bidirectional r); split;
      try (intros [? ?]); try intros ?; try discriminate; try congruence;
      try (split; [discriminate | reflexivity]); reflexivity.
  - intros className. apply relationLines_at_most_one.
Qed.

Lemma X25_relation_sides_witness :
  let r := mkRelation "Order" "Customer" MANY_TO_ONE false in
  source r <> target r
  /\ relationLines asciiHost (target r) r = [].
Proof.
  intros r.
  assert (H : source r <> target r) by (vm_compute; discriminate).
  split; [exact H|].
  apply (proj1 (proj2 (X25_relation_sides asciiHost r)) H).
  split; [discriminate | reflexivity].
Defined.




(* ------------------------------------------------------------------ *)
(** ** Entities whose members have distinct names *)







(* ------------------------------------------------------------------ *)
(** ** The owner a [mappedBy] names *)

Lemma entityFields_declares (host : Host) (g : JavaSpringGenerator)
  (cls : ClassDefinition) (pre post : list RelationDefinition)
  (r : RelationDefinition) (f : Field) :
  relations g = pre ++ r :: post ->
  touches (name cls) r = true ->
  In f (snd (relationStep host (name cls) (usedBefore host cls pre) r)) ->
  In f (entityFields host g cls).
Proof.
  intros Hrel Ht Hf.
  destruct (entityFields_relation host g cls pre post r Hrel Ht)
    as (used & before & after & E & Hu).
  unfold usedBefore in Hf. rewrite <- Hu in Hf. rewrite E.
  apply in_or_app. right. apply in_or_app. now left.
Qed.

Lemma relationStep_free (host : Host) (className : jsstring)
  (used : list jsstring) (r : RelationDefinition) :
  ~ In (relationFieldName host className r) used ->
  snd (relationStep host className used r) = relationLines host className r.
Proof.
  intros H. unfold relationStep. cbv zeta. apply includes_not_In in H.
  now rewrite H.
Qed.

Lemma relationStep_lines (host : Host) (className : jsstring)
  (used : list jsstring) (r : RelationDefinition) (f : Field) :
  In f (snd (relationStep host className used r)) ->
  In f (relationLines host className r).
Proof.
  unfold relationStep. cbv zeta.
  destruct (includes used (relationFieldName host className r)); cbn [snd];
    [intros [] | trivial].
Qed.

(** X28: in the generated entities a one-to-many collection is mapped by the
    reference its owner declares, as long as the relation is not skipped on
    the owner.  Let [r] be a relation of the generator between two different
    classes, [clsA] its source and [clsB] its target.  For ONE_TO_MANY, if the
    name [r] looks up on [clsB] is free when [r] is processed there, the
    entity of [clsB] declares the reference to the source named
    camel(source), and every line the entity of [clsA] gets from [r] is mapped
    by that name.  For a bidirectional MANY_TO_ONE, if the name [r] looks up
    on [clsA] is free, the entity of [clsA] declares the reference to the
    target named camel(target), and every line the entity of [clsB] gets
    from [r] is mapped by that name. *)
Theorem X28_mappedBy_names_the_owner (host : Host) (g : JavaSpringGenerator)
  (clsA clsB : ClassDefinition) (pre post : list RelationDefinition)
  (r : RelationDefinition) :
  relations g = pre ++ r :: post ->
  name clsA = source r -> name clsB = target r -> source r <> target r ->
  (type r = ONE_TO_MANY ->
   ~ In (relationFieldName host (name clsB) r) (usedBefore host clsB pre) ->
   In (ManyToOneRef (toCamelCase host (source r)) (source r)
         (toCamelCase host (source r)))
      (entityFields host g clsB)
   /\ (forall f,
         In f (snd (relationStep host (name clsA)
                      (usedBefore host clsA pre) r)) ->
         In f (entityFields host g clsA)
         /\ mappedByOf f = Some (toCamelCase host (source r))))
  /\ (type r = MANY_TO_ONE -> bidirectional r = true ->
      ~ In (relationFieldName host (name clsA) r) (usedBefore host clsA pre) ->
      In (ManyToOneRef (toCamelCase host (target r)) (target r)
            (toCamelCase host (target r)))
         (entityFields host g clsA)
      /\ (forall f,
            In f (snd (relationStep host (name clsB)
                         (usedBefore host clsB pre) r)) ->
            In f (entityFields host g clsB)
            /\ mappedByOf f = Some (toCamelCase host (target r)))).
Proof.
  intros Hrel HA HB Hne.
  assert (TA : touches (name clsA) r = true)
    by (unfold touches; now rewrite HA, eqs_refl).
  assert (TB : touches (name clsB) r = true)
    by (unfold touches; rewrite HB, eqs_refl; apply orb_true_r).
  assert (SA : eqs (source r) (name clsA) = true)
    by (rewrite HA; apply eqs_refl).
  assert (SB : eqs (source r) (name clsB) = false)
    by (rewrite HB; now apply eqs_neq).
  split.
  - intros Ht Hfree. split.
    + apply (entityFields_declares host g clsB pre post r _ Hrel TB).
      rewrite (relationStep_free _ _ _ _ Hfree).
      unfold relationLines. cbv zeta. rewrite SB, Ht. now left.
    + intros f Hf. split.
      * exact (entityFields_declares host g clsA pre post r f Hrel TA Hf).
      * apply relationStep_lines in Hf. revert Hf.
        unfold relationLines. cbv zeta. rewrite SA, Ht, HA.
        intros [<-|[]]. reflexivity.
  - intros Ht Hb Hfree. split.
    + apply (entityFields_declares host g clsA pre post r _ Hrel TA).
      rewrite (relationStep_free _ _ _ _ Hfree).
      unfold relationLines. cbv zeta. rewrite SA, Ht. now left.
    + intros f Hf. split.
      * exact (entityFields_declares host g clsB pre post r f Hrel TB Hf).
      * apply relationStep_lines in Hf. revert Hf.
        unfold relationLines. cbv zeta. rewrite SB, Ht, Hb, HB.
        intros [<-|[]]. reflexivity.
Qed.

Lemma X28_mappedBy_names_the_owner_witness :
  let r := mkRelation "Author" "Book" ONE_TO_MANY false in
  ~ In (relationFieldName asciiHost (name classBook) r)
       (usedBefore asciiHost classBook [])
  /\ In (ManyToOneRef (lit "author") (lit "Author") (lit "author"))
        (entityFields asciiHost (gen_author_book false) classBook)
  /\ forall f,
       In f (snd (relationStep asciiHost (name classAuthor)
                    (usedBefore asciiHost classAuthor []) r)) ->
       In f (entityFields asciiHost (gen_author_book false) classAuthor)
       /\ mappedByOf f = Some (lit "author").
Proof.
  intros r.
  assert (Hne : source r <> target r) by (vm_compute; discriminate).
  assert (H : ~ In (relationFieldName asciiHost (name classBook) r)
                   (usedBefore asciiHost classBook []))
    by (apply includes_not_In; vm_compute; reflexivity).
  split; [exact H|].
  exact (proj1 (X28_mappedBy_names_the_owner asciiHost (gen_author_book false)
                  classAuthor classBook [] [] r eq_refl eq_refl eq_refl Hne)
               eq_refl H).
Defined.
